(** * RetailPOS: cart, checkout, inventory, permissions, forecast, reports

    A shallow embedding of the computational part of [script.js] (class
    [RetailPOS]) and the properties its specification states about it.

    Modelling conventions.
    - The fields of [this] that the modelled methods read or write are the
      fields of the record [POS]; a method is a function from [POS] (and
      the values it reads from the page or from the clock) to the new
      [POS] and the notice it shows.
    - JavaScript numbers that the program only ever produces by [parseInt],
      [++], [Date.now()] or integer literals (ids, quantities, stock, time
      values in milliseconds) are [Z].  Prices and money amounts are exact
      rationals [Q]: the arithmetic laws proved below are those of the
      ideal numbers, IEEE rounding, infinities and NaN are outside the
      model.  [0.1] is [1 # 10].
    - Values read from the page ([document.getElementById(..).value],
      [.checked]) and from the clock ([Date.now()], [new Date()]) are
      explicit arguments.
    - Rendering, persistence to [localStorage] and chart updates do not
      change any modelled field and are left out. *)

From Stdlib Require Import ZArith QArith Qminmax Qabs Qround Lqa Lia.
From Stdlib Require Import List String Ascii DecimalString Bool.
From Stdlib Require Import Sorted Permutation.
From stdpp Require Import gmap strings.
Import ListNotations.

Local Open Scope Z_scope.
Local Open Scope string_scope.
Local Open Scope list_scope.

(** ** Data model *)

Record Product := mkProduct {
  product_id : Z;
  product_name : string;
  product_category : string;
  product_price : Q;
  product_stock : Z;
  product_barcode : option string;
  product_description : string;
  product_quickKey : option Z
}.

Record CartItem := mkCartItem {
  item_id : Z;
  item_name : string;
  item_price : Q;
  item_quantity : Z
}.

Record Discount := mkDiscount {
  discount_type : string;
  discount_value : Q;
  discount_code : string
}.

Record Customer := mkCustomer {
  customer_name : string;
  customer_phone : string
}.

Record Sale := mkSale {
  sale_id : Z;
  sale_date : Z;
  sale_customer : Customer;
  sale_items : list CartItem;
  sale_subtotal : Q;
  sale_discount : Q;
  sale_discountType : string;
  sale_discountValue : Q;
  sale_tax : Q;
  sale_total : Q
}.

Record User := mkUser {
  user_id : Z;
  user_name : string;
  user_username : string;
  user_password : string;
  user_role : string;
  user_email : string;
  user_lastLogin : option Z;
  user_isActive : bool;
  user_createdAt : Z
}.

(** [currentFilter]: [startDate] and [endDate] are [null] (or the empty
    string, equally falsy) or a date picked on the page, kept here as its
    time value. *)
Record Filter := mkFilter {
  filter_search : string;
  filter_dateRange : string;
  filter_startDate : option Z;
  filter_endDate : option Z
}.

Record POS := mkPOS {
  products : list Product;
  cart : list CartItem;
  sales : list Sale;
  currentEditId : option Z;
  discount : Discount;
  currentFilter : Filter;
  currentUser : option User;
  users : list User
}.

(** The toasts of the modelled methods, one constructor per message. *)
Inductive ToastType := success | error | warning | info.

Inductive Message :=
| ProductNotAvailable        (* 'Product not available' *)
| InsufficientStock          (* 'Insufficient stock' *)
| AddedToCart                (* 'Added to cart' *)
| InvalidDiscountValue       (* 'Please enter a valid discount value' *)
| PercentageTooHigh          (* 'Percentage discount cannot exceed 100%' *)
| DiscountApplied (value : Q) (type : string)
| CartIsEmpty                (* 'Cart is empty' *)
| SaleCompleted              (* 'Sale completed successfully' *)
| FillRequiredFields         (* 'Please fill all required fields' *)
| ProductUpdated             (* 'Product updated successfully' *)
| ProductAdded               (* 'Product added successfully' *)
| ProductDeleted             (* 'Product deleted successfully' *)
| Reordered (quantity : Z) (name : string)
| InsufficientPermissions    (* 'Insufficient permissions' *)
| UsernameExists             (* 'Username already exists' *)
| UserAdded.                 (* 'User added successfully' *)

(** What a method call leaves behind besides the state: nothing, one
    toast, or an uncaught [TypeError] (a property read on [undefined]). *)
Inductive Notice :=
| Silent
| Toast (message : Message) (type : ToastType)
| TypeError.

(** The constructor's [discount] and [currentFilter]. *)
Definition noDiscount : Discount := mkDiscount "percentage" 0 "".

Definition noFilter : Filter := mkFilter "" "all" None None.

(** Field updates ([this.cart = ...], [product.stock = ...]). *)
Definition set_products (st : POS) (ps : list Product) : POS :=
  mkPOS ps (cart st) (sales st) (currentEditId st) (discount st)
        (currentFilter st) (currentUser st) (users st).

Definition set_cart (st : POS) (c : list CartItem) : POS :=
  mkPOS (products st) c (sales st) (currentEditId st) (discount st)
        (currentFilter st) (currentUser st) (users st).

Definition set_sales (st : POS) (l : list Sale) : POS :=
  mkPOS (products st) (cart st) l (currentEditId st) (discount st)
        (currentFilter st) (currentUser st) (users st).

Definition set_currentEditId (st : POS) (e : option Z) : POS :=
  mkPOS (products st) (cart st) (sales st) e (discount st)
        (currentFilter st) (currentUser st) (users st).

Definition set_discount (st : POS) (d : Discount) : POS :=
  mkPOS (products st) (cart st) (sales st) (currentEditId st) d
        (currentFilter st) (currentUser st) (users st).

Definition set_users (st : POS) (us : list User) : POS :=
  mkPOS (products st) (cart st) (sales st) (currentEditId st) (discount st)
        (currentFilter st) (currentUser st) us.

Definition set_stock (p : Product) (s : Z) : Product :=
  mkProduct (product_id p) (product_name p) (product_category p)
            (product_price p) s (product_barcode p)
            (product_description p) (product_quickKey p).

Definition set_quantity (i : CartItem) (q : Z) : CartItem :=
  mkCartItem (item_id i) (item_name i) (item_price i) q.

(** [arr.find(pred)] is [List.find]; a write through the object it
    returns changes the first element that satisfies [pred], in place. *)
Fixpoint updateFirst {A : Type} (pred : A -> bool) (f : A -> A)
    (l : list A) : list A :=
  match l with
  | [] => []
  | x :: rest =>
      if pred x then f x :: rest else x :: updateFirst pred f rest
  end.

Definition hasProductId (id : Z) (p : Product) : bool :=
  Z.eqb (product_id p) id.

Definition hasItemId (id : Z) (i : CartItem) : bool :=
  Z.eqb (item_id i) id.

(** [x > y] on amounts. *)
Definition Qgtb (x y : Q) : bool := negb (Qle_bool x y).

(** ** Cart management *)

(** [addToCart(productId)] *)
Definition addToCart (st : POS) (productId : Z) : POS * Notice :=
  match List.find (hasProductId productId) (products st) with
  | None => (st, Toast ProductNotAvailable error)
  | Some product =>
      if Z.eqb (product_stock product) 0 then
        (st, Toast ProductNotAvailable error)
      else
        match List.find (hasItemId productId) (cart st) with
        | Some existingItem =>
            if Z.geb (item_quantity existingItem) (product_stock product)
            then (st, Toast InsufficientStock warning)
            else
              (set_cart st
                 (updateFirst (hasItemId productId)
                    (fun i => set_quantity i (item_quantity i + 1))
                    (cart st)),
               Toast AddedToCart success)
        | None =>
            (set_cart st
               (cart st ++
                [mkCartItem (product_id product) (product_name product)
                            (product_price product) 1]),
             Toast AddedToCart success)
        end
  end.

(** [removeFromCart(productId)] *)
Definition removeFromCart (st : POS) (productId : Z) : POS :=
  set_cart st
    (List.filter (fun item => negb (Z.eqb (item_id item) productId))
       (cart st)).

(** [updateQuantity(productId, change)].  [product.stock] is read without
    a check that the product was found. *)
Definition updateQuantity (st : POS) (productId change : Z) : POS * Notice :=
  match List.find (hasItemId productId) (cart st) with
  | None => (st, Silent)
  | Some item =>
      let newQuantity := item_quantity item + change in
      if Z.leb newQuantity 0 then (removeFromCart st productId, Silent)
      else
        match List.find (hasProductId productId) (products st) with
        | None => (st, TypeError)
        | Some product =>
            if Z.gtb newQuantity (product_stock product) then
              (st, Toast InsufficientStock warning)
            else
              (set_cart st
                 (updateFirst (hasItemId productId)
                    (fun i => set_quantity i newQuantity) (cart st)),
               Silent)
        end
  end.

(** ** Pricing, discount and tax *)

(** What [updateCartSummary] writes to the page (before [toFixed(2)]). *)
Record CartSummary := mkCartSummary {
  summary_subtotal : Q;
  summary_discount : Q;
  summary_tax : Q;
  summary_total : Q
}.

(** [updateCartSummary()]; [taxEnabled] is the state of the checkbox. *)
Definition updateCartSummary (st : POS) (taxEnabled : bool) : CartSummary :=
  let subtotal :=
    fold_left
      (fun sum item => sum + item_price item * inject_Z (item_quantity item))%Q
      (cart st) 0%Q in
  let discountAmount :=
    if Qgtb (discount_value (discount st)) 0 then
      if String.eqb (discount_type (discount st)) "percentage" then
        (subtotal * (discount_value (discount st) / 100))%Q
      else Qmin (discount_value (discount st)) subtotal
    else 0%Q in
  let discountedSubtotal := (subtotal - discountAmount)%Q in
  let tax := if taxEnabled then (discountedSubtotal * (1 # 10))%Q else 0%Q in
  let total := (discountedSubtotal + tax)%Q in
  mkCartSummary subtotal discountAmount tax total.

(** The discount form: the code field (trimmed), the value field after
    [parseFloat] ([None] for NaN) and the checked radio button. *)
Record DiscountForm := mkDiscountForm {
  form_discountCode : string;
  form_discountValue : option Q;
  form_discountType : string
}.

(** [applyDiscount()] *)
Definition applyDiscount (st : POS) (form : DiscountForm) : POS * Notice :=
  let discountCode := form_discountCode form in
  let discountValue :=
    match form_discountValue form with
    | Some v => v
    | None => 0%Q
    end in
  let discountType := form_discountType form in
  if Qle_bool discountValue 0 then (st, Toast InvalidDiscountValue warning)
  else if String.eqb discountType "percentage" && Qgtb discountValue 100 then
    (st, Toast PercentageTooHigh warning)
  else
    (set_discount st (mkDiscount discountType discountValue discountCode),
     Toast (DiscountApplied discountValue discountType) success).

(** ** Checkout *)

(** What [checkout] reads from outside [this]: the customer fields, the
    tax checkbox, [Date.now()] for the sale id and [new Date()] for the
    sale date. *)
Record CheckoutInput := mkCheckoutInput {
  in_customerName : string;
  in_customerPhone : string;
  in_taxEnabled : bool;
  in_idNow : Z;
  in_dateNow : Z
}.

(** The body of the [forEach] that updates the stock. *)
Definition updateStock (ps : list Product) (cartItem : CartItem)
    : list Product :=
  match List.find (hasProductId (item_id cartItem)) ps with
  | Some _ =>
      updateFirst (hasProductId (item_id cartItem))
        (fun p => set_stock p (product_stock p - item_quantity cartItem)) ps
  | None => ps
  end.

(** [checkout()] *)
Definition checkout (st : POS) (inp : CheckoutInput) : POS * Notice :=
  match cart st with
  | [] => (st, Toast CartIsEmpty warning)
  | _ :: _ =>
      let subtotal :=
        fold_left
          (fun sum item =>
             sum + item_price item * inject_Z (item_quantity item))%Q
          (cart st) 0%Q in
      let discountAmount :=
        if Qgtb (discount_value (discount st)) 0 then
          if String.eqb (discount_type (discount st)) "percentage" then
            (subtotal * (discount_value (discount st) / 100))%Q
          else Qmin (discount_value (discount st)) subtotal
        else 0%Q in
      let discountedSubtotal := (subtotal - discountAmount)%Q in
      let tax :=
        if in_taxEnabled inp then (discountedSubtotal * (1 # 10))%Q
        else 0%Q in
      let total := (discountedSubtotal + tax)%Q in
      let sale :=
        mkSale (in_idNow inp) (in_dateNow inp)
               (mkCustomer (in_customerName inp) (in_customerPhone inp))
               (cart st) subtotal discountAmount
               (discount_type (discount st)) (discount_value (discount st))
               tax total in
      let products' := fold_left updateStock (cart st) (products st) in
      (mkPOS products' [] (sales st ++ [sale]) (currentEditId st)
             noDiscount (currentFilter st) (currentUser st) (users st),
       Toast SaleCompleted success)
  end.

(** ** Inventory *)

(** The eight products of [addSampleProducts]. *)
Definition sampleProducts : list Product :=
  [ mkProduct 1 "Laptop" "Electronics" 74999 10 None
              "High-performance laptop" None;
    mkProduct 2 "Mouse" "Electronics" 2249 50 None
              "Wireless optical mouse" None;
    mkProduct 3 "Keyboard" "Electronics" 5999 30 None
              "Mechanical keyboard" None;
    mkProduct 4 "T-Shirt" "Clothing" 1499 100 None "Cotton t-shirt" None;
    mkProduct 5 "Jeans" "Clothing" 3749 40 None "Denim jeans" None;
    mkProduct 6 "Coffee" "Food" 299 200 None "Premium coffee beans" None;
    mkProduct 7 "Sandwich" "Food" 449 50 None "Fresh sandwich" None;
    mkProduct 8 "Notebook" "Other" 224 150 None "Spiral notebook" None ].

(** [addSampleProducts()] *)
Definition addSampleProducts (st : POS) : POS :=
  match products st with
  | [] => set_products st sampleProducts
  | _ :: _ => st
  end.

(** A number used as a condition: [null], [NaN] and [0] are falsy. *)
Definition truthy (n : option Z) : option Z :=
  match n with
  | Some 0 => None
  | other => other
  end.

(** [openProductModal(productId = null)]; [editProduct] calls it with the
    id of the row.  The form is filled from [product] without a check that
    it was found. *)
Definition openProductModal (st : POS) (productId : option Z)
    : POS * Notice :=
  match truthy productId with
  | Some id =>
      match List.find (hasProductId id) (products st) with
      | Some _ => (set_currentEditId st (Some id), Silent)
      | None => (st, TypeError)
      end
  | None => (set_currentEditId st None, Silent)
  end.

(** [closeProductModal()] *)
Definition closeProductModal (st : POS) : POS := set_currentEditId st None.

(** The product form: [price] after [parseFloat] and [stock], [quickKey]
    after [parseInt] ([None] for NaN). *)
Record ProductForm := mkProductForm {
  form_name : string;
  form_category : string;
  form_price : option Q;
  form_stock : option Z;
  form_barcode : string;
  form_description : string;
  form_quickKey : option Z
}.

Definition nonEmpty (s : string) : bool :=
  match s with
  | EmptyString => false
  | String _ _ => true
  end.

(** [saveProduct()]; [now] is [Date.now()], the id of a new product. *)
Definition saveProduct (st : POS) (form : ProductForm) (now : Z)
    : POS * Notice :=
  let quickKey := truthy (form_quickKey form) in
  match nonEmpty (form_name form), nonEmpty (form_category form),
        form_price form, form_stock form with
  | true, true, Some price, Some stock =>
      match truthy (currentEditId st) with
      | Some editId =>
          match List.find (hasProductId editId) (products st) with
          | None => (st, TypeError)
          | Some _ =>
              (closeProductModal
                 (set_products st
                    (updateFirst (hasProductId editId)
                       (fun p =>
                          mkProduct (product_id p) (form_name form)
                            (form_category form) price stock
                            (Some (form_barcode form))
                            (form_description form) quickKey)
                       (products st))),
               Toast ProductUpdated success)
          end
      | None =>
          (closeProductModal
             (set_products st
                (products st ++
                 [mkProduct now (form_name form) (form_category form)
                    price stock (Some (form_barcode form))
                    (form_description form) quickKey])),
           Toast ProductAdded success)
      end
  | _, _, _, _ => (st, Toast FillRequiredFields warning)
  end.

(** [deleteProduct(productId)]; [confirmed] is the answer to [confirm]. *)
Definition deleteProduct (st : POS) (productId : Z) (confirmed : bool)
    : POS * Notice :=
  if confirmed then
    (set_cart
       (set_products st
          (List.filter (fun p => negb (Z.eqb (product_id p) productId))
             (products st)))
       (List.filter (fun item => negb (Z.eqb (item_id item) productId))
          (cart st)),
     Toast ProductDeleted success)
  else (st, Silent).

(** [reorderProduct(productId, quantity)] *)
Definition reorderProduct (st : POS) (productId quantity : Z)
    : POS * Notice :=
  match List.find (hasProductId productId) (products st) with
  | Some product =>
      (set_products st
         (updateFirst (hasProductId productId)
            (fun p => set_stock p (product_stock p + quantity))
            (products st)),
       Toast (Reordered quantity (product_name product)) success)
  | None => (st, Silent)
  end.

(** ** Users and permissions *)

Definition roleIn (roles : list string) (u : User) : bool :=
  existsb (String.eqb (user_role u)) roles.

(** [hasPermission(permission)] *)
Definition hasPermission (st : POS) (permission : string) : bool :=
  match currentUser st with
  | None => false
  | Some u =>
      if String.eqb permission "admin" then String.eqb (user_role u) "admin"
      else if String.eqb permission "manager" then
        roleIn ["admin"; "manager"] u
      else if String.eqb permission "cashier" then
        roleIn ["admin"; "manager"; "cashier"] u
      else false
  end.

Record UserData := mkUserData {
  data_name : string;
  data_username : string;
  data_password : string;
  data_role : string;
  data_email : string
}.

(** [addUser(userData)]: the new state, the returned boolean and the
    toast.  [idNow] is [Date.now()], [dateNow] is [new Date()]. *)
Definition addUser (st : POS) (userData : UserData) (idNow dateNow : Z)
    : POS * bool * Notice :=
  if negb (hasPermission st "admin") then
    (st, false, Toast InsufficientPermissions error)
  else if existsb
            (fun u => String.eqb (user_username u) (data_username userData))
            (users st)
  then (st, false, Toast UsernameExists error)
  else
    (set_users st
       (users st ++
        [mkUser idNow (data_name userData) (data_username userData)
                (data_password userData) (data_role userData)
                (data_email userData) None true dateNow]),
     true, Toast UserAdded success).

(** ** Sorting

    [Array.prototype.sort(compare)] is stable, and for a comparator that
    orders the elements consistently its result does not depend on the
    engine: the elements in comparator order, equal ones in their original
    order.  Insertion from the right computes that list. *)
Fixpoint insertSorted {A : Type} (compare : A -> A -> Z) (x : A)
    (l : list A) : list A :=
  match l with
  | [] => [x]
  | y :: rest =>
      if Z.leb (compare x y) 0 then x :: l
      else y :: insertSorted compare x rest
  end.

Definition sort {A : Type} (compare : A -> A -> Z) (l : list A) : list A :=
  fold_right (insertSorted compare) [] l.

(** ** Inventory forecast *)

(** The [reduce] of the forecast methods: the quantity of the first line
    for [productId] in each sale, summed. *)
Definition totalQuantity (productId : Z) (l : list Sale) : Z :=
  fold_left
    (fun sum sale =>
       sum + match List.find (hasItemId productId) (sale_items sale) with
             | Some item => item_quantity item
             | None => 0
             end)
    l 0.

Definition sells (productId : Z) (sale : Sale) : bool :=
  existsb (hasItemId productId) (sale_items sale).

(** [getProductSalesVelocity(productId)]; [last30Days] is the time value
    of [new Date()] after [setDate(getDate() - 30)]. *)
Definition getProductSalesVelocity (st : POS) (last30Days : Z)
    (productId : Z) : Q :=
  let recentSales :=
    List.filter
      (fun sale => Z.geb (sale_date sale) last30Days && sells productId sale)
      (sales st) in
  let totalSold := totalQuantity productId recentSales in
  (inject_Z totalSold / 30)%Q.

Definition days60 : Z := 60 * 24 * 60 * 60 * 1000.

(** [calculateProductTrend(productId)]; [now] is the time value of
    [new Date()]. *)
Definition calculateProductTrend (st : POS) (now : Z) (productId : Z) : Q :=
  let last60Days := now - days60 in
  let prev60Days := last60Days - days60 in
  let recentSales :=
    List.filter
      (fun sale => Z.geb (sale_date sale) last60Days && sells productId sale)
      (sales st) in
  let oldSales :=
    List.filter
      (fun sale =>
         Z.geb (sale_date sale) prev60Days
         && Z.ltb (sale_date sale) last60Days
         && sells productId sale)
      (sales st) in
  let recentTotal := totalQuantity productId recentSales in
  let oldTotal := totalQuantity productId oldSales in
  if Z.eqb oldTotal 0 then (if Z.gtb recentTotal 0 then 1 # 2 else 0)%Q
  else (inject_Z (recentTotal - oldTotal) / inject_Z oldTotal)%Q.

Record Prediction := mkPrediction {
  prediction_name : string;
  prediction_currentVelocity : Q;
  prediction_predictedVelocity : Q;
  prediction_confidence : Q;
  prediction_recommendedStock : Z
}.

(** [calculateDemandPredictions()]: the object [predictions], keyed by
    product id. *)
Definition calculateDemandPredictions (st : POS) (now last30Days : Z)
    : gmap Z Prediction :=
  fold_left
    (fun predictions product =>
       let velocity :=
         getProductSalesVelocity st last30Days (product_id product) in
       let trend := calculateProductTrend st now (product_id product) in
       <[ product_id product :=
            mkPrediction (product_name product) velocity
              (velocity * (1 + trend))%Q
              (Qmin (Qabs trend * 100) 90)
              (Qceiling ((velocity * (1 + trend)) * 45)%Q) ]> predictions)
    (products st) ∅.

Record StockAlert := mkStockAlert {
  alert_id : Z;
  alert_name : string;
  alert_currentStock : Z;
  alert_suggestedReorder : Z
}.

Record ReorderSuggestion := mkReorderSuggestion {
  suggestion_id : Z;
  suggestion_name : string;
  suggestion_currentStock : Z;
  suggestion_suggestedStock : Z;
  suggestion_reorderAmount : Z;
  suggestion_velocity : Q
}.

(** [this.inventoryForecast] without [salesTrends], the weekly totals,
    which no other part of the forecast reads. *)
Record Forecast := mkForecast {
  lowStockAlerts : list StockAlert;
  reorderSuggestions : list ReorderSuggestion;
  demandPredictions : gmap Z Prediction
}.

(** [calculateInventoryForecast()] *)
Definition calculateInventoryForecast (st : POS) (now last30Days : Z)
    : Forecast :=
  mkForecast
    (map
       (fun product =>
          mkStockAlert (product_id product) (product_name product)
            (product_stock product)
            (Z.max (50 - product_stock product) 20))
       (List.filter (fun product => Z.ltb (product_stock product) 10)
          (products st)))
    (sort
       (fun a b => suggestion_reorderAmount b - suggestion_reorderAmount a)
       (List.filter (fun item => Z.gtb (suggestion_reorderAmount item) 0)
          (map
             (fun product =>
                let velocity :=
                  getProductSalesVelocity st last30Days (product_id product)
                in
                let suggestedStock := Qceiling (velocity * 30)%Q in
                let reorderAmount :=
                  Z.max (suggestedStock - product_stock product) 0 in
                mkReorderSuggestion (product_id product)
                  (product_name product) (product_stock product)
                  suggestedStock reorderAmount velocity)
             (List.filter
                (fun product =>
                   Qgtb
                     (getProductSalesVelocity st last30Days
                        (product_id product)) 0)
                (products st)))))
    (calculateDemandPredictions st now last30Days).

(** ** Reports: the transaction filter *)

(** [String.prototype.toLowerCase] on the ASCII letters. *)
Definition lowerAscii (c : ascii) : ascii :=
  let n := nat_of_ascii c in
  if (Nat.leb 65 n && Nat.leb n 90)%bool then ascii_of_nat (n + 32) else c.

Fixpoint toLowerCase (s : string) : string :=
  match s with
  | EmptyString => EmptyString
  | String c rest => String (lowerAscii c) (toLowerCase rest)
  end.

(** [s.includes(sub)] *)
Fixpoint includes (s sub : string) : bool :=
  String.prefix sub s
  || match s with
     | EmptyString => false
     | String _ rest => includes rest sub
     end.

(** [n.toString()] of an integer. *)
Definition toString (n : Z) : string := NilZero.string_of_int (Z.to_int n).

(** The dates that [getFilteredSales] gets from [new Date()] and the local
    calendar: the first and last instant of today, of this week and of
    this month, and [setHours(23, 59, 59, 999)] on a picked date. *)
Record Calendar := mkCalendar {
  todayStart : Z;
  todayEnd : Z;
  weekStart : Z;
  weekEnd : Z;
  monthStart : Z;
  monthEnd : Z;
  endOfDay : Z -> Z
}.

(** [getFilteredSales()] *)
Definition getFilteredSales (st : POS) (cal : Calendar) : list Sale :=
  let filteredSales := sales st in
  let filteredSales :=
    if nonEmpty (filter_search (currentFilter st)) then
      let searchTerm := toLowerCase (filter_search (currentFilter st)) in
      List.filter
        (fun sale =>
           includes (toLowerCase (customer_name (sale_customer sale)))
                    searchTerm
           || includes (toString (sale_id sale)) searchTerm)
        filteredSales
    else filteredSales in
  let filteredSales :=
    if negb (String.eqb (filter_dateRange (currentFilter st)) "all") then
      let range :=
        if String.eqb (filter_dateRange (currentFilter st)) "today" then
          Some (todayStart cal, todayEnd cal)
        else if String.eqb (filter_dateRange (currentFilter st)) "week" then
          Some (weekStart cal, weekEnd cal)
        else if String.eqb (filter_dateRange (currentFilter st)) "month" then
          Some (monthStart cal, monthEnd cal)
        else if String.eqb (filter_dateRange (currentFilter st)) "custom" then
          match filter_startDate (currentFilter st),
                filter_endDate (currentFilter st) with
          | Some startDate, Some endDate =>
              Some (startDate, endOfDay cal endDate)
          | _, _ => None
          end
        else None in
      match range with
      | Some (startDate, endDate) =>
          List.filter
            (fun sale =>
               Z.geb (sale_date sale) startDate
               && Z.leb (sale_date sale) endDate)
            filteredSales
      | None => filteredSales
      end
    else filteredSales in
  sort (fun a b => sale_date b - sale_date a) filteredSales.

(** ** Sessions: sequences of user actions *)

(** The state the constructor builds, with [loadUsers]' default
    administrator signed in and nothing in [localStorage]. *)
Definition administrator (createdAt : Z) : User :=
  mkUser 1 "Administrator" "admin" "admin123" "admin" "" None true createdAt.

Definition newPOS (user : User) : POS :=
  mkPOS [] [] [] None noDiscount noFilter (Some user) [user].

(** [init()] on first use: the catalog is the sample products. *)
Definition startState : POS := addSampleProducts (newPOS (administrator 0)).

(** The handlers of the page that change the catalog, the cart, the
    discount or the ledger, with what each reads from the page. *)
Inductive Action :=
| AddToCart (productId : Z)
| UpdateQuantity (productId change : Z)
| RemoveFromCart (productId : Z)
| ApplyDiscount (form : DiscountForm)
| Checkout (inp : CheckoutInput)
| OpenProductModal (productId : option Z)
| SaveProduct (form : ProductForm) (now : Z)
| DeleteProduct (productId : Z) (confirmed : bool)
| ReorderProduct (productId quantity : Z).

Definition perform (st : POS) (a : Action) : POS :=
  match a with
  | AddToCart productId => fst (addToCart st productId)
  | UpdateQuantity productId change =>
      fst (updateQuantity st productId change)
  | RemoveFromCart productId => removeFromCart st productId
  | ApplyDiscount form => fst (applyDiscount st form)
  | Checkout inp => fst (checkout st inp)
  | OpenProductModal productId => fst (openProductModal st productId)
  | SaveProduct form now => fst (saveProduct st form now)
  | DeleteProduct productId confirmed =>
      fst (deleteProduct st productId confirmed)
  | ReorderProduct productId quantity =>
      fst (reorderProduct st productId quantity)
  end.

Definition run (st : POS) (actions : list Action) : POS :=
  fold_left perform actions st.

(** ** The specification's pricing rule *)

(** Sum over the lines of price times quantity. *)
Fixpoint spec_subtotal (lines : list CartItem) : Q :=
  match lines with
  | [] => 0%Q
  | line :: rest =>
      (item_price line * inject_Z (item_quantity line)
       + spec_subtotal rest)%Q
  end.

(** The four amounts as the specification relates them to the cart, the
    discount and the tax flag. *)
Definition spec_pricing (lines : list CartItem) (d : Discount)
    (taxEnabled : bool) (subtotal discountAmount tax total : Q) : Prop :=
  (subtotal == spec_subtotal lines)%Q
  /\ ((0 < discount_value d)%Q -> discount_type d = "percentage" ->
      (discountAmount == subtotal * (discount_value d / 100))%Q)
  /\ ((0 < discount_value d)%Q -> discount_type d = "fixed" ->
      (discountAmount == Qmin (discount_value d) subtotal)%Q)
  /\ ((discount_value d <= 0)%Q -> (discountAmount == 0)%Q)
  /\ (taxEnabled = true ->
      (tax == (1 # 10) * (subtotal - discountAmount))%Q)
  /\ (taxEnabled = false -> (tax == 0)%Q)
  /\ (total == (subtotal - discountAmount) + tax)%Q.

(** A cart as [addToCart] fills it: prices not negative, quantities at
    least one. *)
Definition validLines (lines : list CartItem) : Prop :=
  Forall (fun line => (0 <= item_price line)%Q /\ 1 <= item_quantity line)
         lines.

(** A discount as [applyDiscount] accepts it. *)
Definition acceptedDiscount (d : Discount) : Prop :=
  (0 < discount_value d)%Q
  /\ (discount_type d = "percentage" -> (discount_value d <= 100)%Q).

(** ** Stock *)

(** The stock of the product that [find] returns for [id]. *)
Definition stockOf (ps : list Product) (id : Z) : option Z :=
  option_map product_stock (List.find (hasProductId id) ps).

(** The quantity that the lines of a cart ask of product [id]. *)
Definition quantityFor (id : Z) (lines : list CartItem) : Z :=
  fold_right
    (fun line acc =>
       if hasItemId id line then item_quantity line + acc else acc)
    0 lines.

Definition stockNonNegative (ps : list Product) : Prop :=
  Forall (fun p => (0 <= product_stock p)%Z) ps.

(** Every line of the cart is for a product of the catalog and asks for
    no more than its stock. *)
Definition withinStock (ps : list Product) (lines : list CartItem) : Prop :=
  Forall
    (fun line =>
       exists s, stockOf ps (item_id line) = Some s
                 /\ (item_quantity line <= s)%Z)
    lines.

(** The invariant of a selling session. *)
Definition consistent (st : POS) : Prop :=
  stockNonNegative (products st)
  /\ List.NoDup (map item_id (cart st))
  /\ withinStock (products st) (cart st).

(** The actions under which [consistent] is kept: a reorder adds no
    negative quantity, and a product form is saved with a stock that is
    not negative and, when it edits a product, not below the quantity of
    that product in the cart. *)
Definition careful (st : POS) (a : Action) : Prop :=
  match a with
  | ReorderProduct _ quantity => (0 <= quantity)%Z
  | SaveProduct form _ =>
      match form_stock form with
      | Some s =>
          (0 <= s)%Z
          /\ forall editId line,
               truthy (currentEditId st) = Some editId ->
               In line (cart st) -> item_id line = editId ->
               (item_quantity line <= s)%Z
      | None => True
      end
  | _ => True
  end.

Fixpoint carefulRun (st : POS) (actions : list Action) : Prop :=
  match actions with
  | [] => True
  | a :: rest => careful st a /\ carefulRun (perform st a) rest
  end.

(** ** Sale ids *)

Definition saleIds (st : POS) : list Z := map sale_id (sales st).

(** At every checkout of the run [Date.now()] is later than every id
    in the ledger. *)
Fixpoint clockAhead (st : POS) (actions : list Action) : Prop :=
  match actions with
  | [] => True
  | a :: rest =>
      match a with
      | Checkout inp => Forall (fun id => (id < in_idNow inp)%Z) (saleIds st)
      | _ => True
      end
      /\ clockAhead (perform st a) rest
  end.

(** ** Forecast windows *)

(** The units of [productId] sold from [since] on, or in the window from
    [since] up to but without [before]. *)
Definition soldSince (st : POS) (productId since : Z) : Z :=
  totalQuantity productId
    (List.filter
       (fun sale => Z.geb (sale_date sale) since && sells productId sale)
       (sales st)).

Definition soldBetween (st : POS) (productId since before : Z) : Z :=
  totalQuantity productId
    (List.filter
       (fun sale =>
          Z.geb (sale_date sale) since && Z.ltb (sale_date sale) before
          && sells productId sale)
       (sales st)).

(** ** Orders *)

(** The comparator [(a, b) => key(b) - key(a)] and the order it asks
    for: greater keys first. *)
Definition descending {A : Type} (key : A -> Z) (a b : A) : Z :=
  key b - key a.

Definition notAfter {A : Type} (key : A -> Z) (a b : A) : Prop :=
  key b <= key a.

(** Newest first. *)
Definition newerOrSame (a b : Sale) : Prop :=
  (sale_date b <= sale_date a)%Z.

(** ** Statements of the specification that are compared with the code *)

(** Some line of the cart asks for more than the live stock. *)
Definition exceedsStock (st : POS) : Prop :=
  exists line s,
    In line (cart st)
    /\ stockOf (products st) (item_id line) = Some s
    /\ s < item_quantity line.

(** "Checkout is rejected entirely if any line's quantity exceeds live
    stock": no sale appended, no stock changed. *)
Definition spec_rejects_oversell : Prop :=
  forall st inp,
    exceedsStock st ->
    sales (fst (checkout st inp)) = sales st
    /\ products (fst (checkout st inp)) = products st.

(** "Stock must never go negative": in every state that a session
    reaches. *)
Definition spec_stock_never_negative : Prop :=
  forall actions, stockNonNegative (products (run startState actions)).

(** "Sale ids unique and monotonically increasing with creation order":
    along the ledger of every state that a session reaches. *)
Definition spec_sale_ids_increasing : Prop :=
  forall actions, StronglySorted Z.lt (saleIds (run startState actions)).

(** ** Sample sessions *)

Definition customerAt (t : Z) : CheckoutInput :=
  mkCheckoutInput "Asha" "5550100" true t t.

Definition tenPercent : DiscountForm :=
  mkDiscountForm "" (Some (10 # 1)) "percentage".

(** Two laptops in the cart and ten percent off. *)
Definition twoLaptops : POS :=
  run startState [AddToCart 1; AddToCart 1; ApplyDiscount tenPercent].

(** The laptop form of the product modal with another stock. *)
Definition laptopForm (stock : Z) : ProductForm :=
  mkProductForm "Laptop" "Electronics" (Some (74999 # 1)) (Some stock)
                "" "High-performance laptop" None.

(** The laptop of the catalog after that form was saved over it. *)
Definition savedLaptop (stock : Z) : Product :=
  mkProduct 1 "Laptop" "Electronics" (74999 # 1) stock (Some "")
            "High-performance laptop" None.

(** Three laptops are put in the cart, then the inventory page sets the
    laptop stock to two: the state before the checkout. *)
Definition oversold : POS :=
  run startState
    [AddToCart 1; AddToCart 1; AddToCart 1;
     OpenProductModal (Some 1); SaveProduct (laptopForm 2) 1700000000000].

(** All ten laptops are put in the cart, the stock is corrected to
    three, and the cart is checked out. *)
Definition stockCorrection : list Action :=
  repeat (AddToCart 1) 10
  ++ [OpenProductModal (Some 1); SaveProduct (laptopForm 3) 1700000000000;
      Checkout (customerAt 1700000060000)].

(** Two sales whose checkouts read the same [Date.now()]. *)
Definition sameMillisecond : list Action :=
  [AddToCart 2; Checkout (customerAt 1700000000000);
   AddToCart 6; Checkout (customerAt 1700000000000)].

(** Two sales a minute apart. *)
Definition minuteApart : list Action :=
  [AddToCart 2; Checkout (customerAt 1700000000000);
   AddToCart 6; Checkout (customerAt 1700000060000)].

(** A cart line for a product that the catalog does not have. *)
Definition orphanLine : CartItem := mkCartItem 99 "Gift card" (500 # 1) 2.

Definition orphanCart : POS :=
  set_cart (fst (addToCart startState 2))
    (cart (fst (addToCart startState 2)) ++ [orphanLine]).

Definition cashier : User :=
  mkUser 2 "Ravi" "ravi" "secret" "cashier" "" None true 0.

Definition cashierSession : POS :=
  mkPOS sampleProducts [] [] None noDiscount noFilter (Some cashier)
        [administrator 0; cashier].

(** A session that keeps the stock invariant. *)
Definition restockAndSell : list Action :=
  [AddToCart 1; AddToCart 1; UpdateQuantity 1 1; ReorderProduct 1 5;
   OpenProductModal (Some 1); SaveProduct (laptopForm 4) 1700000000000;
   AddToCart 2; Checkout (customerAt 1700000060000)].

(** All ten laptops are sold in one sale; no mouse (product 2) ever
    is. *)
Definition laptopsSoldOut : POS :=
  run startState
    (repeat (AddToCart 1) 10 ++ [Checkout (customerAt 1700000000000)]).

(** * The rest of the cart, inventory, report and user code *)

(** ** Shape of the cart and of the ledger *)

(** One line per product, quantities of at least one, and every line
    for a product of the catalog. *)
Definition cartWellFormed (st : POS) : Prop :=
  List.NoDup (map item_id (cart st))
  /\ Forall (fun line => 1 <= item_quantity line) (cart st)
  /\ Forall (fun line => In (item_id line) (map product_id (products st)))
       (cart st).

(** A recorded sale: it has lines, one per product, with quantities of
    at least one, and its amounts add up. *)
Definition saleWellFormed (sale : Sale) : Prop :=
  sale_items sale <> []
  /\ List.NoDup (map item_id (sale_items sale))
  /\ Forall (fun line => 1 <= item_quantity line) (sale_items sale)
  /\ (sale_subtotal sale == spec_subtotal (sale_items sale))%Q
  /\ (sale_total sale
      == sale_subtotal sale - sale_discount sale + sale_tax sale)%Q.

(** The discount of the constructor, or one that [applyDiscount]
    accepted. *)
Definition discountInForce (d : Discount) : Prop :=
  d = noDiscount \/ acceptedDiscount d.

(** The units in stock and the units in a cart. *)
Definition totalStock (ps : list Product) : Z :=
  fold_right (fun p acc => product_stock p + acc) 0 ps.

Definition cartUnits (lines : list CartItem) : Z :=
  fold_right (fun line acc => item_quantity line + acc) 0 lines.

(** Every line of every sale has a quantity that is not negative. *)
Definition ledgerQuantitiesNonNegative (st : POS) : Prop :=
  Forall
    (fun sale => Forall (fun line => 0 <= item_quantity line)
                   (sale_items sale))
    (sales st).

(** ** Product lists of the sale page and of the inventory page *)

(** [getFilteredProducts(searchTerm, category)] *)
Definition getFilteredProducts (st : POS) (searchTerm category : string)
    : list Product :=
  let filtered :=
    List.filter (fun p => Z.gtb (product_stock p) 0) (products st) in
  let filtered :=
    if nonEmpty searchTerm then
      List.filter
        (fun product =>
           includes (toLowerCase (product_name product))
                    (toLowerCase searchTerm)
           || includes (toLowerCase (product_category product))
                       (toLowerCase searchTerm))
        filtered
    else filtered in
  let filtered :=
    if nonEmpty category then
      List.filter
        (fun product => String.eqb (product_category product) category)
        filtered
    else filtered in
  filtered.

(** [getFilteredInventory(searchTerm, category)] *)
Definition getFilteredInventory (st : POS) (searchTerm category : string)
    : list Product :=
  let filtered := products st in
  let filtered :=
    if nonEmpty searchTerm then
      List.filter
        (fun product =>
           includes (toLowerCase (product_name product))
                    (toLowerCase searchTerm)
           || includes (toLowerCase (product_category product))
                       (toLowerCase searchTerm))
        filtered
    else filtered in
  let filtered :=
    if nonEmpty category then
      List.filter
        (fun product => String.eqb (product_category product) category)
        filtered
    else filtered in
  filtered.

(** A product matches a search text (case-insensitively, in its name or
    its category) and a category (exactly); the empty text and the empty
    category match everything. *)
Definition matchesSearch (searchTerm : string) (p : Product) : Prop :=
  searchTerm = ""
  \/ includes (toLowerCase (product_name p)) (toLowerCase searchTerm) = true
  \/ includes (toLowerCase (product_category p)) (toLowerCase searchTerm)
     = true.

Definition matchesCategory (category : string) (p : Product) : Prop :=
  category = "" \/ product_category p = category.

(** The product that [saveProduct] writes from a form. *)
Definition productOfForm (id : Z) (form : ProductForm) (price : Q)
    (stock : Z) : Product :=
  mkProduct id (form_name form) (form_category form) price stock
            (Some (form_barcode form)) (form_description form)
            (truthy (form_quickKey form)).

(** A form that passes the required-field test of [saveProduct]. *)
Definition filledIn (form : ProductForm) (price : Q) (stock : Z) : Prop :=
  form_name form <> "" /\ form_category form <> ""
  /\ form_price form = Some price /\ form_stock form = Some stock.

(** ** The filter controls of the reports page *)

Definition set_currentFilter (st : POS) (f : Filter) : POS :=
  mkPOS (products st) (cart st) (sales st) (currentEditId st) (discount st)
        f (currentUser st) (users st).

(** The search box: [this.currentFilter.search = e.target.value]. *)
Definition setSearch (st : POS) (value : string) : POS :=
  set_currentFilter st
    (mkFilter value (filter_dateRange (currentFilter st))
       (filter_startDate (currentFilter st))
       (filter_endDate (currentFilter st))).


(** The "apply" button of the date picker: both dates are stored when
    both are picked, none otherwise. *)
Definition applyDateFilter (st : POS) (startDate endDate : option Z) : POS :=
  match startDate, endDate with
  | Some _, Some _ =>
      set_currentFilter st
        (mkFilter (filter_search (currentFilter st))
           (filter_dateRange (currentFilter st)) startDate endDate)
  | _, _ => st
  end.



(** ** User management *)

(** A toast with its text. *)
Record Shown := mkShown {
  shown_message : string;
  shown_type : ToastType
}.

Definition hasUserId (id : Z) (u : User) : bool := Z.eqb (user_id u) id.

(** [{ ...user, ...userData }]: the five fields of the user form over
    the user. *)
Definition spread (u : User) (userData : UserData) : User :=
  mkUser (user_id u) (data_name userData) (data_username userData)
         (data_password userData) (data_role userData)
         (data_email userData) (user_lastLogin u) (user_isActive u)
         (user_createdAt u).

(** [updateUser(userId, userData)]: the new state, the returned boolean
    and the toast. *)
Definition updateUser (st : POS) (userId : Z) (userData : UserData)
    : POS * bool * Shown :=
  if negb (hasPermission st "admin") then
    (st, false, mkShown "Insufficient permissions" error)
  else
    match List.find (hasUserId userId) (users st) with
    | None => (st, false, mkShown "User not found" error)
    | Some _ =>
        if existsb
             (fun u =>
                negb (Z.eqb (user_id u) userId)
                && String.eqb (user_username u) (data_username userData))
             (users st)
        then (st, false, mkShown "Username already exists" error)
        else
          (set_users st
             (updateFirst (hasUserId userId) (fun u => spread u userData)
                (users st)),
           true, mkShown "User updated successfully" success)
    end.

(** [deleteUser(userId)] *)
Definition deleteUser (st : POS) (userId : Z) : POS * bool * Shown :=
  if negb (hasPermission st "admin") then
    (st, false, mkShown "Insufficient permissions" error)
  else
    match currentUser st with
    | None => (st, false, mkShown "Insufficient permissions" error)
    | Some current =>
        if Z.eqb (user_id current) userId then
          (st, false, mkShown "Cannot delete your own account" error)
        else
          (set_users st
             (List.filter (fun u => negb (Z.eqb (user_id u) userId))
                (users st)),
           true, mkShown "User deleted successfully" success)
    end.

Definition set_currentUser (st : POS) (u : option User) : POS :=
  mkPOS (products st) (cart st) (sales st) (currentEditId st) (discount st)
        (currentFilter st) u (users st).

(** [logout()] *)
Definition logout (st : POS) : POS := set_currentUser st None.

Definition set_lastLogin (u : User) (t : Z) : User :=
  mkUser (user_id u) (user_name u) (user_username u) (user_password u)
         (user_role u) (user_email u) (Some t) (user_isActive u)
         (user_createdAt u).

(** The test of [login]'s [find]. *)
Definition signsIn (username password : string) (u : User) : bool :=
  String.eqb (user_username u) username
  && String.eqb (user_password u) password
  && user_isActive u.

(** What [localStorage] holds under 'products' and 'sales' when [init]
    runs [loadData]: nothing, or a list that [saveData] has stored. *)
Record Stored := mkStored {
  stored_products : option (list Product);
  stored_sales : option (list Sale)
}.

(** [loadData()] *)
Definition loadData (st : POS) (stored : Stored) : POS :=
  let st :=
    match stored_products stored with
    | Some savedProducts => set_products st savedProducts
    | None => st
    end in
  match stored_sales stored with
  | Some savedSales => set_sales st savedSales
  | None => st
  end.

(** What [login] shows: the welcome toast, or the message of the login
    form. *)
Inductive LoginNotice :=
| Welcome (toast : Shown)
| LoginMessage (text : string).

(** [login(username, password)]; [now] is [new Date()].  The found user
    is the signed-in user; its [lastLogin] is set in place and it is
    stored again under the first index with its id.  On success [init]
    runs again: it reads back the users and the session that this call
    has just stored, loads the stored products and sales and adds the
    sample products to an empty catalog. *)
Definition login (st : POS) (username password : string) (now : Z)
    (stored : Stored) : POS * LoginNotice :=
  match List.find (signsIn username password) (users st) with
  | Some user =>
      let signedIn := set_lastLogin user now in
      let users1 :=
        updateFirst (signsIn username password)
          (fun u => set_lastLogin u now) (users st) in
      let users2 :=
        updateFirst (hasUserId (user_id user)) (fun _ => signedIn) users1 in
      let st := set_currentUser (set_users st users2) (Some signedIn) in
      (addSampleProducts (loadData st stored),
       Welcome
         (mkShown ("Welcome back, " ++ user_name user ++ "!") success))
  | None => (st, LoginMessage "Invalid username or password")
  end.

(** The handlers of the users page and of the login form. *)
Inductive UserAction :=
| AddUser (userData : UserData) (idNow dateNow : Z)
| UpdateUser (userId : Z) (userData : UserData)
| DeleteUser (userId : Z)
| Login (username password : string) (now : Z) (stored : Stored)
| Logout.

Definition performUser (st : POS) (a : UserAction) : POS :=
  match a with
  | AddUser userData idNow dateNow =>
      fst (fst (addUser st userData idNow dateNow))
  | UpdateUser userId userData => fst (fst (updateUser st userId userData))
  | DeleteUser userId => fst (fst (deleteUser st userId))
  | Login username password now stored =>
      fst (login st username password now stored)
  | Logout => logout st
  end.

Definition runUsers (st : POS) (actions : list UserAction) : POS :=
  fold_left performUser actions st.

(** No two users share a username or an id. *)
Definition usersDistinct (st : POS) : Prop :=
  List.NoDup (map user_username (users st))
  /\ List.NoDup (map user_id (users st)).

(** Every user that is added gets an id ([Date.now()]) that no user of
    that moment has. *)
Fixpoint freshUserIds (st : POS) (actions : list UserAction) : Prop :=
  match actions with
  | [] => True
  | a :: rest =>
      match a with
      | AddUser _ idNow _ => ~ In idNow (map user_id (users st))
      | _ => True
      end
      /\ freshUserIds (performUser st a) rest
  end.

(** ** Customers *)

Record Order := mkOrder {
  order_id : Z;
  order_date : Z;
  order_total : Q;
  order_items : nat
}.

Record CustomerRecord := mkCustomerRecord {
  record_name : string;
  record_phone : string;
  record_email : string;
  record_totalOrders : Z;
  record_totalSpent : Q;
  record_lastVisit : option Z;
  record_firstVisit : option Z;
  record_orders : list Order
}.

(** [`${sale.customer.name}_${sale.customer.phone || ''}`] *)
Definition customerKey (sale : Sale) : string :=
  (customer_name (sale_customer sale) ++ "_"
   ++ customer_phone (sale_customer sale))%string.

Definition orderOf (sale : Sale) : Order :=
  mkOrder (sale_id sale) (sale_date sale) (sale_total sale)
          (length (sale_items sale)).

(** The record that [processCustomerData] creates for a key it has not
    seen.  A sale has no customer email, so the email is empty. *)
Definition newRecord (sale : Sale) : CustomerRecord :=
  mkCustomerRecord (customer_name (sale_customer sale))
    (customer_phone (sale_customer sale)) "" 0 0 None None [].

(** What it then writes to the record of the sale's customer. *)
Definition addOrder (customer : CustomerRecord) (sale : Sale)
    : CustomerRecord :=
  let lastVisit :=
    match record_lastVisit customer with
    | None => Some (sale_date sale)
    | Some last =>
        if Z.gtb (sale_date sale) last then Some (sale_date sale)
        else Some last
    end in
  let firstVisit :=
    match record_firstVisit customer with
    | None => Some (sale_date sale)
    | Some first =>
        if Z.ltb (sale_date sale) first then Some (sale_date sale)
        else Some first
    end in
  mkCustomerRecord (record_name customer) (record_phone customer)
    (record_email customer) (record_totalOrders customer + 1)
    (record_totalSpent customer + sale_total sale)%Q
    lastVisit firstVisit
    (record_orders customer ++ [orderOf sale]).

(** [this.customers] is an object literal: besides the records that the
    code stores in it, it has the properties of [Object.prototype], under
    these names.  Each of them is a function, or for [__proto__] the
    prototype itself: none is falsy and none has a property [orders].
    (The properties [totalOrders] and [totalSpent] that the code can
    leave on the prototype, see [recordSale], hold [NaN], which is falsy,
    so they read like missing ones.) *)
Definition inheritedKeys : list string :=
  [ "constructor"; "__defineGetter__"; "__defineSetter__";
    "hasOwnProperty"; "__lookupGetter__"; "__lookupSetter__";
    "isPrototypeOf"; "propertyIsEnumerable"; "toString"; "valueOf";
    "__proto__"; "toLocaleString" ].

Definition inherited (key : string) : bool :=
  existsb (String.eqb key) inheritedKeys.

(** [this.customers[key]]: a record that the object owns, a value that it
    inherits, or [undefined].  The map holds the own properties. *)
Inductive Property :=
| Own (customer : CustomerRecord)
| Inherited
| Undefined.

Definition getProperty (customers : gmap string CustomerRecord)
    (key : string) : Property :=
  match customers !! key with
  | Some customer => Own customer
  | None => if inherited key then Inherited else Undefined
  end.

(** The body of the [forEach] of [processCustomerData]; [None] is an
    uncaught [TypeError].  A record is created only when the lookup is
    falsy, so never under an inherited name; there [customer] is the
    inherited value, the two [+=] write [NaN] to properties of that
    value, and [customer.orders.push] throws, [customer.orders] being
    [undefined]. *)
Definition recordSale (customers : gmap string CustomerRecord)
    (sale : Sale) : option (gmap string CustomerRecord) :=
  let customers :=
    match getProperty customers (customerKey sale) with
    | Undefined => <[ customerKey sale := newRecord sale ]> customers
    | Own _ | Inherited => customers
    end in
  match getProperty customers (customerKey sale) with
  | Own customer =>
      Some (<[ customerKey sale := addOrder customer sale ]> customers)
  | Inherited | Undefined => None
  end.

(** The [forEach] over the ledger, from the customers recorded so far:
    the first [TypeError] ends it, and the records of the sales before
    stay. *)
Fixpoint recordSales (customers : gmap string CustomerRecord)
    (l : list Sale) : gmap string CustomerRecord * Notice :=
  match l with
  | [] => (customers, Silent)
  | sale :: rest =>
      match recordSale customers sale with
      | Some customers' => recordSales customers' rest
      | None => (customers, TypeError)
      end
  end.

(** [processCustomerData()]: the object [this.customers] that it leaves,
    and whether it threw. *)
Definition processCustomerData (st : POS)
    : gmap string CustomerRecord * Notice :=
  recordSales ∅ (sales st).

(** No sale of the ledger has a customer key that is an inherited
    name. *)
Definition plainKeys (l : list Sale) : Prop :=
  Forall (fun sale => inherited (customerKey sale) = false) l.

(** A customer whose name and phone make the key [__proto__]. *)
Definition protoCustomerAt (t : Z) : CheckoutInput :=
  mkCheckoutInput "__proto_" "" true t t.

(** A sale to Asha, one to that customer, and one more to Asha. *)
Definition protoSession : list Action :=
  [AddToCart 2; Checkout (customerAt 1700000000000);
   AddToCart 6; Checkout (protoCustomerAt 1700000060000);
   AddToCart 2; Checkout (customerAt 1700000120000)].

(** The sales of a customer key, in ledger order, and what they add up
    to. *)
Definition salesOf (key : string) (l : list Sale) : list Sale :=
  List.filter (fun sale => String.eqb (customerKey sale) key) l.

Fixpoint spent (l : list Sale) : Q :=
  match l with
  | [] => 0%Q
  | sale :: rest => (sale_total sale + spent rest)%Q
  end.

(** The record of a customer is the summary of a list of sales. *)
Definition summarizes (c : CustomerRecord) (group : list Sale) : Prop :=
  record_orders c = map orderOf group
  /\ record_totalOrders c = Z.of_nat (length group)
  /\ (record_totalSpent c == spent group)%Q
  /\ (exists first,
        head group = Some first
        /\ record_name c = customer_name (sale_customer first)
        /\ record_phone c = customer_phone (sale_customer first))
  /\ (exists latest,
        record_lastVisit c = Some latest
        /\ In latest (map sale_date group)
        /\ Forall (fun d => d <= latest) (map sale_date group))
  /\ (exists earliest,
        record_firstVisit c = Some earliest
        /\ In earliest (map sale_date group)
        /\ Forall (fun d => earliest <= d) (map sale_date group)).

(** The orders counted over all customers. *)
Definition ordersOfAll (customers : gmap string CustomerRecord) : Z :=
  map_fold (fun _ c acc => record_totalOrders c + acc) 0 customers.

(** * Properties *)

(** Case analysis on every test that a method makes before it returns. *)
Ltac branches :=
  repeat match goal with
         | |- context [match ?x with _ => _ end] => destruct x
         end.

(** The lemmas that a method keeps the stock invariant. *)
Create HintDb stock.

(** ** Pricing *)

Lemma Qgtb_true (x y : Q) : Qgtb x y = true <-> (y < x)%Q.
Proof.
  unfold Qgtb. rewrite negb_true_iff. split; intros H.
  - apply Qnot_le_lt. intros Hle. apply Qle_bool_iff in Hle. congruence.
  - destruct (Qle_bool x y) eqn:E; [|reflexivity].
    apply Qle_bool_iff in E. exfalso. exact (Qlt_not_le _ _ H E).
Qed.

Lemma Qgtb_false (x y : Q) : Qgtb x y = false <-> (x <= y)%Q.
Proof.
  unfold Qgtb. rewrite negb_false_iff. apply Qle_bool_iff.
Qed.

(** The [reduce] of the cart adds the lines to its accumulator. *)
Lemma reduce_subtotal (lines : list CartItem) (acc : Q) :
  (fold_left
     (fun sum item => sum + item_price item * inject_Z (item_quantity item))
     lines acc
   == acc + spec_subtotal lines)%Q.
Proof.
  revert acc. induction lines as [|line rest IH]; intros acc; simpl.
  - ring.
  - rewrite IH. ring.
Qed.

Lemma spec_subtotal_app (l1 l2 : list CartItem) :
  (spec_subtotal (l1 ++ l2) == spec_subtotal l1 + spec_subtotal l2)%Q.
Proof.
  induction l1 as [|line rest IH]; simpl.
  - ring.
  - rewrite IH. ring.
Qed.

Lemma spec_subtotal_nonneg (lines : list CartItem) :
  validLines lines -> (0 <= spec_subtotal lines)%Q.
Proof.
  induction 1 as [|line rest [Hp Hq] _ IH]; simpl.
  - apply Qle_refl.
  - assert (0 <= inject_Z (item_quantity line))%Q as Hq'.
    { change 0%Q with (inject_Z 0). rewrite <- Zle_Qle. lia. }
    nra.
Qed.

Lemma summary_pricing (st : POS) (taxEnabled : bool) :
  spec_pricing (cart st) (discount st) taxEnabled
    (summary_subtotal (updateCartSummary st taxEnabled))
    (summary_discount (updateCartSummary st taxEnabled))
    (summary_tax (updateCartSummary st taxEnabled))
    (summary_total (updateCartSummary st taxEnabled)).
Proof.
  unfold spec_pricing, updateCartSummary; simpl.
  split; [rewrite reduce_subtotal; ring|].
  split; [intros Hv Ht|].
  { apply Qgtb_true in Hv. rewrite Hv, Ht. simpl. reflexivity. }
  split; [intros Hv Ht|].
  { apply Qgtb_true in Hv. rewrite Hv, Ht. simpl. reflexivity. }
  split; [intros Hv|].
  { apply Qgtb_false in Hv. rewrite Hv. reflexivity. }
  split; [intros ->; ring|].
  split; [intros ->; reflexivity|reflexivity].
Qed.

(** A checkout with lines in the cart appends one sale, whose amounts
    are those of the cart summary; it empties the cart, resets the
    discount and passes every line to the stock update. *)
Lemma checkout_completes (st : POS) (inp : CheckoutInput) :
  cart st <> [] ->
  exists sale,
    checkout st inp
    = (mkPOS (fold_left updateStock (cart st) (products st)) []
             (sales st ++ [sale]) (currentEditId st) noDiscount
             (currentFilter st) (currentUser st) (users st),
       Toast SaleCompleted success)
    /\ sale_id sale = in_idNow inp
    /\ sale_date sale = in_dateNow inp
    /\ sale_items sale = cart st
    /\ sale_subtotal sale
       = summary_subtotal (updateCartSummary st (in_taxEnabled inp))
    /\ sale_discount sale
       = summary_discount (updateCartSummary st (in_taxEnabled inp))
    /\ sale_tax sale
       = summary_tax (updateCartSummary st (in_taxEnabled inp))
    /\ sale_total sale
       = summary_total (updateCartSummary st (in_taxEnabled inp)).
Proof.
  intros Hne. unfold checkout, updateCartSummary.
  destruct (cart st) as [|line rest] eqn:E; [congruence|].
  eexists. split; [reflexivity|]. simpl. repeat split.
Qed.

(** C1. The cart summary and the sale that checkout records follow the
    pricing rule: the subtotal is the sum over the lines of price times
    quantity; the discount is subtotal * (value / 100) for a percentage
    discount, min(value, subtotal) for a fixed one, and 0 when the value
    is not positive; the tax is a tenth of subtotal - discount when tax is
    enabled and 0 otherwise; the total is (subtotal - discount) + tax. *)
Theorem pricing_rule (st : POS) (taxEnabled : bool) (inp : CheckoutInput) :
  spec_pricing (cart st) (discount st) taxEnabled
    (summary_subtotal (updateCartSummary st taxEnabled))
    (summary_discount (updateCartSummary st taxEnabled))
    (summary_tax (updateCartSummary st taxEnabled))
    (summary_total (updateCartSummary st taxEnabled))
  /\ (cart st <> [] ->
      exists sale,
        sales (fst (checkout st inp)) = sales st ++ [sale]
        /\ spec_pricing (cart st) (discount st) (in_taxEnabled inp)
             (sale_subtotal sale) (sale_discount sale) (sale_tax sale)
             (sale_total sale)).
Proof.
  split; [apply summary_pricing|].
  intros Hne.
  destruct (checkout_completes st inp Hne)
    as (sale & Hc & _ & _ & _ & Hs & Hd & Ht & Htot).
  exists sale. split.
  - rewrite Hc. reflexivity.
  - rewrite Hs, Hd, Ht, Htot. apply summary_pricing.
Qed.

(** [applyDiscount] stores nothing but accepted discounts. *)
Lemma applyDiscount_accepts (st : POS) (form : DiscountForm) (v : Q)
    (t : string) :
  snd (applyDiscount st form) = Toast (DiscountApplied v t) success ->
  acceptedDiscount (discount (fst (applyDiscount st form)))
  /\ cart (fst (applyDiscount st form)) = cart st.
Proof.
  unfold applyDiscount.
  destruct (Qle_bool _ 0) eqn:E0; [discriminate|].
  destruct (String.eqb (form_discountType form) "percentage") eqn:Et; simpl.
  - destruct (Qgtb _ 100) eqn:E100; simpl; [discriminate|].
    intros _. split; [|reflexivity]. split; simpl.
    + apply Qgtb_true. unfold Qgtb. rewrite E0. reflexivity.
    + intros _. apply Qgtb_false. exact E100.
  - intros _. split; [|reflexivity]. split; simpl.
    + apply Qgtb_true. unfold Qgtb. rewrite E0. reflexivity.
    + intros Hp. rewrite Hp in Et. discriminate.
Qed.

(** C4. For a cart with prices >= 0 and quantities >= 1 and a discount
    as [applyDiscount] accepts it (value > 0, at most 100 when it is a
    percentage), discounted subtotal + tax is the total and the total is
    not negative, in the cart summary and in the sale that checkout
    records. *)
Theorem total_nonnegative (st : POS) (taxEnabled : bool)
    (inp : CheckoutInput) :
  validLines (cart st) ->
  acceptedDiscount (discount st) ->
  (((summary_subtotal (updateCartSummary st taxEnabled)
     - summary_discount (updateCartSummary st taxEnabled))
    + summary_tax (updateCartSummary st taxEnabled)
    == summary_total (updateCartSummary st taxEnabled))%Q
   /\ (0 <= summary_total (updateCartSummary st taxEnabled))%Q)
  /\ (forall sale,
        sales (fst (checkout st inp)) = sales st ++ [sale] ->
        ((sale_subtotal sale - sale_discount sale) + sale_tax sale
         == sale_total sale)%Q
        /\ (0 <= sale_total sale)%Q).
Proof.
  intros Hlines [Hpos Hcap].
  assert (forall tax : bool,
            ((summary_subtotal (updateCartSummary st tax)
              - summary_discount (updateCartSummary st tax))
             + summary_tax (updateCartSummary st tax)
             == summary_total (updateCartSummary st tax))%Q
            /\ (0 <= summary_total (updateCartSummary st tax))%Q) as Hsum.
  { intros tax. split; [reflexivity|].
    pose proof (spec_subtotal_nonneg _ Hlines) as Hsub.
    unfold updateCartSummary; simpl.
    set (subtotal := fold_left _ (cart st) 0%Q).
    assert (subtotal == spec_subtotal (cart st))%Q as Hs.
    { unfold subtotal. rewrite reduce_subtotal. ring. }
    apply Qgtb_true in Hpos as Hgt. rewrite Hgt.
    assert (forall d : Q, 0 <= d -> d <= subtotal ->
            0 <= subtotal - d
                 + (if tax then (subtotal - d) * (1 # 10) else 0))%Q
      as Hgen.
    { intros d _ Hd. destruct tax; lra. }
    destruct (String.eqb (discount_type (discount st)) "percentage") eqn:Et.
    - apply String.eqb_eq in Et. specialize (Hcap Et).
      apply Hgen.
      + assert (0 <= discount_value (discount st) / 100)%Q.
        { apply Qle_shift_div_l; lra. }
        nra.
      + assert (discount_value (discount st) / 100 <= 1)%Q.
        { apply Qle_shift_div_r; lra. }
        nra.
    - apply Hgen.
      + apply Q.min_glb; lra.
      + apply Q.le_min_r. }
  split; [apply Hsum|].
  intros sale Hsale.
  destruct (cart st) as [|line rest] eqn:E.
  - unfold checkout in Hsale. rewrite E in Hsale. simpl in Hsale.
    apply (f_equal (@length Sale)) in Hsale.
    rewrite length_app in Hsale. simpl in Hsale. lia.
  - assert (cart st <> []) as Hne by (rewrite E; discriminate).
    destruct (checkout_completes st inp Hne)
      as (sale' & Hc & _ & _ & _ & Hs & Hd & Ht & Htot).
    rewrite Hc in Hsale. simpl in Hsale.
    apply app_inj_tail in Hsale as [_ <-].
    rewrite Hs, Hd, Ht, Htot. apply Hsum.
Qed.

Lemma pricing_rule_witness :
  cart twoLaptops <> []
  /\ exists sale,
       sales (fst (checkout twoLaptops (customerAt 1700000000000)))
       = sales twoLaptops ++ [sale]
       /\ spec_pricing (cart twoLaptops) (discount twoLaptops) true
            (sale_subtotal sale) (sale_discount sale) (sale_tax sale)
            (sale_total sale).
Proof.
  assert (cart twoLaptops <> []) as Hne by (vm_compute; discriminate).
  split; [exact Hne|].
  exact (proj2 (pricing_rule twoLaptops true (customerAt 1700000000000)) Hne).
Defined.

Lemma total_nonnegative_witness :
  validLines (cart twoLaptops)
  /\ acceptedDiscount (discount twoLaptops)
  /\ (0 <= summary_total (updateCartSummary twoLaptops true))%Q.
Proof.
  assert (validLines (cart twoLaptops)) as Hl.
  { vm_compute. repeat constructor; discriminate. }
  assert (acceptedDiscount (discount twoLaptops)) as Hd.
  { split; [reflexivity|]. intros _. vm_compute. discriminate. }
  split; [exact Hl|]. split; [exact Hd|].
  exact (proj2 (proj1 (total_nonnegative twoLaptops true
                         (customerAt 1700000000000) Hl Hd))).
Defined.

(** The specification's two examples, as checkout records them. *)
Example spec_example_percentage :
  let st := mkPOS [] [mkCartItem 1 "item" 100 2] [] None
                  (mkDiscount "percentage" 10 "") noFilter None [] in
  map (fun s => (sale_subtotal s, sale_discount s, sale_tax s,
                 Qred (sale_total s)))
      (sales (fst (checkout st (customerAt 0))))
  = [(200 # 1, 2000 # 100, 18000 # 1000, 198 # 1)]%Q.
Proof. reflexivity. Qed.

Example spec_example_fixed :
  let st := mkPOS [] [mkCartItem 1 "item" 50 3] [] None
                  (mkDiscount "fixed" 1000 "") noFilter None [] in
  map (fun s => (sale_subtotal s, sale_discount s, sale_tax s,
                 sale_total s))
      (sales (fst (checkout st (mkCheckoutInput "" "" false 0 0))))
  = [(150 # 1, 150 # 1, 0, 0)]%Q.
Proof. reflexivity. Qed.

(** ** Checkout with an empty cart *)

(** C5. Checkout with an empty cart fails with the notice 'Cart is
    empty' and returns the state it was given: ledger, stocks, cart and
    discount are as before. *)
Theorem checkout_empty_cart (st : POS) (inp : CheckoutInput) :
  cart st = [] ->
  checkout st inp = (st, Toast CartIsEmpty warning).
Proof.
  intros Hempty. unfold checkout. rewrite Hempty. reflexivity.
Qed.

Lemma checkout_empty_cart_witness :
  cart startState = []
  /\ checkout startState (customerAt 1700000000000)
     = (startState, Toast CartIsEmpty warning).
Proof.
  split; [reflexivity|].
  exact (checkout_empty_cart startState (customerAt 1700000000000) eq_refl).
Defined.

(** ** Writes through [find] *)

Section UpdateFirst.
Context {A : Type} (pred : A -> bool) (f : A -> A).

Lemma updateFirst_not_found (l : list A) :
  List.find pred l = None -> updateFirst pred f l = l.
Proof.
  induction l as [|x rest IH]; simpl; [reflexivity|].
  destruct (pred x); [discriminate|].
  intros H. rewrite IH by exact H. reflexivity.
Qed.

Lemma find_updateFirst_found (l : list A) (x : A) :
  List.find pred l = Some x -> pred (f x) = true ->
  List.find pred (updateFirst pred f l) = Some (f x).
Proof.
  induction l as [|y rest IH]; simpl; [discriminate|].
  destruct (pred y) eqn:E; intros H Hf.
  - injection H as ->. simpl. rewrite Hf. reflexivity.
  - simpl. rewrite E. apply IH; assumption.
Qed.

Lemma find_updateFirst_other (q : A -> bool) (l : list A) :
  (forall x, pred x = true -> q x = false /\ q (f x) = false) ->
  List.find q (updateFirst pred f l) = List.find q l.
Proof.
  intros Hq. induction l as [|y rest IH]; simpl; [reflexivity|].
  destruct (pred y) eqn:E; simpl.
  - destruct (Hq y E) as [-> ->]. reflexivity.
  - rewrite IH. reflexivity.
Qed.

Lemma Forall_updateFirst (P : A -> Prop) (l : list A) :
  Forall P l ->
  (forall x, List.find pred l = Some x -> P x -> P (f x)) ->
  Forall P (updateFirst pred f l).
Proof.
  induction 1 as [|y rest Hy Hrest IH]; simpl; intros Hf.
  - constructor.
  - destruct (pred y) eqn:E.
    + constructor; [apply Hf; [reflexivity|exact Hy]|exact Hrest].
    + constructor; [exact Hy|apply IH; exact Hf].
Qed.

Lemma map_updateFirst {B : Type} (g : A -> B) (l : list A) :
  (forall x, g (f x) = g x) ->
  map g (updateFirst pred f l) = map g l.
Proof.
  intros Hg. induction l as [|y rest IH]; simpl; [reflexivity|].
  destruct (pred y); simpl; [rewrite Hg|rewrite IH]; reflexivity.
Qed.
End UpdateFirst.

Lemma find_product_id (id : Z) (ps : list Product) (p : Product) :
  List.find (hasProductId id) ps = Some p -> product_id p = id /\ In p ps.
Proof.
  intros H. apply find_some in H as [Hin Hid].
  split; [apply Z.eqb_eq; exact Hid|exact Hin].
Qed.

Lemma find_item_id (id : Z) (lines : list CartItem) (line : CartItem) :
  List.find (hasItemId id) lines = Some line ->
  item_id line = id /\ In line lines.
Proof.
  intros H. apply find_some in H as [Hin Hid].
  split; [apply Z.eqb_eq; exact Hid|exact Hin].
Qed.

Lemma find_product_none (id : Z) (ps : list Product) :
  List.find (hasProductId id) ps = None <-> ~ In id (map product_id ps).
Proof.
  induction ps as [|p rest IH]; simpl.
  - tauto.
  - unfold hasProductId at 1. destruct (Z.eqb_spec (product_id p) id).
    + split; [discriminate|]. intros H. exfalso. apply H. left. exact e.
    + rewrite IH. tauto.
Qed.

Lemma find_item_none (id : Z) (lines : list CartItem) :
  List.find (hasItemId id) lines = None <-> ~ In id (map item_id lines).
Proof.
  induction lines as [|l rest IH]; simpl.
  - tauto.
  - unfold hasItemId at 1. destruct (Z.eqb_spec (item_id l) id).
    + split; [discriminate|]. intros H. exfalso. apply H. left. exact e.
    + rewrite IH. tauto.
Qed.

(** A write that keeps the id of the product: what [stockOf] reads
    afterwards. *)
Lemma stockOf_update_same (ps : list Product) (id : Z)
    (f : Product -> Product) :
  (forall p, product_id (f p) = product_id p) ->
  stockOf (updateFirst (hasProductId id) f ps) id
  = option_map (fun p => product_stock (f p))
      (List.find (hasProductId id) ps).
Proof.
  intros Hid. unfold stockOf.
  destruct (List.find (hasProductId id) ps) as [p|] eqn:E.
  - rewrite (find_updateFirst_found _ _ _ p E); [reflexivity|].
    unfold hasProductId. rewrite Hid.
    apply find_product_id in E as [-> _]. apply Z.eqb_refl.
  - rewrite updateFirst_not_found by exact E. rewrite E. reflexivity.
Qed.

Lemma stockOf_update_other (ps : list Product) (id id' : Z)
    (f : Product -> Product) :
  id' <> id ->
  (forall p, product_id (f p) = product_id p) ->
  stockOf (updateFirst (hasProductId id) f ps) id' = stockOf ps id'.
Proof.
  intros Hne Hid. unfold stockOf.
  rewrite find_updateFirst_other; [reflexivity|].
  intros p Hp. unfold hasProductId in *. rewrite Hid.
  apply Z.eqb_eq in Hp. rewrite Hp.
  split; apply Z.eqb_neq; congruence.
Qed.

Lemma updateStock_unfold (ps : list Product) (line : CartItem) :
  updateStock ps line
  = updateFirst (hasProductId (item_id line))
      (fun p => set_stock p (product_stock p - item_quantity line)) ps.
Proof.
  unfold updateStock.
  destruct (List.find _ ps) eqn:E; [reflexivity|].
  rewrite updateFirst_not_found by exact E. reflexivity.
Qed.

Lemma updateStock_missing (ps : list Product) (line : CartItem) :
  List.find (hasProductId (item_id line)) ps = None ->
  updateStock ps line = ps.
Proof.
  intros H. unfold updateStock. rewrite H. reflexivity.
Qed.

Lemma updateStock_ids (ps : list Product) (line : CartItem) :
  map product_id (updateStock ps line) = map product_id ps.
Proof.
  rewrite updateStock_unfold. apply map_updateFirst. reflexivity.
Qed.

Lemma stockOf_updateStock_same (ps : list Product) (line : CartItem) :
  stockOf (updateStock ps line) (item_id line)
  = option_map (fun s => s - item_quantity line)
      (stockOf ps (item_id line)).
Proof.
  rewrite updateStock_unfold, stockOf_update_same by reflexivity.
  unfold stockOf. destruct (List.find _ ps); reflexivity.
Qed.

Lemma stockOf_updateStock_other (ps : list Product) (line : CartItem)
    (id : Z) :
  id <> item_id line ->
  stockOf (updateStock ps line) id = stockOf ps id.
Proof.
  intros Hne. rewrite updateStock_unfold.
  apply stockOf_update_other; [exact Hne|reflexivity].
Qed.

(** The [forEach] of checkout takes from each product what the lines of
    the cart ask of it. *)
Lemma stockOf_after_lines (lines : list CartItem) (ps : list Product)
    (id : Z) :
  stockOf (fold_left updateStock lines ps) id
  = option_map (fun s => s - quantityFor id lines) (stockOf ps id).
Proof.
  revert ps. induction lines as [|line rest IH]; intros ps; simpl.
  - destruct (stockOf ps id); simpl; [f_equal; lia|reflexivity].
  - rewrite IH. unfold hasItemId.
    destruct (Z.eqb_spec (item_id line) id) as [<-|Hne].
    + rewrite stockOf_updateStock_same.
      destruct (stockOf ps (item_id line)); simpl; [f_equal; lia|reflexivity].
    + rewrite stockOf_updateStock_other by congruence. reflexivity.
Qed.

Lemma quantityFor_absent (id : Z) (lines : list CartItem) :
  ~ In id (map item_id lines) -> quantityFor id lines = 0.
Proof.
  induction lines as [|line rest IH]; simpl; [reflexivity|].
  intros H. unfold hasItemId.
  destruct (Z.eqb_spec (item_id line) id); [tauto|]. apply IH. tauto.
Qed.

Lemma quantityFor_unique (lines : list CartItem) (line : CartItem) :
  List.NoDup (map item_id lines) -> In line lines ->
  quantityFor (item_id line) lines = item_quantity line.
Proof.
  induction lines as [|x rest IH]; simpl; [tauto|].
  intros Hnd Hin. apply List.NoDup_cons_iff in Hnd as [Hx Hnd].
  unfold hasItemId. destruct Hin as [->|Hin].
  - rewrite Z.eqb_refl, quantityFor_absent by exact Hx. lia.
  - destruct (Z.eqb_spec (item_id x) (item_id line)) as [e|_].
    + exfalso. apply Hx. rewrite e. apply in_map. exact Hin.
    + apply IH; assumption.
Qed.

(** ** Checkout and stock *)

(** C2 as stated fails.  A checkout whose cart asks for more than the
    live stock is not rejected: three laptops are in the cart, the stock
    has since been set to two, and checkout records the sale and leaves
    a stock of minus one. *)
Lemma checkout_ignores_live_stock :
  map (fun line => (item_id line, item_quantity line)) (cart oversold)
  = [(1, 3)]
  /\ stockOf (products oversold) 1 = Some 2
  /\ snd (checkout oversold (customerAt 1700000060000))
     = Toast SaleCompleted success
  /\ length (sales (fst (checkout oversold (customerAt 1700000060000))))
     = S (length (sales oversold))
  /\ stockOf (products (fst (checkout oversold (customerAt 1700000060000))))
       1
     = Some (-1)
  /\ ~ spec_rejects_oversell.
Proof.
  split; [reflexivity|]. split; [reflexivity|]. split; [reflexivity|].
  split; [reflexivity|]. split; [reflexivity|].
  intros Hspec.
  destruct (Hspec oversold (customerAt 1700000060000)) as [Hsales _].
  - exists (mkCartItem 1 "Laptop" 74999 3), 2.
    split; [left; reflexivity|]. split; [reflexivity|reflexivity].
  - apply (f_equal (@length Sale)) in Hsales. discriminate Hsales.
Qed.

(** C2 (amended). Checkout of a cart with one line per product takes
    from the stock of a line's product exactly the quantity of the line,
    and it never compares the quantity with the stock: whatever the
    stock is, the sale is recorded and the notice is the one of a
    completed sale.  The rejection for insufficient stock is made before,
    and only for a product that has a line in the cart already:
    [addToCart] leaves the state as it is when the quantity of that line
    has reached the stock of the product (the notice is 'Insufficient
    stock', or 'Product not available' when the stock is 0), and
    [updateQuantity] leaves it as it is, with 'Insufficient stock', when
    the new quantity is positive and exceeds the stock.  For a product of
    the catalog without a line [addToCart] refuses a stock of exactly 0
    only; for any other stock, a negative one too, it adds a line of
    quantity 1. *)
Theorem checkout_decrements_stock :
  (forall st inp line s,
     List.NoDup (map item_id (cart st)) ->
     In line (cart st) ->
     stockOf (products st) (item_id line) = Some s ->
     stockOf (products (fst (checkout st inp))) (item_id line)
     = Some (s - item_quantity line)
     /\ snd (checkout st inp) = Toast SaleCompleted success
     /\ exists sale,
          sales (fst (checkout st inp)) = sales st ++ [sale]
          /\ sale_items sale = cart st)
  /\ (forall st productId product existingItem,
        List.find (hasProductId productId) (products st) = Some product ->
        List.find (hasItemId productId) (cart st) = Some existingItem ->
        product_stock product <= item_quantity existingItem ->
        fst (addToCart st productId) = st
        /\ (product_stock product <> 0 ->
            snd (addToCart st productId) = Toast InsufficientStock warning)
        /\ (product_stock product = 0 ->
            snd (addToCart st productId) = Toast ProductNotAvailable error))
  /\ (forall st productId change item product,
        List.find (hasItemId productId) (cart st) = Some item ->
        List.find (hasProductId productId) (products st) = Some product ->
        0 < item_quantity item + change ->
        product_stock product < item_quantity item + change ->
        updateQuantity st productId change
        = (st, Toast InsufficientStock warning))
  /\ (forall st productId product,
        List.find (hasProductId productId) (products st) = Some product ->
        List.find (hasItemId productId) (cart st) = None ->
        (product_stock product = 0 ->
         addToCart st productId = (st, Toast ProductNotAvailable error))
        /\ (product_stock product <> 0 ->
            addToCart st productId
            = (set_cart st
                 (cart st ++
                  [mkCartItem (product_id product) (product_name product)
                              (product_price product) 1]),
               Toast AddedToCart success))).
Proof.
  split; [|split; [|split]].
  - intros st inp line s Hnd Hin Hs.
    assert (cart st <> []) as Hne by (intros E; rewrite E in Hin; exact Hin).
    destruct (checkout_completes st inp Hne) as (sale & Hc & _ & _ & Hi & _).
    rewrite Hc; simpl. split; [|split; [reflexivity|]].
    + rewrite stockOf_after_lines, Hs, quantityFor_unique by assumption.
      reflexivity.
    + exists sale. split; [reflexivity|exact Hi].
  - intros st productId product existingItem Hp Hi Hle.
    unfold addToCart. rewrite Hp, Hi.
    destruct (Z.eqb_spec (product_stock product) 0) as [Hz|Hnz].
    + split; [reflexivity|].
      split; [intros Hnz; contradiction|reflexivity].
    + assert (Z.geb (item_quantity existingItem) (product_stock product)
              = true) as ->.
      { rewrite Z.geb_leb. apply Z.leb_le. exact Hle. }
      split; [reflexivity|].
      split; [reflexivity|intros Hz; contradiction].
  - intros st productId change item product Hi Hp Hpos Hgt.
    unfold updateQuantity. rewrite Hi, Hp.
    assert (Z.leb (item_quantity item + change) 0 = false) as ->
      by (apply Z.leb_gt; exact Hpos).
    assert (Z.gtb (item_quantity item + change) (product_stock product)
            = true) as ->.
    { rewrite Z.gtb_ltb. apply Z.ltb_lt. exact Hgt. }
    reflexivity.
  - intros st productId product Hp Hi.
    unfold addToCart. rewrite Hp, Hi.
    destruct (Z.eqb_spec (product_stock product) 0) as [Hz|Hnz].
    + split; [reflexivity|intros Hnz; contradiction].
    + split; [intros Hz; contradiction|reflexivity].
Qed.

Lemma checkout_decrements_stock_witness :
  stockOf (products (fst (checkout oversold (customerAt 1700000060000)))) 1
  = Some (2 - 3)
  /\ fst (addToCart oversold 1) = oversold
  /\ cart (fst (addToCart
                  (fst (checkout oversold (customerAt 1700000060000))) 1))
     = [mkCartItem 1 "Laptop" 74999 1].
Proof.
  assert (List.NoDup (map item_id (cart oversold))) as Hnd.
  { vm_compute. repeat constructor. intros []. }
  assert (In (mkCartItem 1 "Laptop" 74999 3) (cart oversold)) as Hin.
  { vm_compute. left. reflexivity. }
  split; [|split].
  - exact (proj1 (proj1 checkout_decrements_stock oversold
                    (customerAt 1700000060000) _ 2 Hnd Hin eq_refl)).
  - refine (proj1 (proj1 (proj2 checkout_decrements_stock) oversold 1
                     (savedLaptop 2) (mkCartItem 1 "Laptop" 74999 3)
                     eq_refl eq_refl _)).
    vm_compute. discriminate.
  - assert (product_stock (savedLaptop (-1)) <> 0) as Hnz.
    { vm_compute. discriminate. }
    rewrite (proj2 (proj2 (proj2 (proj2 checkout_decrements_stock))
                      (fst (checkout oversold (customerAt 1700000060000)))
                      1 (savedLaptop (-1)) eq_refl eq_refl) Hnz).
    reflexivity.
Defined.

Lemma fold_updateStock_ids (lines : list CartItem) (ps : list Product) :
  map product_id (fold_left updateStock lines ps) = map product_id ps.
Proof.
  revert ps. induction lines as [|line rest IH]; intros ps; simpl.
  - reflexivity.
  - rewrite IH. apply updateStock_ids.
Qed.

(** C10. When a line of the cart is for a product that the catalog does
    not have, checkout still completes: the stock update does nothing
    for that line, so the catalog ends as if the line were not in the
    cart, and the recorded sale holds the line and counts its price times
    its quantity in the subtotal. *)
Theorem checkout_unknown_product (st : POS) (inp : CheckoutInput)
    (before after : list CartItem) (line : CartItem) :
  cart st = before ++ line :: after ->
  List.find (hasProductId (item_id line)) (products st) = None ->
  snd (checkout st inp) = Toast SaleCompleted success
  /\ updateStock (products st) line = products st
  /\ products (fst (checkout st inp))
     = fold_left updateStock (before ++ after) (products st)
  /\ List.find (hasProductId (item_id line))
       (products (fst (checkout st inp))) = None
  /\ exists sale,
       sales (fst (checkout st inp)) = sales st ++ [sale]
       /\ In line (sale_items sale)
       /\ (sale_subtotal sale
           == spec_subtotal (before ++ after)
              + item_price line * inject_Z (item_quantity line))%Q.
Proof.
  intros Hcart Hnone.
  assert (cart st <> []) as Hne.
  { rewrite Hcart. destruct before; discriminate. }
  destruct (checkout_completes st inp Hne)
    as (sale & Hc & _ & _ & Hi & Hs & _).
  assert (fold_left updateStock (cart st) (products st)
          = fold_left updateStock (before ++ after) (products st)) as Hps.
  { rewrite Hcart, !fold_left_app. simpl.
    rewrite updateStock_missing; [reflexivity|].
    apply find_product_none. rewrite fold_updateStock_ids.
    apply find_product_none. exact Hnone. }
  rewrite Hc; simpl.
  split; [reflexivity|].
  split; [apply updateStock_missing; exact Hnone|].
  split; [exact Hps|].
  split.
  { apply find_product_none. rewrite fold_updateStock_ids.
    apply find_product_none. exact Hnone. }
  exists sale. split; [reflexivity|]. split.
  - rewrite Hi, Hcart. apply in_elt.
  - rewrite Hs.
    destruct (summary_pricing st (in_taxEnabled inp)) as [Hsub _].
    rewrite Hsub, Hcart, !spec_subtotal_app. simpl. ring.
Qed.

Lemma checkout_unknown_product_witness :
  List.find (hasProductId 99) (products orphanCart) = None
  /\ snd (checkout orphanCart (customerAt 1700000000000))
     = Toast SaleCompleted success
  /\ products (fst (checkout orphanCart (customerAt 1700000000000)))
     = fold_left updateStock (cart (fst (addToCart startState 2)) ++ [])
         (products orphanCart).
Proof.
  split; [reflexivity|].
  pose proof (checkout_unknown_product orphanCart
                (customerAt 1700000000000)
                (cart (fst (addToCart startState 2))) [] orphanLine
                eq_refl eq_refl) as H.
  split; [exact (proj1 H)|exact (proj1 (proj2 (proj2 H)))].
Defined.

(** [deleteProduct] itself leaves no such line: it takes the lines of the
    product out of the cart together with the product. *)
Lemma deleteProduct_purges_cart (st : POS) (productId : Z) :
  ~ In productId
      (map product_id (products (fst (deleteProduct st productId true))))
  /\ ~ In productId
         (map item_id (cart (fst (deleteProduct st productId true)))).
Proof.
  simpl. split; intros Hin; apply in_map_iff in Hin as (x & Hid & Hin);
    apply filter_In in Hin as [_ Hkeep];
    apply negb_true_iff, Z.eqb_neq in Hkeep; contradiction.
Qed.

(** ** The stock invariant of a session *)

Lemma consistent_same (st st' : POS) :
  products st' = products st -> cart st' = cart st ->
  consistent st -> consistent st'.
Proof.
  unfold consistent. intros -> ->. tauto.
Qed.

Lemma NoDup_map_filter {A B : Type} (g : A -> B) (keep : A -> bool)
    (l : list A) :
  List.NoDup (map g l) -> List.NoDup (map g (List.filter keep l)).
Proof.
  induction l as [|x rest IH]; simpl; intros H; [exact H|].
  apply List.NoDup_cons_iff in H as [Hx Hrest].
  destruct (keep x); simpl; [|apply IH; exact Hrest].
  apply List.NoDup_cons_iff. split; [|apply IH; exact Hrest].
  intros Hin. apply Hx. apply in_map_iff in Hin as (y & Hy & Hin).
  apply filter_In in Hin as [Hin _]. apply in_map_iff. exists y. tauto.
Qed.

Lemma Forall_filter_keep {A : Type} (P : A -> Prop) (keep : A -> bool)
    (l : list A) :
  Forall P l -> Forall P (List.filter keep l).
Proof.
  rewrite !List.Forall_forall. intros H x Hx.
  apply filter_In in Hx as [Hx _]. apply H. exact Hx.
Qed.

Lemma withinStock_update (ps : list Product) (lines : list CartItem)
    (id : Z) (f : Product -> Product) :
  (forall p, product_id (f p) = product_id p) ->
  (forall p line,
     List.find (hasProductId id) ps = Some p -> In line lines ->
     item_id line = id -> item_quantity line <= product_stock (f p)) ->
  withinStock ps lines ->
  withinStock (updateFirst (hasProductId id) f ps) lines.
Proof.
  intros Hid Hq H. unfold withinStock in *. rewrite List.Forall_forall in *.
  intros line Hin. destruct (H line Hin) as (s & Hs & Hle).
  destruct (Z.eq_dec (item_id line) id) as [e|ne].
  - rewrite e, stockOf_update_same by exact Hid.
    unfold stockOf in Hs. rewrite e in Hs.
    destruct (List.find (hasProductId id) ps) as [p|] eqn:E; [|discriminate].
    simpl. eexists. split; [reflexivity|]. apply Hq; auto.
  - rewrite stockOf_update_other by assumption. eauto.
Qed.

Lemma stockNonNegative_update (ps : list Product) (id : Z)
    (f : Product -> Product) :
  (forall p, List.find (hasProductId id) ps = Some p ->
             0 <= product_stock (f p)) ->
  stockNonNegative ps ->
  stockNonNegative (updateFirst (hasProductId id) f ps).
Proof.
  intros Hf H. apply Forall_updateFirst; [exact H|].
  intros p Hp _. apply Hf. exact Hp.
Qed.

Lemma stockOf_found (ps : list Product) (id : Z) (p : Product) :
  List.find (hasProductId id) ps = Some p ->
  stockOf ps id = Some (product_stock p).
Proof.
  intros H. unfold stockOf. rewrite H. reflexivity.
Qed.

Lemma withinStock_set_quantity (ps : list Product) (lines : list CartItem)
    (id q s : Z) :
  stockOf ps id = Some s -> q <= s ->
  withinStock ps lines ->
  withinStock ps
    (updateFirst (hasItemId id) (fun i => set_quantity i q) lines).
Proof.
  intros Hs Hq H. apply Forall_updateFirst; [exact H|].
  intros line Hfind _. apply find_item_id in Hfind as [Hid _].
  exists s. simpl. rewrite Hid. split; assumption.
Qed.

Lemma addToCart_consistent (st : POS) (productId : Z) :
  consistent st -> consistent (fst (addToCart st productId)).
Proof.
  intros (Hs & Hnd & Hw). unfold addToCart.
  destruct (List.find (hasProductId productId) (products st))
    as [product|] eqn:Ep; [|repeat split; assumption].
  destruct (Z.eqb_spec (product_stock product) 0) as [|Hnz];
    [repeat split; assumption|].
  pose proof (stockOf_found _ _ _ Ep) as Hstock.
  apply find_product_id in Ep as [Hpid Hpin].
  destruct (List.find (hasItemId productId) (cart st))
    as [existingItem|] eqn:Ei.
  - destruct (Z.geb _ _) eqn:G; [repeat split; assumption|].
    rewrite Z.geb_leb in G. apply Z.leb_gt in G.
    repeat split; simpl; [exact Hs| |].
    + rewrite map_updateFirst by reflexivity. exact Hnd.
    + apply Forall_updateFirst; [exact Hw|].
      intros line Hfind _. rewrite Ei in Hfind. injection Hfind as <-.
      apply find_item_id in Ei as [Hid _].
      exists (product_stock product). simpl.
      rewrite Hid. split; [exact Hstock|lia].
  - repeat split; simpl; [exact Hs| |].
    + rewrite map_app. simpl. apply List.NoDup_app; [exact Hnd| |].
      * repeat constructor. intros [].
      * intros x Hx [<-|[]]. apply find_item_none in Ei.
        apply Ei. rewrite <- Hpid. exact Hx.
    + apply List.Forall_app. split; [exact Hw|]. constructor; [|constructor].
      exists (product_stock product). simpl. rewrite Hpid.
      split; [exact Hstock|].
      unfold stockNonNegative in Hs. rewrite List.Forall_forall in Hs.
      specialize (Hs product Hpin). lia.
Qed.

Lemma removeFromCart_consistent (st : POS) (productId : Z) :
  consistent st -> consistent (removeFromCart st productId).
Proof.
  intros (Hs & Hnd & Hw). repeat split; simpl.
  - exact Hs.
  - apply NoDup_map_filter. exact Hnd.
  - apply Forall_filter_keep. exact Hw.
Qed.

Lemma updateQuantity_consistent (st : POS) (productId change : Z) :
  consistent st -> consistent (fst (updateQuantity st productId change)).
Proof.
  intros Hc. unfold updateQuantity.
  destruct (List.find (hasItemId productId) (cart st)) as [item|] eqn:Ei;
    [|exact Hc].
  destruct (Z.leb _ 0); [apply removeFromCart_consistent; exact Hc|].
  destruct (List.find (hasProductId productId) (products st))
    as [product|] eqn:Ep; [|exact Hc].
  destruct (Z.gtb _ _) eqn:G; [exact Hc|].
  rewrite Z.gtb_ltb in G. apply Z.ltb_ge in G.
  destruct Hc as (Hs & Hnd & Hw). repeat split; simpl; [exact Hs| |].
  - rewrite map_updateFirst by reflexivity. exact Hnd.
  - eapply withinStock_set_quantity; [apply stockOf_found; exact Ep| |exact Hw].
    exact G.
Qed.

Lemma withinStock_cons_inv (ps : list Product) (line : CartItem)
    (rest : list CartItem) :
  withinStock ps (line :: rest) ->
  (exists s, stockOf ps (item_id line) = Some s /\ item_quantity line <= s)
  /\ withinStock ps rest.
Proof.
  intros H. inversion H; subst. split; assumption.
Qed.

(** The stock update of a cart within stock leaves no negative stock. *)
Lemma sold_within_stock (lines : list CartItem) (ps : list Product) :
  stockNonNegative ps ->
  List.NoDup (map item_id lines) ->
  withinStock ps lines ->
  stockNonNegative (fold_left updateStock lines ps).
Proof.
  revert ps. induction lines as [|line rest IH]; intros ps Hs Hnd Hw; simpl.
  - exact Hs.
  - apply List.NoDup_cons_iff in Hnd as [Hfresh Hnd].
    apply withinStock_cons_inv in Hw as [(s & Hstock & Hle) Hw].
    rewrite updateStock_unfold. apply IH; [| exact Hnd |].
    + apply stockNonNegative_update; [|exact Hs].
      intros p Hp. simpl. rewrite (stockOf_found _ _ _ Hp) in Hstock.
      injection Hstock as ->. lia.
    + apply withinStock_update; [reflexivity| |exact Hw].
      intros p other _ Hin Hid. exfalso. apply Hfresh.
      rewrite <- Hid. apply in_map. exact Hin.
Qed.

Lemma checkout_consistent (st : POS) (inp : CheckoutInput) :
  consistent st -> consistent (fst (checkout st inp)).
Proof.
  intros (Hs & Hnd & Hw).
  destruct (cart st) as [|line rest] eqn:E.
  - unfold checkout. rewrite E. simpl.
    unfold consistent. rewrite E. repeat split; assumption.
  - assert (cart st <> []) as Hne by (rewrite E; discriminate).
    destruct (checkout_completes st inp Hne) as (sale & Hc & _).
    rewrite Hc. rewrite E in *. unfold consistent. cbn [fst products cart].
    split; [apply sold_within_stock; assumption|].
    split; constructor.
Qed.

Lemma find_app_found {A : Type} (pred : A -> bool) (l extra : list A)
    (x : A) :
  List.find pred l = Some x -> List.find pred (l ++ extra) = Some x.
Proof.
  induction l as [|y rest IH]; simpl; [discriminate|].
  destruct (pred y); [tauto|exact IH].
Qed.

Lemma stockOf_app (ps extra : list Product) (id s : Z) :
  stockOf ps id = Some s -> stockOf (ps ++ extra) id = Some s.
Proof.
  unfold stockOf. intros H.
  destruct (List.find (hasProductId id) ps) as [p|] eqn:E; [|discriminate].
  rewrite (find_app_found _ _ extra p E). exact H.
Qed.

Lemma saveProduct_consistent (st : POS) (form : ProductForm) (now : Z) :
  careful st (SaveProduct form now) ->
  consistent st -> consistent (fst (saveProduct st form now)).
Proof.
  intros Hcare Hc. unfold saveProduct. simpl in Hcare.
  destruct (nonEmpty (form_name form)); [|exact Hc].
  destruct (nonEmpty (form_category form)); [|exact Hc].
  destruct (form_price form) as [price|]; [|exact Hc].
  destruct (form_stock form) as [stock|]; [|exact Hc].
  destruct Hcare as [Hpos Hcart]. destruct Hc as (Hs & Hnd & Hw).
  destruct (truthy (currentEditId st)) as [editId|] eqn:Ee.
  - destruct (List.find (hasProductId editId) (products st)) eqn:Ep;
      [|repeat split; assumption].
    repeat split; simpl; [| exact Hnd |].
    + apply stockNonNegative_update; [|exact Hs]. intros; exact Hpos.
    + apply withinStock_update; [reflexivity| |exact Hw].
      intros q line _ Hin Hid. simpl. eapply Hcart; eauto.
  - repeat split; simpl; [| exact Hnd |].
    + apply List.Forall_app. split; [exact Hs|].
      constructor; [exact Hpos|constructor].
    + unfold withinStock in *. rewrite List.Forall_forall in *.
      intros line Hin. destruct (Hw line Hin) as (s & Hstock & Hle).
      exists s. split; [apply stockOf_app; exact Hstock|exact Hle].
Qed.

Lemma find_filter_other (ps : list Product) (id productId : Z) :
  id <> productId ->
  List.find (hasProductId id)
    (List.filter (fun p => negb (Z.eqb (product_id p) productId)) ps)
  = List.find (hasProductId id) ps.
Proof.
  intros Hne. induction ps as [|p rest IH]; simpl; [reflexivity|].
  destruct (Z.eqb_spec (product_id p) productId) as [e|ne]; simpl.
  - unfold hasProductId at 2. rewrite e.
    destruct (Z.eqb_spec productId id); [congruence|exact IH].
  - destruct (hasProductId id p); [reflexivity|exact IH].
Qed.

Lemma deleteProduct_consistent (st : POS) (productId : Z)
    (confirmed : bool) :
  consistent st -> consistent (fst (deleteProduct st productId confirmed)).
Proof.
  intros Hc. unfold deleteProduct. destruct confirmed; [|exact Hc].
  destruct Hc as (Hs & Hnd & Hw). repeat split; simpl.
  - apply Forall_filter_keep. exact Hs.
  - apply NoDup_map_filter. exact Hnd.
  - unfold withinStock in *. rewrite List.Forall_forall in *.
    intros line Hin. apply filter_In in Hin as [Hin Hkeep].
    apply negb_true_iff, Z.eqb_neq in Hkeep.
    destruct (Hw line Hin) as (s & Hstock & Hle). exists s.
    split; [|exact Hle]. unfold stockOf in *.
    rewrite find_filter_other by exact Hkeep. exact Hstock.
Qed.

Lemma reorderProduct_consistent (st : POS) (productId quantity : Z) :
  0 <= quantity ->
  consistent st -> consistent (fst (reorderProduct st productId quantity)).
Proof.
  intros Hq Hc. unfold reorderProduct.
  destruct (List.find (hasProductId productId) (products st)) as [product|]
    eqn:Ep; [|exact Hc].
  destruct Hc as (Hs & Hnd & Hw). repeat split; simpl; [| exact Hnd |].
  - apply stockNonNegative_update; [|exact Hs].
    intros p Hp. simpl. apply find_product_id in Hp as [_ Hin].
    unfold stockNonNegative in Hs. rewrite List.Forall_forall in Hs.
    specialize (Hs p Hin). lia.
  - apply withinStock_update; [reflexivity| |exact Hw].
    intros p line Hp Hin Hid. simpl.
    unfold withinStock in Hw. rewrite List.Forall_forall in Hw.
    destruct (Hw line Hin) as (s & Hstock & Hle).
    rewrite Hid, (stockOf_found _ _ _ Hp) in Hstock.
    injection Hstock as ->. lia.
Qed.

#[local] Hint Resolve addToCart_consistent updateQuantity_consistent
  removeFromCart_consistent checkout_consistent saveProduct_consistent
  deleteProduct_consistent reorderProduct_consistent : stock.

Lemma perform_consistent (st : POS) (a : Action) :
  careful st a -> consistent st -> consistent (perform st a).
Proof.
  destruct a; simpl; intros Hcare Hc; auto with stock;
    revert Hc; apply consistent_same;
    unfold applyDiscount, openProductModal; branches; reflexivity.
Qed.

Lemma startState_consistent : consistent startState.
Proof.
  repeat split.
  - unfold stockNonNegative. simpl. repeat constructor; simpl; lia.
  - constructor.
  - constructor.
Qed.

(** C3 as stated fails.  A sequence of operations drives a stock below
    zero: all ten laptops go to the cart, the inventory page corrects
    the laptop stock to three, and checkout leaves a stock of minus
    seven. *)
Lemma stock_goes_negative :
  stockOf (products (run startState stockCorrection)) 1 = Some (-7)
  /\ ~ spec_stock_never_negative.
Proof.
  split; [reflexivity|].
  intros Hspec. specialize (Hspec stockCorrection).
  apply Forall_inv in Hspec. vm_compute in Hspec. apply Hspec. reflexivity.
Qed.

(** C3 (amended). From a state where no stock is negative and every cart
    line is within the stock of its product, every sequence of
    add-to-cart, update-quantity, remove-from-cart, discount, checkout,
    product deletion, reorder of a quantity >= 0 and product save with a
    stock >= 0 that, for an edit, is not below the quantity of that
    product in the cart keeps every stock >= 0 (and the cart within
    stock). *)
Theorem stock_stays_nonnegative (st : POS) (actions : list Action) :
  consistent st ->
  carefulRun st actions ->
  consistent (run st actions)
  /\ stockNonNegative (products (run st actions)).
Proof.
  intros Hc Hrun.
  assert (consistent (run st actions)) as H.
  { revert st Hc Hrun. induction actions as [|a rest IH]; intros st Hc Hrun.
    - exact Hc.
    - destruct Hrun as [Ha Hrest]. simpl. apply IH; [|exact Hrest].
      apply perform_consistent; assumption. }
  split; [exact H|exact (proj1 H)].
Qed.

Lemma stock_stays_nonnegative_witness :
  consistent startState
  /\ carefulRun startState restockAndSell
  /\ stockNonNegative (products (run startState restockAndSell)).
Proof.
  assert (carefulRun startState restockAndSell) as Hrun.
  { cbn -[Z.le]. repeat split; try lia.
    intros editId line Hedit [<-|[]] _. simpl. lia. }
  split; [exact startState_consistent|]. split; [exact Hrun|].
  exact (proj2 (stock_stays_nonnegative startState restockAndSell
                  startState_consistent Hrun)).
Defined.

(** ** Sale ids *)

Lemma StronglySorted_snoc {A : Type} (R : A -> A -> Prop) (l : list A)
    (x : A) :
  StronglySorted R l -> Forall (fun y => R y x) l ->
  StronglySorted R (l ++ [x]).
Proof.
  induction 1 as [|y rest Hrest IH Hy]; intros Hx; simpl.
  - repeat constructor.
  - inversion Hx; subst. constructor; [apply IH; assumption|].
    apply List.Forall_app. split; [exact Hy|]. repeat constructor. assumption.
Qed.

Lemma increasing_NoDup (l : list Z) :
  StronglySorted Z.lt l -> List.NoDup l.
Proof.
  induction 1 as [|x rest _ IH Hx]; constructor; [|exact IH].
  intros Hin. rewrite List.Forall_forall in Hx. specialize (Hx x Hin). lia.
Qed.

(** Only a checkout with lines in the cart changes the ledger: it
    appends one sale whose id is its [Date.now()]. *)
Lemma perform_saleIds (st : POS) (a : Action) :
  saleIds (perform st a) = saleIds st
  \/ exists inp,
       a = Checkout inp
       /\ saleIds (perform st a) = saleIds st ++ [in_idNow inp].
Proof.
  unfold saleIds.
  destruct a; simpl;
    try (left;
         unfold addToCart, updateQuantity, applyDiscount, openProductModal,
           saveProduct, deleteProduct, reorderProduct;
         branches; reflexivity).
  destruct (cart st) as [|line rest] eqn:E.
  - left. unfold checkout. rewrite E. reflexivity.
  - right. exists inp. split; [reflexivity|].
    assert (cart st <> []) as Hne by (rewrite E; discriminate).
    destruct (checkout_completes st inp Hne) as (sale & Hc & Hid & _).
    rewrite Hc. simpl. rewrite map_app. simpl. rewrite Hid. reflexivity.
Qed.

(** C6 as stated fails.  Sale ids are not always unique and increasing:
    the id is the reading of the clock, and two checkouts that read the
    same millisecond record two sales with the same id. *)
Lemma sale_ids_repeat :
  saleIds (run startState sameMillisecond) = [1700000000000; 1700000000000]
  /\ ~ List.NoDup (saleIds (run startState sameMillisecond))
  /\ ~ spec_sale_ids_increasing.
Proof.
  assert (~ List.NoDup (saleIds (run startState sameMillisecond))) as Hdup.
  { intros H. change (List.NoDup [1700000000000; 1700000000000]) in H.
    apply List.NoDup_cons_iff in H as [H _]. apply H. left. reflexivity. }
  split; [reflexivity|]. split; [exact Hdup|].
  intros Hspec. apply Hdup, increasing_NoDup, Hspec.
Qed.

(** C6 (amended). When the ids of the ledger increase strictly and every
    checkout of a session reads a [Date.now()] greater than every id
    already in the ledger, the ids of the ledger still increase strictly
    in creation order after the session, and so are unique. *)
Theorem sale_ids_increase (st : POS) (actions : list Action) :
  StronglySorted Z.lt (saleIds st) ->
  clockAhead st actions ->
  StronglySorted Z.lt (saleIds (run st actions))
  /\ List.NoDup (saleIds (run st actions)).
Proof.
  intros Hsorted Hclock.
  assert (StronglySorted Z.lt (saleIds (run st actions))) as H.
  { revert st Hsorted Hclock.
    induction actions as [|a rest IH]; intros st Hsorted Hclock.
    - exact Hsorted.
    - destruct Hclock as [Ha Hrest]. simpl. apply IH; [|exact Hrest].
      destruct (perform_saleIds st a) as [->|(inp & -> & ->)].
      + exact Hsorted.
      + apply StronglySorted_snoc; assumption. }
  split; [exact H|apply increasing_NoDup; exact H].
Qed.

Lemma sale_ids_increase_witness :
  StronglySorted Z.lt (saleIds startState)
  /\ clockAhead startState minuteApart
  /\ StronglySorted Z.lt (saleIds (run startState minuteApart)).
Proof.
  assert (StronglySorted Z.lt (saleIds startState)) as Hs by constructor.
  assert (clockAhead startState minuteApart) as Hc.
  { cbn -[Z.lt]. repeat split; repeat constructor. }
  split; [exact Hs|]. split; [exact Hc|].
  exact (proj1 (sale_ids_increase startState minuteApart Hs Hc)).
Defined.

(** ** Sorting *)

Lemma insertSorted_perm {A : Type} (compare : A -> A -> Z) (x : A)
    (l : list A) :
  Permutation (insertSorted compare x l) (x :: l).
Proof.
  induction l as [|y rest IH]; simpl; [reflexivity|].
  destruct (Z.leb (compare x y) 0); [reflexivity|].
  rewrite IH. apply perm_swap.
Qed.

Lemma sort_perm {A : Type} (compare : A -> A -> Z) (l : list A) :
  Permutation (sort compare l) l.
Proof.
  induction l as [|x rest IH]; simpl; [reflexivity|].
  rewrite insertSorted_perm. apply perm_skip. exact IH.
Qed.

Section SortByKey.
Context {A : Type} (key : A -> Z).

Lemma insertSorted_descending (x : A) (l : list A) :
  StronglySorted (notAfter key) l ->
  StronglySorted (notAfter key) (insertSorted (descending key) x l).
Proof.
  induction 1 as [|y rest Hrest IH Hy]; simpl.
  - repeat constructor.
  - unfold descending at 1.
    destruct (Z.leb_spec (key y - key x) 0) as [Hle|Hgt].
    + constructor; [constructor; assumption|].
      constructor; [unfold notAfter; lia|].
      eapply List.Forall_impl; [|exact Hy].
      unfold notAfter. intros z Hz. lia.
    + constructor; [exact IH|].
      eapply Permutation_Forall;
        [symmetry; apply insertSorted_perm|].
      constructor; [unfold notAfter; lia|exact Hy].
Qed.

Lemma sort_descending (l : list A) :
  StronglySorted (notAfter key) (sort (descending key) l).
Proof.
  induction l as [|x rest IH]; simpl; [constructor|].
  apply insertSorted_descending. exact IH.
Qed.
End SortByKey.

(** ** Reports *)

(** C7. On an empty ledger the transaction filter returns the empty list
    whatever the search text and the date range are, and on every ledger
    and filter its result is ordered by sale date, newest first.  (The
    filter is a total function: there is no input on which it fails.) *)
Theorem filtered_sales_sorted :
  (forall st cal, sales st = [] -> getFilteredSales st cal = [])
  /\ (forall st cal, StronglySorted newerOrSame (getFilteredSales st cal)).
Proof.
  split; intros st cal.
  - intros Hempty. unfold getFilteredSales. rewrite Hempty.
    destruct (nonEmpty _); simpl;
      (destruct (negb _); [|reflexivity]);
      repeat match goal with
             | |- context [if ?c then _ else _] => destruct c
             | |- context [match ?o with Some _ => _ | None => _ end] =>
                 destruct o
             | |- context [let (_, _) := ?p in _] => destruct p
             end; reflexivity.
  - unfold getFilteredSales.
    apply (sort_descending sale_date).
Qed.

(** Every sale of the result is a sale of the ledger. *)
Lemma filtered_sales_from_ledger (st : POS) (cal : Calendar) (sale : Sale) :
  In sale (getFilteredSales st cal) -> In sale (sales st).
Proof.
  unfold getFilteredSales. intros Hin.
  apply (Permutation_in _ (sort_perm _ _)) in Hin.
  revert Hin. branches; intros Hin;
    repeat match type of Hin with
           | In _ (List.filter _ _) => apply filter_In in Hin as [Hin _]
           end; exact Hin.
Qed.

Lemma filtered_sales_sorted_witness :
  getFilteredSales startState (mkCalendar 0 0 0 0 0 0 (fun t => t)) = [].
Proof.
  exact (proj1 filtered_sales_sorted startState
           (mkCalendar 0 0 0 0 0 0 (fun t => t)) eq_refl).
Defined.

(** ** Permissions *)

(** C8. The permission check is the role hierarchy: an admin has the
    permissions 'admin', 'manager' and 'cashier'; a manager has 'manager'
    and 'cashier' and not 'admin'; a cashier has 'cashier' only; a
    permission other than these three is denied whoever is signed in; and
    [addUser] called by a cashier returns false and the state, with its
    user list, is the one it was given. *)
Theorem permission_hierarchy (st : POS) (u : User) :
  currentUser st = Some u ->
  (user_role u = "admin" ->
   hasPermission st "admin" = true
   /\ hasPermission st "manager" = true
   /\ hasPermission st "cashier" = true)
  /\ (user_role u = "manager" ->
      hasPermission st "admin" = false
      /\ hasPermission st "manager" = true
      /\ hasPermission st "cashier" = true)
  /\ (user_role u = "cashier" ->
      hasPermission st "admin" = false
      /\ hasPermission st "manager" = false
      /\ hasPermission st "cashier" = true)
  /\ (forall st' permission,
        permission <> "admin" -> permission <> "manager" ->
        permission <> "cashier" ->
        hasPermission st' permission = false)
  /\ (user_role u = "cashier" ->
      forall userData idNow dateNow,
        addUser st userData idNow dateNow
        = (st, false, Toast InsufficientPermissions error)).
Proof.
  intros Hu. unfold addUser, hasPermission. rewrite Hu.
  split; [intros Hr; unfold roleIn; rewrite Hr; repeat split|].
  split; [intros Hr; unfold roleIn; rewrite Hr; repeat split|].
  split; [intros Hr; unfold roleIn; rewrite Hr; repeat split|].
  split.
  - intros st' permission Ha Hm Hc.
    apply String.eqb_neq in Ha, Hm, Hc. rewrite Ha, Hm, Hc.
    destruct (currentUser st'); reflexivity.
  - intros Hr userData idNow dateNow. simpl. rewrite Hr. reflexivity.
Qed.

Lemma permission_hierarchy_witness :
  hasPermission cashierSession "admin" = false
  /\ addUser cashierSession (mkUserData "Mina" "mina" "pw" "admin" "") 5 5
     = (cashierSession, false, Toast InsufficientPermissions error).
Proof.
  pose proof (permission_hierarchy cashierSession cashier eq_refl) as H.
  split.
  - exact (proj1 (proj1 (proj2 (proj2 H)) eq_refl)).
  - exact (proj2 (proj2 (proj2 (proj2 H))) eq_refl _ 5 5).
Defined.

(** ** Forecast *)

(** An object filled by [obj[key(a)] = val(a)] over a list has, under the
    key of each element of the list, the value of an element with that
    key. *)
Lemma fold_insert_lookup {A V : Type} (key : A -> Z) (val : A -> V)
    (l : list A) (m0 : gmap Z V) (x : A) :
  In x l ->
  exists y,
    In y l /\ key y = key x
    /\ fold_left (fun m a => <[ key a := val a ]> m) l m0 !! key x
       = Some (val y).
Proof.
  revert x. induction l as [|z rest IH] using rev_ind; intros x Hin.
  - destruct Hin.
  - rewrite fold_left_app. simpl.
    destruct (Z.eq_dec (key z) (key x)) as [e|ne].
    + exists z. split; [apply in_or_app; right; left; reflexivity|].
      split; [exact e|]. rewrite e. apply lookup_insert_eq.
    + apply in_app_or in Hin as [Hin|[->|[]]]; [|congruence].
      destruct (IH x Hin) as (y & Hy & Hk & Hlook).
      exists y. split; [apply in_or_app; left; exact Hy|].
      split; [exact Hk|]. rewrite lookup_insert_ne by exact ne. exact Hlook.
Qed.

(** C9. A product of the catalog with no unit sold in the 30-day window
    of the velocity and in the two 60-day windows of the trend has
    velocity 0 and trend 0, its demand prediction recommends a stock of 0
    and it is not in the reorder suggestions. *)
Theorem unsold_product_forecast (st : POS) (now last30Days : Z)
    (p : Product) :
  In p (products st) ->
  soldSince st (product_id p) last30Days = 0 ->
  soldSince st (product_id p) (now - days60) = 0 ->
  soldBetween st (product_id p) (now - days60 - days60) (now - days60) = 0 ->
  (getProductSalesVelocity st last30Days (product_id p) == 0)%Q
  /\ calculateProductTrend st now (product_id p) = 0%Q
  /\ (exists prediction,
        demandPredictions (calculateInventoryForecast st now last30Days)
          !! product_id p = Some prediction
        /\ (prediction_currentVelocity prediction == 0)%Q
        /\ (prediction_predictedVelocity prediction == 0)%Q
        /\ prediction_recommendedStock prediction = 0)
  /\ ~ In (product_id p)
         (map suggestion_id
            (reorderSuggestions
               (calculateInventoryForecast st now last30Days))).
Proof.
  intros Hin H30 Hrecent Hold.
  assert (getProductSalesVelocity st last30Days (product_id p)
          = (inject_Z 0 / 30)%Q) as Hv.
  { unfold getProductSalesVelocity. unfold soldSince in H30.
    rewrite H30. reflexivity. }
  assert (calculateProductTrend st now (product_id p) = 0%Q) as Ht.
  { unfold calculateProductTrend. unfold soldSince in Hrecent.
    unfold soldBetween in Hold. rewrite Hrecent, Hold. reflexivity. }
  split; [rewrite Hv; reflexivity|]. split; [exact Ht|]. split.
  - destruct (fold_insert_lookup product_id
                (fun product =>
                   mkPrediction (product_name product)
                     (getProductSalesVelocity st last30Days
                        (product_id product))
                     (getProductSalesVelocity st last30Days
                        (product_id product)
                      * (1 + calculateProductTrend st now
                               (product_id product)))%Q
                     (Qmin
                        (Qabs (calculateProductTrend st now
                                 (product_id product)) * 100) 90)
                     (Qceiling
                        ((getProductSalesVelocity st last30Days
                            (product_id product)
                          * (1 + calculateProductTrend st now
                                   (product_id product))) * 45)%Q))
                (products st) ∅ p Hin) as (p' & _ & Hid & Hlook).
    eexists. split; [exact Hlook|]. simpl. rewrite Hid, Hv, Ht.
    repeat split.
  - intros Hsug. apply in_map_iff in Hsug as (s & Hs & Hsug).
    simpl in Hsug.
    apply (Permutation_in _ (sort_perm _ _)) in Hsug.
    apply filter_In in Hsug as [Hsug _].
    apply in_map_iff in Hsug as (p' & <- & Hp').
    apply filter_In in Hp' as [_ Hfast].
    simpl in Hs. rewrite Hs, Hv in Hfast. discriminate Hfast.
Qed.

Lemma unsold_product_forecast_witness :
  In (mkProduct 2 "Mouse" "Electronics" 2249 50 None
        "Wireless optical mouse" None) (products laptopsSoldOut)
  /\ map suggestion_id
       (reorderSuggestions
          (calculateInventoryForecast laptopsSoldOut 1700000120000
             1697408120000))
     = [1]
  /\ calculateProductTrend laptopsSoldOut 1700000120000 2 = 0%Q
  /\ ~ In 2
         (map suggestion_id
            (reorderSuggestions
               (calculateInventoryForecast laptopsSoldOut 1700000120000
                  1697408120000))).
Proof.
  assert (In (mkProduct 2 "Mouse" "Electronics" 2249 50 None
                "Wireless optical mouse" None) (products laptopsSoldOut))
    as Hin by (right; left; reflexivity).
  pose proof (unsold_product_forecast laptopsSoldOut 1700000120000
                1697408120000 _ Hin eq_refl eq_refl eq_refl) as H.
  split; [exact Hin|]. split; [reflexivity|].
  split; [exact (proj1 (proj2 H))|exact (proj2 (proj2 (proj2 H)))].
Defined.

(** * Properties of the rest of the code *)

(** ** The cart in a session *)

Lemma addToCart_cartWellFormed (st : POS) (productId : Z) :
  cartWellFormed st -> cartWellFormed (fst (addToCart st productId)).
Proof.
  intros (Hnd & Hq & Hin). unfold addToCart.
  destruct (List.find (hasProductId productId) (products st))
    as [product|] eqn:Ep; [|repeat split; assumption].
  destruct (Z.eqb _ 0); [repeat split; assumption|].
  apply find_product_id in Ep as [Hpid Hpin].
  destruct (List.find (hasItemId productId) (cart st))
    as [existingItem|] eqn:Ei.
  - destruct (Z.geb _ _); [repeat split; assumption|].
    repeat split; simpl.
    + rewrite map_updateFirst by reflexivity. exact Hnd.
    + apply Forall_updateFirst; [exact Hq|]. intros x _ Hx. simpl. lia.
    + apply Forall_updateFirst; [exact Hin|]. intros x _ Hx. exact Hx.
  - repeat split; simpl.
    + rewrite map_app. simpl. apply List.NoDup_app; [exact Hnd| |].
      * repeat constructor. intros [].
      * intros x Hx [<-|[]]. apply find_item_none in Ei.
        apply Ei. rewrite <- Hpid. exact Hx.
    + apply List.Forall_app. split; [exact Hq|].
      repeat constructor. simpl. lia.
    + apply List.Forall_app. split; [exact Hin|].
      repeat constructor. simpl. apply in_map. exact Hpin.
Qed.

Lemma removeFromCart_cartWellFormed (st : POS) (productId : Z) :
  cartWellFormed st -> cartWellFormed (removeFromCart st productId).
Proof.
  intros (Hnd & Hq & Hin). repeat split; simpl.
  - apply NoDup_map_filter. exact Hnd.
  - apply Forall_filter_keep. exact Hq.
  - apply Forall_filter_keep. exact Hin.
Qed.

Lemma updateQuantity_cartWellFormed (st : POS) (productId change : Z) :
  cartWellFormed st ->
  cartWellFormed (fst (updateQuantity st productId change)).
Proof.
  intros Hc. unfold updateQuantity.
  destruct (List.find (hasItemId productId) (cart st)) as [item|];
    [|exact Hc].
  destruct (Z.leb_spec (item_quantity item + change) 0) as [|Hpos];
    [apply removeFromCart_cartWellFormed; exact Hc|].
  destruct (List.find (hasProductId productId) (products st));
    [|exact Hc].
  destruct (Z.gtb _ _); [exact Hc|].
  destruct Hc as (Hnd & Hq & Hin). repeat split; simpl.
  - rewrite map_updateFirst by reflexivity. exact Hnd.
  - apply Forall_updateFirst; [exact Hq|]. intros x _ _. simpl. lia.
  - apply Forall_updateFirst; [exact Hin|]. intros x _ Hx. exact Hx.
Qed.

Lemma cartWellFormed_same_ids (st st' : POS) :
  cart st' = cart st ->
  (forall id, In id (map product_id (products st)) ->
              In id (map product_id (products st'))) ->
  cartWellFormed st -> cartWellFormed st'.
Proof.
  intros Hcart Hids (Hnd & Hq & Hin). unfold cartWellFormed.
  rewrite Hcart. repeat split; [exact Hnd|exact Hq|].
  eapply List.Forall_impl; [|exact Hin]. intros line. apply Hids.
Qed.

Lemma perform_cartWellFormed (st : POS) (a : Action) :
  cartWellFormed st -> cartWellFormed (perform st a).
Proof.
  destruct a; simpl; intros Hc.
  - apply addToCart_cartWellFormed; exact Hc.
  - apply updateQuantity_cartWellFormed; exact Hc.
  - apply removeFromCart_cartWellFormed; exact Hc.
  - revert Hc. apply cartWellFormed_same_ids;
      unfold applyDiscount; branches; solve [reflexivity | auto].
  - unfold checkout. destruct (cart st) eqn:E; [exact Hc|].
    simpl. repeat split; constructor.
  - revert Hc. apply cartWellFormed_same_ids;
      unfold openProductModal; branches; solve [reflexivity | auto].
  - revert Hc. apply cartWellFormed_same_ids.
    + unfold saveProduct; branches; reflexivity.
    + intros id. unfold saveProduct; branches; simpl; auto.
      * rewrite map_updateFirst by reflexivity. auto.
      * rewrite map_app. intros H. apply in_or_app. left. exact H.
  - unfold deleteProduct. destruct confirmed; [|exact Hc].
    destruct Hc as (Hnd & Hq & Hin). repeat split; simpl.
    + apply NoDup_map_filter. exact Hnd.
    + apply Forall_filter_keep. exact Hq.
    + rewrite List.Forall_forall in *. intros line Hline.
      apply filter_In in Hline as [Hline Hkeep].
      specialize (Hin line Hline).
      apply in_map_iff in Hin as (p & Hp & Hpin).
      apply in_map_iff. exists p. split; [exact Hp|].
      apply filter_In. split; [exact Hpin|]. rewrite Hp. exact Hkeep.
  - revert Hc. apply cartWellFormed_same_ids.
    + unfold reorderProduct; branches; reflexivity.
    + intros id. unfold reorderProduct; branches; simpl; auto.
      rewrite map_updateFirst by reflexivity. auto.
Qed.

(** X1. Whatever the user does, the cart keeps one line per product,
    every quantity stays at least one, and every line is for a product
    that the catalog still has. *)
Theorem cart_stays_well_formed (st : POS) (actions : list Action) :
  cartWellFormed st -> cartWellFormed (run st actions).
Proof.
  revert st. induction actions as [|a rest IH]; intros st Hc; simpl.
  - exact Hc.
  - apply IH. apply perform_cartWellFormed. exact Hc.
Qed.

Lemma startState_cartWellFormed : cartWellFormed startState.
Proof. repeat split; constructor. Qed.

Lemma cart_stays_well_formed_witness :
  cartWellFormed startState
  /\ cartWellFormed (run startState stockCorrection).
Proof.
  split; [exact startState_cartWellFormed|].
  exact (cart_stays_well_formed startState stockCorrection
           startState_cartWellFormed).
Defined.

(** X2. With such a cart [updateQuantity] never reads the stock of a
    missing product: it does not end in a [TypeError], whatever the
    product and the change are. *)
Theorem updateQuantity_never_throws (st : POS) (productId change : Z) :
  cartWellFormed st ->
  snd (updateQuantity st productId change) <> TypeError.
Proof.
  intros (_ & _ & Hin). unfold updateQuantity.
  destruct (List.find (hasItemId productId) (cart st)) as [item|] eqn:Ei;
    [|discriminate].
  destruct (Z.leb _ 0); [discriminate|].
  destruct (List.find (hasProductId productId) (products st)) eqn:Ep.
  - destruct (Z.gtb _ _); discriminate.
  - exfalso. apply find_item_id in Ei as [Hid Hline].
    rewrite List.Forall_forall in Hin. specialize (Hin item Hline).
    apply find_product_none in Ep. apply Ep. rewrite <- Hid. exact Hin.
Qed.

Lemma updateQuantity_never_throws_witness :
  snd (updateQuantity (run startState (repeat (AddToCart 1) 10)) 1 1)
  <> TypeError.
Proof.
  refine (updateQuantity_never_throws _ 1 1 _).
  vm_compute. repeat constructor; [intros []|discriminate].
Defined.

(** ** The ledger in a session *)

(** An action leaves the ledger as it is, or it is a checkout of a cart
    with lines and appends the sale of that cart. *)
Lemma perform_sales (st : POS) (a : Action) :
  sales (perform st a) = sales st
  \/ exists inp sale,
       a = Checkout inp /\ cart st <> []
       /\ sales (perform st a) = sales st ++ [sale]
       /\ sale_items sale = cart st
       /\ sale_subtotal sale
          = summary_subtotal (updateCartSummary st (in_taxEnabled inp))
       /\ sale_discount sale
          = summary_discount (updateCartSummary st (in_taxEnabled inp))
       /\ sale_tax sale
          = summary_tax (updateCartSummary st (in_taxEnabled inp))
       /\ sale_total sale
          = summary_total (updateCartSummary st (in_taxEnabled inp)).
Proof.
  destruct a; simpl;
    try (left;
         unfold addToCart, updateQuantity, applyDiscount, openProductModal,
           saveProduct, deleteProduct, reorderProduct;
         branches; reflexivity).
  destruct (cart st) as [|line rest] eqn:E.
  - left. unfold checkout. rewrite E. reflexivity.
  - right. assert (cart st <> []) as Hne by (rewrite E; discriminate).
    destruct (checkout_completes st inp Hne)
      as (sale & Hc & _ & _ & Hi & Hs & Hd & Ht & Htot).
    exists inp, sale. rewrite Hc, <- E. simpl. repeat split; assumption.
Qed.


(** X4. Every sale that a session records has at least one line, one
    line per product and quantities of at least one; its subtotal is the
    sum of its lines and its total is subtotal - discount + tax. *)
Theorem recorded_sales_well_formed (st : POS) (actions : list Action) :
  cartWellFormed st ->
  Forall saleWellFormed (sales st) ->
  Forall saleWellFormed (sales (run st actions)).
Proof.
  revert st. induction actions as [|a rest IH]; intros st Hc Hl; simpl.
  - exact Hl.
  - apply IH; [apply perform_cartWellFormed; exact Hc|].
    destruct (perform_sales st a)
      as [->|(inp & sale & _ & Hne & -> & Hi & Hs & Hd & Ht & Htot)];
      [exact Hl|].
    apply List.Forall_app. split; [exact Hl|]. constructor; [|constructor].
    destruct Hc as (Hnd & Hq & _).
    unfold saleWellFormed. rewrite Hi, Hs, Hd, Ht, Htot.
    repeat split; try assumption.
    apply summary_pricing.
Qed.

Lemma recorded_sales_well_formed_witness :
  Forall saleWellFormed (sales (run startState minuteApart)).
Proof.
  exact (recorded_sales_well_formed startState minuteApart
           startState_cartWellFormed (List.Forall_nil _)).
Defined.

(** X5. The discount in force is always the constructor's (value 0) or
    one that [applyDiscount] accepted: positive, and at most 100 when it
    is a percentage. *)
Theorem discount_stays_in_force (st : POS) (actions : list Action) :
  discountInForce (discount st) ->
  discountInForce (discount (run st actions)).
Proof.
  revert st. induction actions as [|a rest IH]; intros st Hd; simpl.
  - exact Hd.
  - apply IH. destruct a; simpl;
      try (unfold addToCart, updateQuantity, openProductModal,
             saveProduct, deleteProduct, reorderProduct;
           branches; exact Hd).
    + unfold applyDiscount.
      destruct (Qle_bool _ 0) eqn:E0; [exact Hd|].
      destruct (String.eqb (form_discountType form) "percentage") eqn:Et;
        simpl.
      * destruct (Qgtb _ 100) eqn:E100; [exact Hd|].
        right. split; simpl.
        -- apply Qgtb_true. unfold Qgtb. rewrite E0. reflexivity.
        -- intros _. apply Qgtb_false. exact E100.
      * right. split; simpl.
        -- apply Qgtb_true. unfold Qgtb. rewrite E0. reflexivity.
        -- intros Hp. rewrite Hp in Et. discriminate.
    + unfold checkout. destruct (cart st); [exact Hd|]. left. reflexivity.
Qed.

Lemma discount_stays_in_force_witness :
  discountInForce (discount (run startState
                               [ApplyDiscount tenPercent; AddToCart 1])).
Proof.
  exact (discount_stays_in_force startState
           [ApplyDiscount tenPercent; AddToCart 1] (or_introl eq_refl)).
Defined.

(** X6. A checkout right after a checkout is rejected with 'Cart is
    empty' and changes nothing: one cart cannot be recorded twice. *)
Theorem checkout_twice (st : POS) (first second : CheckoutInput) :
  checkout (fst (checkout st first)) second
  = (fst (checkout st first), Toast CartIsEmpty warning).
Proof.
  unfold checkout at 2 3. destruct (cart st) eqn:E; simpl.
  - unfold checkout. rewrite E. reflexivity.
  - reflexivity.
Qed.

(** ** Stock and cart arithmetic *)

Lemma totalStock_updateFirst (pred : Product -> bool)
    (f : Product -> Product) (ps : list Product) (p : Product) :
  List.find pred ps = Some p ->
  totalStock (updateFirst pred f ps)
  = totalStock ps - product_stock p + product_stock (f p).
Proof.
  induction ps as [|x rest IH]; simpl; [discriminate|].
  destruct (pred x); intros H.
  - injection H as ->. simpl. lia.
  - simpl. rewrite IH by exact H. lia.
Qed.

Lemma totalStock_updateStock (ps : list Product) (line : CartItem) :
  In (item_id line) (map product_id ps) ->
  totalStock (updateStock ps line) = totalStock ps - item_quantity line.
Proof.
  intros Hin. unfold updateStock.
  destruct (List.find (hasProductId (item_id line)) ps) as [p|] eqn:E.
  - rewrite (totalStock_updateFirst _ _ _ p E). simpl. lia.
  - apply find_product_none in E. contradiction.
Qed.

Lemma totalStock_after_lines (lines : list CartItem) (ps : list Product) :
  Forall (fun line => In (item_id line) (map product_id ps)) lines ->
  totalStock (fold_left updateStock lines ps)
  = totalStock ps - cartUnits lines.
Proof.
  revert ps. induction lines as [|line rest IH]; intros ps H; simpl.
  - lia.
  - inversion H as [|? ? Hline Hrest]; subst.
    rewrite IH.
    + rewrite totalStock_updateStock by exact Hline. lia.
    + rewrite updateStock_ids. exact Hrest.
Qed.

(** X7. When every line of the cart is for a product of the catalog,
    checkout takes from the stock exactly the units of the cart: the
    units in stock afterwards are the units before minus the quantities
    of the lines. *)
Theorem checkout_conserves_units (st : POS) (inp : CheckoutInput) :
  Forall (fun line => In (item_id line) (map product_id (products st)))
    (cart st) ->
  totalStock (products (fst (checkout st inp)))
  = totalStock (products st) - cartUnits (cart st).
Proof.
  intros Hin. unfold checkout.
  destruct (cart st) as [|line rest] eqn:E.
  - simpl. lia.
  - cbn [fst products]. apply totalStock_after_lines. exact Hin.
Qed.

Lemma checkout_conserves_units_witness :
  totalStock (products (fst (checkout twoLaptops (customerAt 0))))
  = totalStock (products twoLaptops) - cartUnits (cart twoLaptops).
Proof.
  refine (checkout_conserves_units twoLaptops (customerAt 0) _).
  vm_compute. repeat constructor.
Defined.

Lemma updateFirst_ext_found {A : Type} (pred : A -> bool) (f g : A -> A)
    (l : list A) (x : A) :
  List.find pred l = Some x -> f x = g x ->
  updateFirst pred f l = updateFirst pred g l.
Proof.
  induction l as [|y rest IH]; simpl; [reflexivity|].
  destruct (pred y); intros H Hfg.
  - injection H as ->. rewrite Hfg. reflexivity.
  - rewrite IH by assumption. reflexivity.
Qed.

Lemma updateFirst_same {A : Type} (pred : A -> bool) (f : A -> A)
    (l : list A) (x : A) :
  List.find pred l = Some x -> f x = x -> updateFirst pred f l = l.
Proof.
  induction l as [|y rest IH]; simpl; [reflexivity|].
  destruct (pred y); intros H Hf.
  - injection H as ->. rewrite Hf. reflexivity.
  - rewrite IH by assumption. reflexivity.
Qed.

Lemma updateFirst_twice {A : Type} (pred : A -> bool) (f g : A -> A)
    (l : list A) (x : A) :
  List.find pred l = Some x -> pred (f x) = true ->
  updateFirst pred g (updateFirst pred f l)
  = updateFirst pred (fun y => g (f y)) l.
Proof.
  induction l as [|y rest IH]; simpl; [reflexivity|].
  destruct (pred y) eqn:E; intros H Hf.
  - injection H as ->. simpl. rewrite Hf. reflexivity.
  - simpl. rewrite E, IH by assumption. reflexivity.
Qed.

Lemma find_product_found (ps : list Product) (id : Z) :
  In id (map product_id ps) ->
  exists p, List.find (hasProductId id) ps = Some p.
Proof.
  intros Hin. destruct (List.find (hasProductId id) ps) eqn:E; [eauto|].
  apply find_product_none in E. contradiction.
Qed.

(** X8. For a product that has a line in the cart, clicking the product
    again ([addToCart]) and pressing "+" on the line ([updateQuantity]
    with 1) leave the same state: both add one unit, or both refuse when
    the line already holds the whole stock. *)
Theorem addToCart_is_increase (st : POS) (productId : Z) (item : CartItem) :
  List.find (hasItemId productId) (cart st) = Some item ->
  0 <= item_quantity item ->
  In productId (map product_id (products st)) ->
  fst (addToCart st productId) = fst (updateQuantity st productId 1).
Proof.
  intros Hi Hq Hin. destruct (find_product_found _ _ Hin) as (p & Hp).
  unfold addToCart, updateQuantity. rewrite Hi, Hp.
  destruct (Z.leb_spec (item_quantity item + 1) 0) as [|_]; [lia|].
  rewrite Z.geb_leb, Z.gtb_ltb.
  destruct (Z.eqb_spec (product_stock p) 0) as [Hz|Hnz].
  - destruct (Z.ltb_spec (product_stock p) (item_quantity item + 1));
      [reflexivity|lia].
  - destruct (Z.leb_spec (product_stock p) (item_quantity item));
      destruct (Z.ltb_spec (product_stock p) (item_quantity item + 1));
      try lia; [reflexivity|].
    simpl. f_equal. apply (updateFirst_ext_found _ _ _ _ item Hi).
    reflexivity.
Qed.

Lemma addToCart_is_increase_witness :
  fst (addToCart twoLaptops 1) = fst (updateQuantity twoLaptops 1 1).
Proof.
  refine (addToCart_is_increase twoLaptops 1
            (mkCartItem 1 "Laptop" 74999 2) eq_refl _ _).
  - discriminate.
  - left. reflexivity.
Defined.

Lemma set_cart_same (st : POS) : set_cart st (cart st) = st.
Proof. destruct st. reflexivity. Qed.

(** X9. Pressing "+" and then "-" on a line that holds less than the
    stock of its product gives back the state before. *)
Theorem increase_then_decrease (st : POS) (productId : Z) (item : CartItem)
    (p : Product) :
  List.find (hasItemId productId) (cart st) = Some item ->
  List.find (hasProductId productId) (products st) = Some p ->
  1 <= item_quantity item < product_stock p ->
  fst (updateQuantity (fst (updateQuantity st productId 1)) productId (-1))
  = st.
Proof.
  intros Hi Hp [Hlow Hhigh].
  assert (fst (updateQuantity st productId 1)
          = set_cart st
              (updateFirst (hasItemId productId)
                 (fun i => set_quantity i (item_quantity item + 1))
                 (cart st))) as Hup.
  { unfold updateQuantity. rewrite Hi, Hp.
    destruct (Z.leb_spec (item_quantity item + 1) 0); [lia|].
    rewrite Z.gtb_ltb.
    destruct (Z.ltb_spec (product_stock p) (item_quantity item + 1));
      [lia|reflexivity]. }
  rewrite Hup. unfold updateQuantity. cbn [cart set_cart products].
  apply find_item_id in Hi as Hid. destruct Hid as [Hid _].
  rewrite (find_updateFirst_found _ _ _ item Hi)
    by (unfold hasItemId; simpl; rewrite Hid; apply Z.eqb_refl).
  rewrite Hp. cbn [item_quantity set_quantity].
  destruct (Z.leb_spec (item_quantity item + 1 + -1) 0); [lia|].
  rewrite Z.gtb_ltb.
  destruct (Z.ltb_spec (product_stock p) (item_quantity item + 1 + -1));
    [lia|].
  cbn [fst]. rewrite (updateFirst_twice _ _ _ _ item Hi)
    by (unfold hasItemId; simpl; rewrite Hid; apply Z.eqb_refl).
  rewrite (updateFirst_same _
             (fun y =>
                set_quantity (set_quantity y (item_quantity item + 1))
                  (item_quantity item + 1 + -1)) _ item Hi).
  - destruct st. reflexivity.
  - destruct item. unfold set_quantity. simpl. f_equal. lia.
Qed.

Lemma increase_then_decrease_witness :
  fst (updateQuantity (fst (updateQuantity twoLaptops 1 1)) 1 (-1))
  = twoLaptops.
Proof.
  refine (increase_then_decrease twoLaptops 1
            (mkCartItem 1 "Laptop" 74999 2)
            (mkProduct 1 "Laptop" "Electronics" 74999 10 None
               "High-performance laptop" None) eq_refl eq_refl _).
  simpl. lia.
Defined.

Lemma find_item_filter_other (lines : list CartItem) (id productId : Z) :
  id <> productId ->
  List.find (hasItemId id)
    (List.filter (fun item => negb (Z.eqb (item_id item) productId)) lines)
  = List.find (hasItemId id) lines.
Proof.
  intros Hne. induction lines as [|l rest IH]; simpl; [reflexivity|].
  destruct (Z.eqb_spec (item_id l) productId) as [e|ne]; simpl.
  - unfold hasItemId at 2. rewrite e.
    destruct (Z.eqb_spec productId id); [congruence|exact IH].
  - destruct (hasItemId id l); [reflexivity|exact IH].
Qed.

(** X10. A change that brings the quantity of a line to zero or below
    takes the line out of the cart and leaves every other line, the
    catalog and the ledger as they are. *)
Theorem decrease_to_zero_removes (st : POS) (productId change : Z)
    (item : CartItem) :
  List.find (hasItemId productId) (cart st) = Some item ->
  item_quantity item + change <= 0 ->
  ~ In productId
      (map item_id (cart (fst (updateQuantity st productId change))))
  /\ (forall other,
        other <> productId ->
        List.find (hasItemId other)
          (cart (fst (updateQuantity st productId change)))
        = List.find (hasItemId other) (cart st))
  /\ products (fst (updateQuantity st productId change)) = products st
  /\ sales (fst (updateQuantity st productId change)) = sales st.
Proof.
  intros Hi Hle. unfold updateQuantity. rewrite Hi.
  destruct (Z.leb_spec (item_quantity item + change) 0); [|lia].
  simpl. repeat split.
  - intros Hin. apply in_map_iff in Hin as (x & Hx & Hin).
    apply filter_In in Hin as [_ Hkeep].
    apply negb_true_iff, Z.eqb_neq in Hkeep. contradiction.
  - intros other Hne. apply find_item_filter_other. exact Hne.
Qed.

Lemma decrease_to_zero_removes_witness :
  ~ In 1 (map item_id (cart (fst (updateQuantity twoLaptops 1 (-2))))).
Proof.
  refine (proj1 (decrease_to_zero_removes twoLaptops 1 (-2)
                   (mkCartItem 1 "Laptop" 74999 2) eq_refl _)).
  discriminate.
Defined.

(** ** Reorder *)

Lemma find_unique_product (ps : list Product) (p : Product) :
  List.NoDup (map product_id ps) -> In p ps ->
  List.find (hasProductId (product_id p)) ps = Some p.
Proof.
  induction ps as [|x rest IH]; simpl; [tauto|].
  intros Hnd Hin. apply List.NoDup_cons_iff in Hnd as [Hx Hnd].
  unfold hasProductId at 1. destruct Hin as [->|Hin].
  - rewrite Z.eqb_refl. reflexivity.
  - destruct (Z.eqb_spec (product_id x) (product_id p)) as [e|_].
    + exfalso. apply Hx. rewrite e. apply in_map. exact Hin.
    + apply IH; assumption.
Qed.

Lemma stockOf_reorder (st : POS) (productId quantity s : Z) :
  stockOf (products st) productId = Some s ->
  stockOf (products (fst (reorderProduct st productId quantity))) productId
  = Some (s + quantity).
Proof.
  unfold reorderProduct, stockOf at 1. intros Hs.
  destruct (List.find (hasProductId productId) (products st)) as [p|] eqn:E;
    [|discriminate].
  injection Hs as <-. simpl.
  rewrite stockOf_update_same by reflexivity. rewrite E. reflexivity.
Qed.

(** X11. [reorderProduct] adds the quantity to the stock of the product
    and to nothing else: the other stocks, the ids of the catalog, the
    cart and the ledger are as before.  For an id that the catalog does
    not have it does nothing and shows nothing. *)
Theorem reorder_adds_stock (st : POS) (productId quantity : Z) :
  (forall s,
     stockOf (products st) productId = Some s ->
     stockOf (products (fst (reorderProduct st productId quantity)))
       productId = Some (s + quantity))
  /\ (forall other,
        other <> productId ->
        stockOf (products (fst (reorderProduct st productId quantity)))
          other = stockOf (products st) other)
  /\ map product_id (products (fst (reorderProduct st productId quantity)))
     = map product_id (products st)
  /\ cart (fst (reorderProduct st productId quantity)) = cart st
  /\ sales (fst (reorderProduct st productId quantity)) = sales st
  /\ (stockOf (products st) productId = None ->
      reorderProduct st productId quantity = (st, Silent)).
Proof.
  unfold reorderProduct, stockOf at 1 5.
  destruct (List.find (hasProductId productId) (products st)) as [p|] eqn:E;
    simpl.
  - split.
    { intros s Hs. injection Hs as <-.
      rewrite stockOf_update_same by reflexivity. rewrite E. reflexivity. }
    split.
    { intros other Hne. apply stockOf_update_other; [exact Hne|reflexivity]. }
    split; [apply map_updateFirst; reflexivity|].
    repeat split. discriminate.
  - repeat split. discriminate.
Qed.

Lemma reorder_adds_stock_witness :
  stockOf (products (fst (reorderProduct startState 1 5))) 1 = Some (10 + 5).
Proof.
  exact (proj1 (reorder_adds_stock startState 1 5) 10 eq_refl).
Defined.

(** X12. Reordering what a checkout sold restores the stock: after the
    checkout of a cart with one line per product, a reorder of a line's
    quantity for its product brings its stock back to what it was. *)
Theorem reorder_restores_sold_stock (st : POS) (inp : CheckoutInput)
    (line : CartItem) (s : Z) :
  List.NoDup (map item_id (cart st)) ->
  In line (cart st) ->
  stockOf (products st) (item_id line) = Some s ->
  stockOf
    (products
       (fst (reorderProduct (fst (checkout st inp)) (item_id line)
               (item_quantity line))))
    (item_id line)
  = Some s.
Proof.
  intros Hnd Hin Hs.
  assert (stockOf (products (fst (checkout st inp))) (item_id line)
          = Some (s - item_quantity line)) as Hsold.
  { assert (cart st <> []) as Hne
      by (intros E; rewrite E in Hin; exact Hin).
    destruct (checkout_completes st inp Hne) as (sale & Hc & _).
    rewrite Hc. simpl.
    rewrite stockOf_after_lines, Hs, quantityFor_unique by assumption.
    reflexivity. }
  rewrite (stockOf_reorder _ _ _ _ Hsold). f_equal. lia.
Qed.

Lemma reorder_restores_sold_stock_witness :
  stockOf
    (products
       (fst (reorderProduct (fst (checkout twoLaptops (customerAt 0))) 1 2)))
    1
  = Some 10.
Proof.
  refine (reorder_restores_sold_stock twoLaptops (customerAt 0)
            (mkCartItem 1 "Laptop" 74999 2) 10 _ _ eq_refl).
  - vm_compute. repeat constructor. intros [].
  - left. reflexivity.
Defined.

(** ** Forecast lists *)

(** X13. A low-stock alert is for a product of the catalog with a stock
    below ten, and the reorder it suggests is 50 minus that stock: the
    floor of 20 in the formula never decides.  When the ids of the
    catalog are distinct, reordering the suggested quantity brings the
    stock of the product to exactly 50. *)
Theorem low_stock_alert_reorder (st : POS) (now last30Days : Z)
    (alert : StockAlert) :
  In alert (lowStockAlerts (calculateInventoryForecast st now last30Days)) ->
  alert_currentStock alert < 10
  /\ alert_suggestedReorder alert = 50 - alert_currentStock alert
  /\ (exists p,
        In p (products st) /\ product_id p = alert_id alert
        /\ product_stock p = alert_currentStock alert)
  /\ (List.NoDup (map product_id (products st)) ->
      stockOf
        (products
           (fst (reorderProduct st (alert_id alert)
                   (alert_suggestedReorder alert))))
        (alert_id alert)
      = Some 50).
Proof.
  simpl. intros Hin. apply in_map_iff in Hin as (p & <- & Hp).
  apply filter_In in Hp as [Hp Hlow]. apply Z.ltb_lt in Hlow. simpl.
  split; [exact Hlow|]. split; [lia|].
  split; [exists p; repeat split; exact Hp|].
  intros Hnd.
  rewrite (stockOf_reorder st _ _ (product_stock p)).
  - f_equal. lia.
  - apply stockOf_found. apply find_unique_product; assumption.
Qed.

Lemma low_stock_alert_reorder_witness :
  In (mkStockAlert 1 "Laptop" 0 50)
     (lowStockAlerts
        (calculateInventoryForecast laptopsSoldOut 1700000120000
           1697408120000))
  /\ stockOf (products (fst (reorderProduct laptopsSoldOut 1 50))) 1
     = Some 50.
Proof.
  assert (In (mkStockAlert 1 "Laptop" 0 50)
            (lowStockAlerts
               (calculateInventoryForecast laptopsSoldOut 1700000120000
                  1697408120000))) as Hin by (left; reflexivity).
  split; [exact Hin|].
  refine (proj2 (proj2 (proj2 (low_stock_alert_reorder laptopsSoldOut
                                 1700000120000 1697408120000 _ Hin))) _).
  vm_compute. repeat constructor; simpl; intuition discriminate.
Defined.

(** X14. The reorder suggestions are ordered by reorder amount, greatest
    first; each is for a product of the catalog that sold in the last 30
    days, its reorder amount is positive and is what the stock lacks to
    the suggested stock.  When the ids of the catalog are distinct,
    reordering that amount brings the stock to the suggested stock. *)
Theorem reorder_suggestions_sorted (st : POS) (now last30Days : Z) :
  StronglySorted (notAfter suggestion_reorderAmount)
    (reorderSuggestions (calculateInventoryForecast st now last30Days))
  /\ forall s,
       In s (reorderSuggestions
               (calculateInventoryForecast st now last30Days)) ->
       0 < suggestion_reorderAmount s
       /\ suggestion_currentStock s + suggestion_reorderAmount s
          = suggestion_suggestedStock s
       /\ (0 < suggestion_velocity s)%Q
       /\ (exists p,
             In p (products st) /\ product_id p = suggestion_id s
             /\ product_stock p = suggestion_currentStock s)
       /\ (List.NoDup (map product_id (products st)) ->
           stockOf
             (products
                (fst (reorderProduct st (suggestion_id s)
                        (suggestion_reorderAmount s))))
             (suggestion_id s)
           = Some (suggestion_suggestedStock s)).
Proof.
  split.
  - simpl. apply (sort_descending suggestion_reorderAmount).
  - intros s Hin. simpl in Hin.
    apply (Permutation_in _ (sort_perm _ _)) in Hin.
    apply filter_In in Hin as [Hin Hpos].
    apply in_map_iff in Hin as (p & <- & Hp).
    apply filter_In in Hp as [Hp Hfast]. apply Qgtb_true in Hfast.
    simpl in *. rewrite Z.gtb_ltb in Hpos. apply Z.ltb_lt in Hpos.
    split; [exact Hpos|]. split; [lia|]. split; [exact Hfast|].
    split; [exists p; repeat split; exact Hp|].
    intros Hnd.
    rewrite (stockOf_reorder st _ _ (product_stock p)).
    + f_equal. lia.
    + apply stockOf_found. apply find_unique_product; assumption.
Qed.

Lemma reorder_suggestions_sorted_witness :
  In (mkReorderSuggestion 1 "Laptop" 0 10 10 (10 # 30))
     (reorderSuggestions
        (calculateInventoryForecast laptopsSoldOut 1700000120000
           1697408120000))
  /\ (0 < 10)%Z.
Proof.
  assert (In (mkReorderSuggestion 1 "Laptop" 0 10 10 (10 # 30))
            (reorderSuggestions
               (calculateInventoryForecast laptopsSoldOut 1700000120000
                  1697408120000))) as Hin.
  { vm_compute. left. reflexivity. }
  split; [exact Hin|].
  exact (proj1 (proj2 (reorder_suggestions_sorted laptopsSoldOut
                         1700000120000 1697408120000) _ Hin)).
Defined.

(** ** Demand predictions *)

Lemma fold_insert_lookup_inv {A V : Type} (key : A -> Z) (val : A -> V)
    (l : list A) (k : Z) (v : V) :
  fold_left (fun m a => <[ key a := val a ]> m) l (∅ : gmap Z V) !! k
  = Some v ->
  exists y, In y l /\ key y = k /\ v = val y.
Proof.
  induction l as [|z rest IH] using rev_ind.
  - simpl. rewrite lookup_empty. discriminate.
  - rewrite fold_left_app. simpl.
    destruct (Z.eq_dec (key z) k) as [e|ne].
    + rewrite e, lookup_insert_eq. intros H. injection H as <-.
      exists z. split; [apply in_or_app; right; left; reflexivity|].
      split; [exact e|reflexivity].
    + rewrite lookup_insert_ne by exact ne. intros H.
      destruct (IH H) as (y & Hy & Hk & Hv).
      exists y. split; [apply in_or_app; left; exact Hy|]. tauto.
Qed.

Lemma totalQuantity_acc (productId : Z) (l : list Sale) (acc : Z) :
  fold_left
    (fun sum sale =>
       sum + match List.find (hasItemId productId) (sale_items sale) with
             | Some item => item_quantity item
             | None => 0
             end)
    l acc
  = acc + totalQuantity productId l.
Proof.
  unfold totalQuantity. revert acc.
  induction l as [|sale rest IH]; intros acc; simpl; [lia|].
  rewrite IH, (IH (0 + _)). lia.
Qed.

Lemma totalQuantity_nonneg (productId : Z) (l : list Sale) :
  Forall
    (fun sale => Forall (fun line => 0 <= item_quantity line)
                   (sale_items sale)) l ->
  0 <= totalQuantity productId l.
Proof.
  induction 1 as [|sale rest Hsale _ IH]; [unfold totalQuantity; simpl; lia|].
  unfold totalQuantity. simpl. rewrite totalQuantity_acc.
  destruct (List.find (hasItemId productId) (sale_items sale)) as [item|]
    eqn:E; [|lia].
  apply find_some in E as [Hin _].
  rewrite List.Forall_forall in Hsale. specialize (Hsale item Hin). lia.
Qed.

Lemma velocity_nonneg (st : POS) (last30Days productId : Z) :
  ledgerQuantitiesNonNegative st ->
  (0 <= getProductSalesVelocity st last30Days productId)%Q.
Proof.
  intros H. unfold getProductSalesVelocity.
  apply Qle_shift_div_l; [reflexivity|].
  rewrite Qmult_0_l. change 0%Q with (inject_Z 0). rewrite <- Zle_Qle.
  apply totalQuantity_nonneg. apply Forall_filter_keep. exact H.
Qed.

Lemma trend_at_least_minus_one (st : POS) (now productId : Z) :
  ledgerQuantitiesNonNegative st ->
  (-1 <= calculateProductTrend st now productId)%Q.
Proof.
  intros H. unfold calculateProductTrend.
  match goal with |- context [Z.eqb ?o 0] => set (old := o) end.
  match goal with |- context [Z.gtb ?r 0] => set (recent := r) end.
  assert (0 <= recent) as Hr
    by (apply totalQuantity_nonneg, Forall_filter_keep; exact H).
  assert (0 <= old) as Ho
    by (apply totalQuantity_nonneg, Forall_filter_keep; exact H).
  destruct (Z.eqb_spec old 0) as [|Hne].
  - destruct (Z.gtb recent 0); unfold Qle; simpl; lia.
  - apply Qle_shift_div_l.
    + change 0%Q with (inject_Z 0). rewrite <- Zlt_Qlt. lia.
    + change (-1)%Q with (inject_Z (-1)). rewrite <- inject_Z_mult.
      rewrite <- Zle_Qle. lia.
Qed.

(** X15. When no line in the ledger has a negative quantity, every
    demand prediction is for a product of the catalog, its velocities
    and its recommended stock are not negative, and its confidence is
    between 0 and 90. *)
Theorem predictions_nonnegative (st : POS) (now last30Days productId : Z)
    (prediction : Prediction) :
  ledgerQuantitiesNonNegative st ->
  calculateDemandPredictions st now last30Days !! productId
  = Some prediction ->
  In productId (map product_id (products st))
  /\ (0 <= prediction_currentVelocity prediction)%Q
  /\ (0 <= prediction_predictedVelocity prediction)%Q
  /\ 0 <= prediction_recommendedStock prediction
  /\ (0 <= prediction_confidence prediction <= 90)%Q.
Proof.
  intros Hledger Hlook. unfold calculateDemandPredictions in Hlook.
  apply (fold_insert_lookup_inv product_id
           (fun product =>
              mkPrediction (product_name product)
                (getProductSalesVelocity st last30Days (product_id product))
                (getProductSalesVelocity st last30Days (product_id product)
                 * (1 + calculateProductTrend st now (product_id product)))%Q
                (Qmin
                   (Qabs (calculateProductTrend st now (product_id product))
                    * 100) 90)
                (Qceiling
                   ((getProductSalesVelocity st last30Days
                       (product_id product)
                     * (1 + calculateProductTrend st now
                              (product_id product))) * 45)%Q)))
    in Hlook.
  destruct Hlook as (p & Hp & <- & ->). simpl.
  pose proof (velocity_nonneg st last30Days (product_id p) Hledger) as Hv.
  pose proof (trend_at_least_minus_one st now (product_id p) Hledger) as Ht.
  set (v := getProductSalesVelocity st last30Days (product_id p)) in *.
  set (t := calculateProductTrend st now (product_id p)) in *.
  assert (0 <= v * (1 + t))%Q as Hpred by nra.
  split; [apply in_map; exact Hp|]. split; [exact Hv|].
  split; [exact Hpred|]. split.
  - rewrite <- (Qceiling_Z 0). apply Qceiling_resp_le.
    change (inject_Z 0) with 0%Q. nra.
  - split; [|apply Q.le_min_r].
    apply Q.min_glb; [|unfold Qle; simpl; lia].
    pose proof (Qabs_nonneg t). nra.
Qed.

Lemma predictions_nonnegative_witness :
  calculateDemandPredictions laptopsSoldOut 1700000120000 1697408120000
    !! 1
  = Some (mkPrediction "Laptop" (10 # 30) (30 # 60) (100 # 2) 23)
  /\ 0 <= 23.
Proof.
  assert (ledgerQuantitiesNonNegative laptopsSoldOut) as Hl.
  { unfold ledgerQuantitiesNonNegative. vm_compute.
    repeat constructor; discriminate. }
  assert (calculateDemandPredictions laptopsSoldOut 1700000120000
            1697408120000 !! 1
          = Some (mkPrediction "Laptop" (10 # 30) (30 # 60) (100 # 2) 23))
    as Hlook by (vm_compute; reflexivity).
  split; [exact Hlook|].
  exact (proj1 (proj2 (proj2 (proj2
           (predictions_nonnegative laptopsSoldOut 1700000120000
              1697408120000 1 _ Hl Hlook))))).
Defined.

(** ** Product lists *)

Lemma nonEmpty_false (s : string) : nonEmpty s = false <-> s = "".
Proof.
  destruct s; simpl; split; intros H; try reflexivity; discriminate.
Qed.

Lemma search_filter_In (searchTerm category : string) (l : list Product)
    (p : Product) :
  In p
    (let filtered :=
       if nonEmpty searchTerm then
         List.filter
           (fun product =>
              includes (toLowerCase (product_name product))
                       (toLowerCase searchTerm)
              || includes (toLowerCase (product_category product))
                          (toLowerCase searchTerm))
           l
       else l in
     if nonEmpty category then
       List.filter
         (fun product => String.eqb (product_category product) category)
         filtered
     else filtered)
  <-> In p l /\ matchesSearch searchTerm p /\ matchesCategory category p.
Proof.
  unfold matchesSearch, matchesCategory. cbv zeta.
  destruct (nonEmpty searchTerm) eqn:Es;
    destruct (nonEmpty category) eqn:Ec;
    rewrite ?filter_In, ?orb_true_iff, ?String.eqb_eq;
    try apply nonEmpty_false in Es; try apply nonEmpty_false in Ec;
    split; intros H; try tauto;
    repeat match goal with
           | H : _ /\ _ |- _ => destruct H
           end;
    repeat split; try tauto;
    repeat match goal with
           | H : ?s = "" \/ _, E : nonEmpty ?s = true |- _ =>
               destruct H as [H|H];
               [rewrite H in E; discriminate|]
           end; tauto.
Qed.

(** X16. The sale page lists exactly the products of the catalog that
    are in stock and match the search text and the category; the
    inventory page lists the same without the stock test, so it contains
    every product of the sale page.  When the ids of the catalog are
    distinct, [addToCart] never answers 'Product not available' for a
    product that the sale page lists. *)
Theorem listed_products (st : POS) (searchTerm category : string)
    (p : Product) :
  (In p (getFilteredProducts st searchTerm category)
   <-> In p (products st) /\ 0 < product_stock p
       /\ matchesSearch searchTerm p /\ matchesCategory category p)
  /\ (In p (getFilteredInventory st searchTerm category)
      <-> In p (products st)
          /\ matchesSearch searchTerm p /\ matchesCategory category p)
  /\ (In p (getFilteredProducts st searchTerm category) ->
      In p (getFilteredInventory st searchTerm category))
  /\ (In p (getFilteredProducts st searchTerm category) ->
      List.NoDup (map product_id (products st)) ->
      snd (addToCart st (product_id p)) <> Toast ProductNotAvailable error).
Proof.
  assert (In p (getFilteredProducts st searchTerm category)
          <-> In p (products st) /\ 0 < product_stock p
              /\ matchesSearch searchTerm p /\ matchesCategory category p)
    as Hsale.
  { unfold getFilteredProducts. cbv zeta.
    rewrite (search_filter_In searchTerm category), filter_In.
    rewrite Z.gtb_ltb, Z.ltb_lt. tauto. }
  assert (In p (getFilteredInventory st searchTerm category)
          <-> In p (products st)
              /\ matchesSearch searchTerm p /\ matchesCategory category p)
    as Hinv.
  { unfold getFilteredInventory. cbv zeta.
    apply (search_filter_In searchTerm category). }
  split; [exact Hsale|]. split; [exact Hinv|].
  split; [rewrite Hsale, Hinv; tauto|].
  intros Hin Hnd. apply Hsale in Hin as (Hin & Hstock & _).
  unfold addToCart. rewrite (find_unique_product _ _ Hnd Hin).
  destruct (Z.eqb_spec (product_stock p) 0); [lia|].
  branches; discriminate.
Qed.

Lemma listed_products_witness :
  In (mkProduct 2 "Mouse" "Electronics" 2249 50 None
        "Wireless optical mouse" None)
     (getFilteredProducts laptopsSoldOut "MOUSE" "Electronics")
  /\ snd (addToCart laptopsSoldOut 2) <> Toast ProductNotAvailable error.
Proof.
  assert (In (mkProduct 2 "Mouse" "Electronics" 2249 50 None
                "Wireless optical mouse" None)
            (getFilteredProducts laptopsSoldOut "MOUSE" "Electronics"))
    as Hin by (vm_compute; left; reflexivity).
  split; [exact Hin|].
  refine (proj2 (proj2 (proj2 (listed_products laptopsSoldOut "MOUSE"
                                 "Electronics" _))) Hin _).
  vm_compute. repeat constructor; simpl; intuition discriminate.
Defined.

(** ** Deleting and saving products *)

(** X17. After a confirmed deletion the product cannot be sold any
    more: [addToCart] for its id answers 'Product not available' and
    changes nothing.  The deletion leaves the ledger and every other
    product as they are; a cancelled deletion changes nothing. *)
Theorem deleted_product_unavailable (st : POS) (productId : Z) :
  addToCart (fst (deleteProduct st productId true)) productId
  = (fst (deleteProduct st productId true), Toast ProductNotAvailable error)
  /\ sales (fst (deleteProduct st productId true)) = sales st
  /\ (forall other,
        other <> productId ->
        List.find (hasProductId other)
          (products (fst (deleteProduct st productId true)))
        = List.find (hasProductId other) (products st))
  /\ deleteProduct st productId false = (st, Silent).
Proof.
  split; [|split; [reflexivity|split; [|reflexivity]]].
  - unfold addToCart.
    assert (List.find (hasProductId productId)
              (products (fst (deleteProduct st productId true))) = None)
      as ->; [|reflexivity].
    apply find_product_none. intros Hin. simpl in Hin.
    apply in_map_iff in Hin as (x & Hid & Hin).
    apply filter_In in Hin as [_ Hkeep].
    apply negb_true_iff, Z.eqb_neq in Hkeep. contradiction.
  - intros other Hne. simpl. apply find_filter_other. exact Hne.
Qed.

Lemma nonEmpty_true (s : string) : s <> "" -> nonEmpty s = true.
Proof. destruct s; [congruence|reflexivity]. Qed.

(** X18. Opening the modal on a product and saving a filled-in form
    writes the form over that product: [find] then returns the form's
    fields under the old id.  The ids and the number of the products,
    every other product, the cart and the ledger are as before, and the
    modal is closed. *)
Theorem edit_writes_form (st : POS) (productId : Z) (form : ProductForm)
    (now : Z) (price : Q) (stock : Z) :
  productId <> 0 ->
  In productId (map product_id (products st)) ->
  filledIn form price stock ->
  let st' :=
    fst (saveProduct (fst (openProductModal st (Some productId))) form now)
  in
  List.find (hasProductId productId) (products st')
  = Some (productOfForm productId form price stock)
  /\ map product_id (products st') = map product_id (products st)
  /\ (forall other,
        other <> productId ->
        List.find (hasProductId other) (products st')
        = List.find (hasProductId other) (products st))
  /\ cart st' = cart st
  /\ sales st' = sales st
  /\ currentEditId st' = None.
Proof.
  intros Hnz Hin (Hname & Hcat & Hprice & Hstock).
  destruct (find_product_found _ _ Hin) as (p & Hp).
  unfold openProductModal, saveProduct.
  assert (truthy (Some productId) = Some productId) as ->
    by (destruct productId; [congruence|reflexivity|reflexivity]).
  rewrite Hp. cbn [fst set_currentEditId products currentEditId cart sales].
  assert (truthy (Some productId) = Some productId) as ->
    by (destruct productId; [congruence|reflexivity|reflexivity]).
  rewrite (nonEmpty_true _ Hname), (nonEmpty_true _ Hcat), Hprice, Hstock, Hp.
  cbn. repeat split.
  - rewrite (find_updateFirst_found _ _ _ p Hp).
    + apply find_product_id in Hp as [-> _]. reflexivity.
    + unfold hasProductId. simpl.
      apply find_product_id in Hp as [-> _]. apply Z.eqb_refl.
  - apply map_updateFirst. reflexivity.
  - intros other Hne. apply find_updateFirst_other.
    intros x Hx. unfold hasProductId in *. simpl.
    apply Z.eqb_eq in Hx. rewrite Hx.
    split; apply Z.eqb_neq; congruence.
Qed.

Lemma edit_writes_form_witness :
  List.find (hasProductId 1)
    (products
       (fst (saveProduct (fst (openProductModal startState (Some 1)))
               (laptopForm 4) 1700000000000)))
  = Some (productOfForm 1 (laptopForm 4) 74999 4).
Proof.
  refine (proj1 (edit_writes_form startState 1 (laptopForm 4)
                   1700000000000 74999 4 _ _ _)).
  - discriminate.
  - left. reflexivity.
  - repeat split; discriminate.
Defined.

Lemma find_app_not_found {A : Type} (pred : A -> bool) (l extra : list A) :
  List.find pred l = None ->
  List.find pred (l ++ extra) = List.find pred extra.
Proof.
  induction l as [|y rest IH]; simpl; [reflexivity|].
  destruct (pred y); [discriminate|exact IH].
Qed.

(** X19. With the modal opened for a new product, saving a filled-in
    form appends one product with [Date.now()] as its id and leaves the
    others, the cart and the ledger as they are.  When no product has
    that id, [find] returns the new product and, unless its stock is 0,
    [addToCart] puts one unit of it in the cart at the form's price; when
    a product already has that id, [find] keeps returning the older
    one. *)
Theorem add_product_then_sell (st : POS) (form : ProductForm) (now : Z)
    (price : Q) (stock : Z) :
  truthy (currentEditId st) = None ->
  filledIn form price stock ->
  let st' := fst (saveProduct st form now) in
  products st' = products st ++ [productOfForm now form price stock]
  /\ cart st' = cart st
  /\ sales st' = sales st
  /\ (~ In now (map product_id (products st)) ->
      List.find (hasProductId now) (products st')
      = Some (productOfForm now form price stock)
      /\ (stock <> 0 ->
          List.find (hasItemId now) (cart st) = None ->
          cart (fst (addToCart st' now))
          = cart st ++ [mkCartItem now (form_name form) price 1]))
  /\ (In now (map product_id (products st)) ->
      List.find (hasProductId now) (products st')
      = List.find (hasProductId now) (products st)).
Proof.
  intros Hnew (Hname & Hcat & Hprice & Hstock).
  unfold saveProduct.
  rewrite (nonEmpty_true _ Hname), (nonEmpty_true _ Hcat), Hprice, Hstock,
    Hnew.
  cbn. split; [reflexivity|]. split; [reflexivity|]. split; [reflexivity|].
  split.
  - intros Hfresh. apply find_product_none in Hfresh.
    assert (List.find (hasProductId now)
              (products st ++ [productOfForm now form price stock])
            = Some (productOfForm now form price stock)) as Hfind.
    { rewrite find_app_not_found by exact Hfresh. simpl.
      unfold hasProductId. simpl. rewrite Z.eqb_refl. reflexivity. }
    split; [exact Hfind|].
    intros Hnz Hline. unfold addToCart.
    cbn [products set_products closeProductModal set_currentEditId cart].
    unfold productOfForm in Hfind. rewrite Hfind. cbn.
    destruct (Z.eqb_spec stock 0); [contradiction|].
    rewrite Hline. reflexivity.
  - intros Hin. destruct (find_product_found _ _ Hin) as (p & Hp).
    rewrite Hp. apply find_app_found. exact Hp.
Qed.

Lemma add_product_then_sell_witness :
  cart (fst (addToCart (fst (saveProduct startState (laptopForm 4) 99)) 99))
  = cart startState ++ [mkCartItem 99 "Laptop" 74999 1].
Proof.
  pose proof (add_product_then_sell startState (laptopForm 4) 99 74999 4
                eq_refl) as H.
  refine (proj2 (proj1 (proj2 (proj2 (proj2 (H _)))) _) _ eq_refl).
  - repeat split; discriminate.
  - vm_compute. intuition discriminate.
  - discriminate.
Defined.

(** ** Reports: what the filter lists *)






Lemma perform_currentFilter (st : POS) (a : Action) :
  currentFilter (perform st a) = currentFilter st.
Proof.
  destruct a; simpl;
    unfold addToCart, updateQuantity, applyDiscount, checkout,
      openProductModal, saveProduct, deleteProduct, reorderProduct;
    branches; reflexivity.
Qed.

Lemma run_currentFilter (st : POS) (actions : list Action) :
  currentFilter (run st actions) = currentFilter st.
Proof.
  revert st. induction actions as [|a rest IH]; intros st; simpl.
  - reflexivity.
  - rewrite IH. apply perform_currentFilter.
Qed.

(** X21. Selling, stocking and discounting never touch the filter of the
    reports page; with the filter that the constructor sets (no search
    text, range 'all') the transaction list is the whole ledger, every
    sale once, in another order at most. *)
Theorem unfiltered_list_is_ledger (st : POS) (actions : list Action)
    (cal : Calendar) :
  currentFilter st = noFilter ->
  currentFilter (run st actions) = noFilter
  /\ Permutation (getFilteredSales (run st actions) cal)
       (sales (run st actions)).
Proof.
  intros Hf. rewrite <- Hf at 1. split; [apply run_currentFilter|].
  unfold getFilteredSales. rewrite run_currentFilter, Hf. simpl.
  apply sort_perm.
Qed.

Lemma unfiltered_list_is_ledger_witness :
  Permutation
    (getFilteredSales (run startState minuteApart)
       (mkCalendar 0 0 0 0 0 0 (fun t => t)))
    (sales (run startState minuteApart)).
Proof.
  exact (proj2 (unfiltered_list_is_ledger startState minuteApart
                  (mkCalendar 0 0 0 0 0 0 (fun t => t)) eq_refl)).
Defined.

Lemma nonEmpty_toLowerCase (s : string) :
  nonEmpty (toLowerCase s) = nonEmpty s.
Proof. destruct s; reflexivity. Qed.

(** X22. The search of the reports page does not see the case of the
    text typed: two texts with the same lower-case form list the same
    transactions in the same order. *)
Theorem search_ignores_case (st : POS) (cal : Calendar) (s1 s2 : string) :
  toLowerCase s1 = toLowerCase s2 ->
  getFilteredSales (setSearch st s1) cal
  = getFilteredSales (setSearch st s2) cal.
Proof.
  intros Hlow. unfold getFilteredSales, setSearch. simpl.
  rewrite <- (nonEmpty_toLowerCase s1), <- (nonEmpty_toLowerCase s2), Hlow.
  reflexivity.
Qed.

Lemma search_ignores_case_witness :
  getFilteredSales (setSearch (run startState minuteApart) "ASHA")
    (mkCalendar 0 0 0 0 0 0 (fun t => t))
  = getFilteredSales (setSearch (run startState minuteApart) "asha")
      (mkCalendar 0 0 0 0 0 0 (fun t => t)).
Proof.
  exact (search_ignores_case (run startState minuteApart)
           (mkCalendar 0 0 0 0 0 0 (fun t => t)) "ASHA" "asha" eq_refl).
Defined.

(** ** Users *)

(** X23. Without the 'admin' permission (a manager, a cashier, or nobody
    signed in) none of the three user operations does anything: each
    returns false, shows 'Insufficient permissions' and leaves the state
    as it is. *)
Theorem user_management_gated (st : POS) :
  hasPermission st "admin" = false ->
  (forall userData idNow dateNow,
     addUser st userData idNow dateNow
     = (st, false, Toast InsufficientPermissions error))
  /\ (forall userId userData,
        updateUser st userId userData
        = (st, false, mkShown "Insufficient permissions" error))
  /\ (forall userId,
        deleteUser st userId
        = (st, false, mkShown "Insufficient permissions" error)).
Proof.
  intros H. unfold addUser, updateUser, deleteUser. rewrite H. simpl.
  repeat split.
Qed.

Lemma user_management_gated_witness :
  deleteUser cashierSession 1
  = (cashierSession, false, mkShown "Insufficient permissions" error).
Proof.
  exact (proj2 (proj2 (user_management_gated cashierSession eq_refl)) 1).
Defined.

Lemma find_user_id (id : Z) (us : list User) (u : User) :
  List.find (hasUserId id) us = Some u -> user_id u = id /\ In u us.
Proof.
  intros H. apply find_some in H as [Hin Hid].
  split; [apply Z.eqb_eq; exact Hid|exact Hin].
Qed.

Lemma find_unique_user (us : list User) (u : User) :
  List.NoDup (map user_id us) -> In u us ->
  List.find (hasUserId (user_id u)) us = Some u.
Proof.
  induction us as [|x rest IH]; simpl; [tauto|].
  intros Hnd Hin. apply List.NoDup_cons_iff in Hnd as [Hx Hnd].
  unfold hasUserId at 1. destruct Hin as [->|Hin].
  - rewrite Z.eqb_refl. reflexivity.
  - destruct (Z.eqb_spec (user_id x) (user_id u)) as [e|_].
    + exfalso. apply Hx. rewrite e. apply in_map. exact Hin.
    + apply IH; assumption.
Qed.

(** What [login] leaves in [users]: the list with the [lastLogin] of the
    found user set, when ids are distinct. *)
Lemma login_users (us : list User) (username password : string) (now : Z)
    (user : User) :
  List.NoDup (map user_id us) ->
  List.find (signsIn username password) us = Some user ->
  updateFirst (hasUserId (user_id user)) (fun _ => set_lastLogin user now)
    (updateFirst (signsIn username password)
       (fun u => set_lastLogin u now) us)
  = updateFirst (signsIn username password)
      (fun u => set_lastLogin u now) us.
Proof.
  intros Hnd Hfind.
  apply (updateFirst_same (hasUserId (user_id user))
           (fun _ => set_lastLogin user now) _ (set_lastLogin user now));
    [|reflexivity].
  assert (List.find (signsIn username password)
            (updateFirst (signsIn username password)
               (fun u => set_lastLogin u now) us)
          = Some (set_lastLogin user now)) as Hfound.
  { apply (find_updateFirst_found _ (fun u => set_lastLogin u now) _ user
             Hfind).
    apply find_some in Hfind as [_ Hs]. exact Hs. }
  apply find_some in Hfound as [Hin _].
  apply (find_unique_user _ (set_lastLogin user now)); [|exact Hin].
  rewrite map_updateFirst by reflexivity. exact Hnd.
Qed.

Lemma In_updateFirst {A : Type} (pred : A -> bool) (f : A -> A)
    (l : list A) (w : A) :
  In w (updateFirst pred f l) ->
  In w l \/ exists x, List.find pred l = Some x /\ w = f x.
Proof.
  induction l as [|z rest IH]; simpl; [tauto|].
  destruct (pred z); simpl.
  - intros [<-|Hin]; [right; eauto|tauto].
  - intros [<-|Hin]; [tauto|]. destruct (IH Hin); tauto.
Qed.

(** A write through [find] keeps a key distinct when no other element has
    the key that is written. *)
Lemma NoDup_map_updateFirst {A B : Type} (pred : A -> bool) (f : A -> A)
    (key : A -> B) (l : list A) :
  List.NoDup (map key l) ->
  (forall x, List.find pred l = Some x ->
             forall y, In y l -> key y = key (f x) -> y = x) ->
  List.NoDup (map key (updateFirst pred f l)).
Proof.
  induction l as [|z rest IH]; simpl; intros Hnd Hfresh; [constructor|].
  apply List.NoDup_cons_iff in Hnd as [Hz Hnd].
  destruct (pred z) eqn:E; simpl; apply List.NoDup_cons_iff.
  - split; [|exact Hnd].
    intros Hin. apply in_map_iff in Hin as (y & Hy & Hin).
    assert (y = z) as -> by (apply (Hfresh z eq_refl); [right|]; assumption).
    apply Hz. apply in_map. exact Hin.
  - split.
    + intros Hin. apply in_map_iff in Hin as (w & Hw & Hin).
      apply In_updateFirst in Hin as [Hin|(x & Hx & ->)].
      * apply Hz. rewrite <- Hw. apply in_map. exact Hin.
      * assert (z = x) as ->
          by (apply (Hfresh x Hx); [left; reflexivity|symmetry; exact Hw]).
        apply find_some in Hx as [_ Hx]. congruence.
    + apply IH; [exact Hnd|].
      intros x Hx y Hy Hk. apply (Hfresh x Hx); [right; exact Hy|exact Hk].
Qed.

Lemma NoDup_map_inj {A B : Type} (key : A -> B) (l : list A) (x y : A) :
  List.NoDup (map key l) -> In x l -> In y l -> key x = key y -> x = y.
Proof.
  induction l as [|z rest IH]; simpl; [tauto|].
  intros Hnd Hx Hy Hk. apply List.NoDup_cons_iff in Hnd as [Hz Hnd].
  destruct Hx as [->|Hx], Hy as [->|Hy].
  - reflexivity.
  - exfalso. apply Hz. rewrite Hk. apply in_map. exact Hy.
  - exfalso. apply Hz. rewrite <- Hk. apply in_map. exact Hx.
  - apply IH; assumption.
Qed.

Lemma existsb_false_forall {A : Type} (test : A -> bool) (l : list A) :
  existsb test l = false -> forall x, In x l -> test x = false.
Proof.
  intros H x Hin. destruct (test x) eqn:E; [|reflexivity].
  assert (existsb test l = true) by (apply existsb_exists; eauto).
  congruence.
Qed.

Lemma users_after_load (st : POS) (stored : Stored) :
  users (addSampleProducts (loadData st stored)) = users st
  /\ currentUser (addSampleProducts (loadData st stored)) = currentUser st.
Proof.
  unfold addSampleProducts, loadData. branches; split; reflexivity.
Qed.

Lemma addUser_usersDistinct (st : POS) (userData : UserData)
    (idNow dateNow : Z) :
  ~ In idNow (map user_id (users st)) ->
  usersDistinct st ->
  usersDistinct (fst (fst (addUser st userData idNow dateNow))).
Proof.
  intros Hfresh [Hnames Hids]. unfold addUser.
  destruct (negb _); [split; assumption|].
  destruct (existsb _ (users st)) eqn:E; [split; assumption|].
  pose proof (existsb_false_forall _ _ E) as Hfree.
  split; simpl; rewrite map_app; simpl.
  - apply List.NoDup_app; [exact Hnames|repeat constructor; intros []|].
    intros name Hin [<-|[]]. apply in_map_iff in Hin as (u & Hu & Hin).
    specialize (Hfree u Hin). simpl in Hfree.
    apply String.eqb_neq in Hfree. congruence.
  - apply List.NoDup_app; [exact Hids|repeat constructor; intros []|].
    intros id Hin [<-|[]]. contradiction.
Qed.

Lemma updateUser_usersDistinct (st : POS) (userId : Z)
    (userData : UserData) :
  usersDistinct st ->
  usersDistinct (fst (fst (updateUser st userId userData))).
Proof.
  intros [Hnames Hids]. unfold updateUser.
  destruct (negb _); [split; assumption|].
  destruct (List.find (hasUserId userId) (users st)) as [found|] eqn:Ef;
    [|split; assumption].
  destruct (existsb _ (users st)) eqn:E; [split; assumption|].
  pose proof (existsb_false_forall _ _ E) as Hfree.
  split; simpl.
  - apply NoDup_map_updateFirst; [exact Hnames|].
    intros x Hx y Hy Hk. simpl in Hk.
    specialize (Hfree y Hy). simpl in Hfree.
    apply String.eqb_eq in Hk as Hk'. rewrite Hk' in Hfree.
    rewrite andb_true_r in Hfree.
    apply negb_false_iff, Z.eqb_eq in Hfree.
    apply find_user_id in Hx as [Hid Hin].
    apply (NoDup_map_inj user_id (users st)); try assumption. congruence.
  - rewrite map_updateFirst by reflexivity. exact Hids.
Qed.

Lemma deleteUser_usersDistinct (st : POS) (userId : Z) :
  usersDistinct st -> usersDistinct (fst (fst (deleteUser st userId))).
Proof.
  intros [Hnames Hids]. unfold deleteUser.
  destruct (negb _); [split; assumption|].
  destruct (currentUser st); [|split; assumption].
  destruct (Z.eqb _ userId); [split; assumption|].
  split; simpl; apply NoDup_map_filter; assumption.
Qed.

Lemma login_usersDistinct (st : POS) (username password : string) (now : Z)
    (stored : Stored) :
  usersDistinct st ->
  usersDistinct (fst (login st username password now stored)).
Proof.
  intros [Hnames Hids]. unfold login, usersDistinct.
  destruct (List.find (signsIn username password) (users st)) as [user|]
    eqn:Ef; [|split; assumption].
  cbn [fst]. rewrite (proj1 (users_after_load _ stored)). simpl.
  rewrite (login_users _ _ _ _ _ Hids Ef).
  rewrite !map_updateFirst by reflexivity. split; assumption.
Qed.

(** X24. Usernames and user ids stay distinct: through every sequence of
    adding, editing and deleting users, signing in and signing out, as
    long as each added user gets an id that no user has at that
    moment. *)
Theorem users_stay_distinct (st : POS) (actions : list UserAction) :
  usersDistinct st ->
  freshUserIds st actions ->
  usersDistinct (runUsers st actions).
Proof.
  revert st. induction actions as [|a rest IH]; intros st Hd Hfresh; simpl.
  - exact Hd.
  - destruct Hfresh as [Ha Hrest]. apply IH; [|exact Hrest].
    destruct a; simpl.
    + apply addUser_usersDistinct; assumption.
    + apply updateUser_usersDistinct; exact Hd.
    + apply deleteUser_usersDistinct; exact Hd.
    + apply login_usersDistinct; exact Hd.
    + exact Hd.
Qed.

Lemma users_stay_distinct_witness :
  usersDistinct
    (runUsers startState
       [AddUser (mkUserData "Ravi" "ravi" "secret" "cashier" "") 2 0;
        UpdateUser 2 (mkUserData "Ravi K" "ravi" "secret" "manager" "");
        Logout; Login "ravi" "secret" 5 (mkStored None None)]).
Proof.
  refine (users_stay_distinct startState _ _ _).
  - split; repeat constructor; intros [].
  - cbn. repeat split. intros [H|[]]. discriminate H.
Defined.

(** X25. An administrator cannot delete the account that is signed in:
    [deleteUser] with that id returns false and changes nothing.  With
    another id it returns true, takes out every user with that id,
    keeps every other user, and leaves the signed-in user signed in. *)
Theorem deleteUser_keeps_own_account (st : POS) (current : User)
    (userId : Z) :
  currentUser st = Some current ->
  user_role current = "admin" ->
  (userId = user_id current ->
   deleteUser st userId
   = (st, false, mkShown "Cannot delete your own account" error))
  /\ (userId <> user_id current ->
      snd (fst (deleteUser st userId)) = true
      /\ (forall u,
            In u (users (fst (fst (deleteUser st userId))))
            <-> In u (users st) /\ user_id u <> userId)
      /\ currentUser (fst (fst (deleteUser st userId))) = Some current).
Proof.
  intros Hc Hrole. unfold deleteUser, hasPermission.
  rewrite Hc, Hrole. simpl. split.
  - intros ->. rewrite Z.eqb_refl. reflexivity.
  - intros Hne. destruct (Z.eqb_spec (user_id current) userId);
      [congruence|].
    simpl. split; [reflexivity|]. split; [|exact Hc].
    intros u. rewrite filter_In, negb_true_iff, Z.eqb_neq. tauto.
Qed.

Lemma deleteUser_keeps_own_account_witness :
  deleteUser startState 1
  = (startState, false, mkShown "Cannot delete your own account" error).
Proof.
  exact (proj1 (deleteUser_keeps_own_account startState (administrator 0) 1
                  eq_refl eq_refl) eq_refl).
Defined.

(** X26. A user that [addUser] has accepted can sign in: after a sign
    out, [login] with the username and the password of the form
    succeeds, and the signed-in user is the one that was added, with the
    role of the form and the time of the login as last login. *)
Theorem added_user_signs_in (st : POS) (userData : UserData)
    (idNow dateNow now : Z) (stored : Stored) :
  snd (fst (addUser st userData idNow dateNow)) = true ->
  let added :=
    mkUser idNow (data_name userData) (data_username userData)
           (data_password userData) (data_role userData)
           (data_email userData) None true dateNow in
  let st' := logout (fst (fst (addUser st userData idNow dateNow))) in
  snd (login st' (data_username userData) (data_password userData) now
         stored)
  = Welcome
      (mkShown ("Welcome back, " ++ data_name userData ++ "!") success)
  /\ currentUser
       (fst (login st' (data_username userData) (data_password userData)
               now stored))
     = Some (set_lastLogin added now).
Proof.
  unfold addUser. destruct (negb _); [discriminate|].
  destruct (existsb _ (users st)) eqn:E; [discriminate|].
  intros _. cbv zeta. unfold login, logout.
  cbn [fst set_users set_currentUser users].
  pose proof (existsb_false_forall _ _ E) as Hfree.
  assert (List.find
            (signsIn (data_username userData) (data_password userData))
            (users st) = None) as Hnone.
  { destruct (List.find _ (users st)) as [u|] eqn:Ef; [|reflexivity].
    apply find_some in Ef as [Hin Hs]. specialize (Hfree u Hin).
    unfold signsIn in Hs. simpl in Hfree. rewrite Hfree in Hs.
    discriminate Hs. }
  match goal with
  | |- context [List.find ?t (users st ++ [?u])] =>
      assert (List.find t (users st ++ [u]) = Some u) as ->
  end.
  { rewrite (find_app_not_found _ _ _ Hnone). simpl.
    unfold signsIn. simpl. rewrite !String.eqb_refl. reflexivity. }
  cbn [fst snd user_name user_id].
  split; [reflexivity|].
  rewrite (proj2 (users_after_load _ stored)). reflexivity.
Qed.

Lemma added_user_signs_in_witness :
  currentUser
    (fst (login
            (logout
               (fst (fst (addUser startState
                            (mkUserData "Ravi" "ravi" "secret" "cashier" "")
                            2 0))))
            "ravi" "secret" 5 (mkStored None None)))
  = Some (set_lastLogin cashier 5).
Proof.
  exact (proj2 (added_user_signs_in startState
                  (mkUserData "Ravi" "ravi" "secret" "cashier" "") 2 0 5
                  (mkStored None None) eq_refl)).
Defined.

(** X27. A deleted user cannot sign in: when usernames are distinct and
    [deleteUser] has returned true for the id of a user, [login] with
    that user's username fails with 'Invalid username or password',
    whatever password is given, and changes nothing. *)
Theorem deleted_user_cannot_sign_in (st : POS) (deleted : User)
    (password : string) (now : Z) (stored : Stored) :
  List.NoDup (map user_username (users st)) ->
  In deleted (users st) ->
  snd (fst (deleteUser st (user_id deleted))) = true ->
  let st' := fst (fst (deleteUser st (user_id deleted))) in
  login st' (user_username deleted) password now stored
  = (st', LoginMessage "Invalid username or password").
Proof.
  intros Hnames Hin Hdone. cbv zeta.
  unfold deleteUser in *. destruct (negb _); [discriminate|].
  destruct (currentUser st) as [current|]; [|discriminate].
  destruct (Z.eqb _ (user_id deleted)); [discriminate|].
  unfold login. cbn [fst set_users users].
  destruct (List.find _ _) as [found|] eqn:Ef; [|reflexivity].
  exfalso. apply find_some in Ef as [Hu Hs].
  apply filter_In in Hu as [Hu Hkeep].
  apply negb_true_iff, Z.eqb_neq in Hkeep.
  unfold signsIn in Hs. apply andb_true_iff in Hs as [Hs _].
  apply andb_true_iff in Hs as [Hs _]. apply String.eqb_eq in Hs.
  apply Hkeep. f_equal.
  apply (NoDup_map_inj user_username (users st)); assumption.
Qed.

Lemma deleted_user_cannot_sign_in_witness :
  login (fst (fst (deleteUser
                     (set_currentUser cashierSession
                        (Some (administrator 0))) 2)))
    "ravi" "secret" 5 (mkStored None None)
  = (fst (fst (deleteUser
                 (set_currentUser cashierSession (Some (administrator 0)))
                 2)),
     LoginMessage "Invalid username or password").
Proof.
  refine (deleted_user_cannot_sign_in
            (set_currentUser cashierSession (Some (administrator 0)))
            cashier "secret" 5 (mkStored None None) _ _ eq_refl).
  - simpl. repeat constructor; simpl; intuition discriminate.
  - right. left. reflexivity.
Defined.

(** ** Customers *)

Lemma recordSale_plain (m : gmap string CustomerRecord) (sale : Sale) :
  inherited (customerKey sale) = false ->
  recordSale m sale
  = Some (<[ customerKey sale :=
               addOrder (default (newRecord sale) (m !! customerKey sale))
                        sale ]> m).
Proof.
  intros Hplain. unfold recordSale, getProperty.
  destruct (m !! customerKey sale) as [c|] eqn:E.
  - rewrite E. reflexivity.
  - rewrite Hplain, lookup_insert_eq, insert_insert_eq. reflexivity.
Qed.

Lemma recordSale_inherited (m : gmap string CustomerRecord) (sale : Sale) :
  m !! customerKey sale = None ->
  inherited (customerKey sale) = true ->
  recordSale m sale = None.
Proof.
  intros Hnone Hinh. unfold recordSale, getProperty.
  cbv zeta. rewrite Hnone, Hinh. cbv iota. rewrite Hnone.
  reflexivity.
Qed.

Lemma recordSales_app (m : gmap string CustomerRecord) (l1 l2 : list Sale) :
  recordSales m (l1 ++ l2)
  = match snd (recordSales m l1) with
    | Silent => recordSales (fst (recordSales m l1)) l2
    | _ => recordSales m l1
    end.
Proof.
  revert m. induction l1 as [|sale rest IH]; intros m; simpl.
  - reflexivity.
  - destruct (recordSale m sale) as [m'|]; [apply IH|reflexivity].
Qed.

Lemma spent_app (l1 l2 : list Sale) :
  (spent (l1 ++ l2) == spent l1 + spent l2)%Q.
Proof.
  induction l1 as [|sale rest IH]; simpl.
  - ring.
  - rewrite IH. ring.
Qed.

Lemma salesOf_app (key : string) (l : list Sale) (sale : Sale) :
  salesOf key (l ++ [sale])
  = salesOf key l
    ++ (if String.eqb (customerKey sale) key then [sale] else []).
Proof.
  unfold salesOf. rewrite List.filter_app. simpl.
  destruct (String.eqb (customerKey sale) key); reflexivity.
Qed.

Lemma summarizes_first (sale : Sale) :
  summarizes (addOrder (newRecord sale) sale) [sale].
Proof.
  unfold summarizes. simpl. repeat split.
  - ring.
  - exists sale. repeat split.
  - exists (sale_date sale). repeat split; [left; reflexivity|].
    repeat constructor. lia.
  - exists (sale_date sale). repeat split; [left; reflexivity|].
    repeat constructor. lia.
Qed.

Lemma summarizes_next (c : CustomerRecord) (group : list Sale)
    (sale : Sale) :
  group <> [] ->
  summarizes c group -> summarizes (addOrder c sale) (group ++ [sale]).
Proof.
  intros Hne (Ho & Hn & Hs & (first & Hf & Hname & Hphone)
              & (latest & Hl & Hlin & Hlmax)
              & (earliest & He & Hein & Hemin)).
  unfold summarizes, addOrder. simpl.
  split; [rewrite Ho, map_app; reflexivity|].
  split; [rewrite Hn, length_app; simpl; lia|].
  split; [rewrite Hs, spent_app; simpl; ring|].
  split.
  { exists first. split; [|split; assumption].
    destruct group; [congruence|exact Hf]. }
  rewrite map_app. simpl. split.
  - rewrite Hl. rewrite Z.gtb_ltb.
    destruct (Z.ltb_spec latest (sale_date sale)).
    + exists (sale_date sale). split; [reflexivity|].
      split; [apply in_or_app; right; left; reflexivity|].
      apply List.Forall_app. split; [|repeat constructor; lia].
      eapply List.Forall_impl; [|exact Hlmax]. simpl. intros d Hd. lia.
    + exists latest. split; [reflexivity|].
      split; [apply in_or_app; left; exact Hlin|].
      apply List.Forall_app. split; [exact Hlmax|repeat constructor; lia].
  - rewrite He.
    destruct (Z.ltb_spec (sale_date sale) earliest).
    + exists (sale_date sale). split; [reflexivity|].
      split; [apply in_or_app; right; left; reflexivity|].
      apply List.Forall_app. split; [|repeat constructor; lia].
      eapply List.Forall_impl; [|exact Hemin]. simpl. intros d Hd. lia.
    + exists earliest. split; [reflexivity|].
      split; [apply in_or_app; left; exact Hein|].
      apply List.Forall_app. split; [exact Hemin|repeat constructor; lia].
Qed.

Lemma ordersOfAll_insert_new (m : gmap string CustomerRecord) (k : string)
    (c : CustomerRecord) :
  m !! k = None ->
  ordersOfAll (<[ k := c ]> m) = record_totalOrders c + ordersOfAll m.
Proof.
  intros Hnone. unfold ordersOfAll.
  rewrite map_fold_insert_L; [reflexivity| |exact Hnone].
  intros. lia.
Qed.

Lemma ordersOfAll_insert_old (m : gmap string CustomerRecord) (k : string)
    (c c' : CustomerRecord) :
  m !! k = Some c ->
  ordersOfAll (<[ k := c' ]> m)
  = ordersOfAll m - record_totalOrders c + record_totalOrders c'.
Proof.
  intros Hsome. rewrite <- insert_delete_eq.
  rewrite ordersOfAll_insert_new by apply lookup_delete_eq.
  unfold ordersOfAll at 2.
  rewrite (map_fold_delete_L _ _ k c m); [|intros; lia|exact Hsome].
  unfold ordersOfAll. lia.
Qed.

Lemma ordersOfAll_insert (m : gmap string CustomerRecord) (sale : Sale) :
  ordersOfAll
    (<[ customerKey sale :=
          addOrder (default (newRecord sale) (m !! customerKey sale))
                   sale ]> m)
  = ordersOfAll m + 1.
Proof.
  destruct (m !! customerKey sale) as [c|] eqn:E; simpl.
  - rewrite (ordersOfAll_insert_old _ _ c) by exact E. simpl. lia.
  - rewrite ordersOfAll_insert_new by exact E. simpl. lia.
Qed.

(** On a ledger without inherited names the [forEach] ends without an
    error, and its customers own no inherited name, count every sale and
    group the ledger by key. *)
Lemma customers_grouped (l : list Sale) :
  plainKeys l ->
  exists m,
    recordSales ∅ l = (m, Silent)
    /\ (forall key, inherited key = true -> m !! key = None)
    /\ ordersOfAll m = Z.of_nat (length l)
    /\ forall key,
         match m !! key with
         | None => salesOf key l = []
         | Some c => salesOf key l <> [] /\ summarizes c (salesOf key l)
         end.
Proof.
  unfold plainKeys.
  induction l as [|sale rest IH] using rev_ind; intros Hplain.
  - exists ∅. split; [reflexivity|].
    split; [intros; apply lookup_empty|].
    split; [reflexivity|].
    intros key. rewrite lookup_empty. reflexivity.
  - apply List.Forall_app in Hplain. destruct Hplain as [Hrest Hsale].
    apply Forall_inv in Hsale.
    destruct (IH Hrest) as (m & Hrun & Hown & Hcount & Hgroup).
    exists (<[ customerKey sale :=
                 addOrder (default (newRecord sale) (m !! customerKey sale))
                          sale ]> m).
    split.
    { rewrite recordSales_app, Hrun. simpl.
      rewrite (recordSale_plain m sale Hsale). reflexivity. }
    split.
    { intros key Hkey. rewrite lookup_insert_ne; [apply Hown; exact Hkey|].
      intros Heq. rewrite Heq in Hsale. congruence. }
    split.
    { rewrite ordersOfAll_insert, Hcount, length_app. simpl. lia. }
    intros key. rewrite salesOf_app.
    destruct (String.eqb_spec (customerKey sale) key) as [<-|Hne].
    + rewrite lookup_insert_eq.
      specialize (Hgroup (customerKey sale)).
      destruct (m !! customerKey sale) as [c|]; simpl.
      * destruct Hgroup as [Hsome Hsum].
        split; [destruct (salesOf _ rest); [congruence|discriminate]|].
        apply summarizes_next; assumption.
      * rewrite Hgroup. split; [discriminate|apply summarizes_first].
    + rewrite lookup_insert_ne by exact Hne. rewrite app_nil_r.
      apply Hgroup.
Qed.

(** X28. On a ledger in which no customer key (name, an underscore,
    phone) is a name that every object inherits, the customer view is
    built without an error and groups the ledger by customer key.  A key
    has a record exactly when a sale has that key; the record lists those
    sales as its orders in ledger order, counts them, adds up their
    totals, carries the name and phone of the first of them, and has the
    latest and the earliest of their dates as last and first visit. *)
Theorem customer_record_summarizes (st : POS) (key : string) :
  plainKeys (sales st) ->
  snd (processCustomerData st) = Silent
  /\ (fst (processCustomerData st) !! key = None
      <-> salesOf key (sales st) = [])
  /\ forall c,
       fst (processCustomerData st) !! key = Some c ->
       summarizes c (salesOf key (sales st)).
Proof.
  intros Hplain. unfold processCustomerData.
  destruct (customers_grouped (sales st) Hplain)
    as (m & -> & _ & _ & Hgroup).
  simpl. split; [reflexivity|].
  specialize (Hgroup key).
  destruct (m !! key) as [c|].
  - destruct Hgroup as [Hne Hsum]. split.
    + split; [discriminate|contradiction].
    + intros c' Hc. injection Hc as <-. exact Hsum.
  - split; [tauto|discriminate].
Qed.

Lemma customer_record_summarizes_witness :
  plainKeys (sales (run startState minuteApart))
  /\ snd (processCustomerData (run startState minuteApart)) = Silent
  /\ exists c,
       fst (processCustomerData (run startState minuteApart))
         !! "Asha_5550100" = Some c
       /\ record_totalOrders c = 2.
Proof.
  assert (plainKeys (sales (run startState minuteApart))) as Hplain.
  { repeat constructor. }
  assert (exists c,
            fst (processCustomerData (run startState minuteApart))
              !! "Asha_5550100" = Some c) as (c & Hc).
  { vm_compute. eexists. reflexivity. }
  pose proof (customer_record_summarizes
                (run startState minuteApart) "Asha_5550100" Hplain)
    as (Hsilent & _ & Hsum).
  split; [exact Hplain|]. split; [exact Hsilent|].
  exists c. split; [exact Hc|].
  exact (proj1 (proj2 (Hsum c Hc))).
Defined.

(** X29. The customer view counts every sale once, up to the first sale
    whose customer key is a name that every object inherits.  Without
    such a sale the orders of all customer records add up to the number
    of sales in the ledger.  At the first such sale the view ends in a
    TypeError, and the orders of the records that it leaves add up to the
    number of sales before that one only. *)
Theorem customer_orders_count_sales (st : POS) :
  (plainKeys (sales st) ->
   ordersOfAll (fst (processCustomerData st))
   = Z.of_nat (length (sales st)))
  /\ (forall before sale after,
        sales st = before ++ sale :: after ->
        plainKeys before ->
        inherited (customerKey sale) = true ->
        snd (processCustomerData st) = TypeError
        /\ ordersOfAll (fst (processCustomerData st))
           = Z.of_nat (length before)).
Proof.
  unfold processCustomerData. split.
  - intros Hplain.
    destruct (customers_grouped (sales st) Hplain)
      as (m & -> & _ & Hcount & _).
    exact Hcount.
  - intros before sale after -> Hplain Hinh.
    destruct (customers_grouped before Hplain)
      as (m & Hrun & Hown & Hcount & _).
    rewrite recordSales_app, Hrun. simpl.
    rewrite (recordSale_inherited m sale (Hown _ Hinh) Hinh).
    simpl. split; [reflexivity|exact Hcount].
Qed.

Lemma customer_orders_count_sales_witness :
  ordersOfAll (fst (processCustomerData (run startState minuteApart))) = 2
  /\ snd (processCustomerData (run startState protoSession)) = TypeError
  /\ ordersOfAll (fst (processCustomerData (run startState protoSession)))
     = 1.
Proof.
  split.
  - apply (proj1 (customer_orders_count_sales
                    (run startState minuteApart))).
    repeat constructor.
  - assert (exists first second third,
              sales (run startState protoSession)
              = [first] ++ second :: [third]
              /\ plainKeys [first]
              /\ inherited (customerKey second) = true)
      as (first & second & third & Hsales & Hplain & Hinh).
    { vm_compute. do 3 eexists. split; [reflexivity|].
      split; [repeat constructor|reflexivity]. }
    exact (proj2 (customer_orders_count_sales
                    (run startState protoSession))
             [first] second [third] Hsales Hplain Hinh).
Defined.

(** ** Discounts compared *)

(** X30. On a cart with prices >= 0 and quantities >= 1, an accepted
    discount takes off an amount between 0 and the subtotal, and of two
    discounts of the same type the one with the greater value takes off
    at least as much and leaves a total that is not greater. *)
Theorem greater_discount_smaller_total (st : POS) (type : string)
    (v1 v2 : Q) (code1 code2 : string) (taxEnabled : bool) :
  validLines (cart st) ->
  (0 < v1)%Q -> (v1 <= v2)%Q ->
  let low :=
    updateCartSummary (set_discount st (mkDiscount type v1 code1))
      taxEnabled in
  let high :=
    updateCartSummary (set_discount st (mkDiscount type v2 code2))
      taxEnabled in
  (summary_discount low <= summary_discount high)%Q
  /\ (summary_total high <= summary_total low)%Q
  /\ (acceptedDiscount (mkDiscount type v1 code1) ->
      (0 <= summary_discount low <= summary_subtotal low)%Q).
Proof.
  intros Hlines Hpos Hle. cbv zeta.
  pose proof (spec_subtotal_nonneg _ Hlines) as Hsub.
  unfold updateCartSummary. simpl.
  set (subtotal := fold_left _ (cart st) 0%Q).
  assert (subtotal == spec_subtotal (cart st))%Q as Hs.
  { unfold subtotal. rewrite reduce_subtotal. ring. }
  assert (0 < v2)%Q as Hpos2 by lra.
  apply Qgtb_true in Hpos as Hg1. apply Qgtb_true in Hpos2 as Hg2.
  rewrite Hg1, Hg2.
  assert (forall d1 d2 : Q,
            d1 <= d2 ->
            subtotal - d2
            + (if taxEnabled then (subtotal - d2) * (1 # 10) else 0)
            <= subtotal - d1
               + (if taxEnabled then (subtotal - d1) * (1 # 10) else 0))%Q
    as Hmono by (intros d1 d2 Hd; destruct taxEnabled; lra).
  destruct (String.eqb type "percentage") eqn:Et.
  - assert (v1 / 100 <= v2 / 100)%Q as Hdiv.
    { unfold Qdiv. apply Qmult_le_compat_r; [exact Hle|].
      unfold Qle; simpl; lia. }
    assert (0 <= v1 / 100)%Q as Hdiv0 by (apply Qle_shift_div_l; lra).
    assert (subtotal * (v1 / 100) <= subtotal * (v2 / 100))%Q as Hd by nra.
    split; [exact Hd|]. split; [apply Hmono; exact Hd|].
    intros [_ Hcap]. simpl in Hcap. apply String.eqb_eq in Et.
    specialize (Hcap Et).
    assert (v1 / 100 <= 1)%Q by (apply Qle_shift_div_r; lra).
    split; nra.
  - assert (Qmin v1 subtotal <= Qmin v2 subtotal)%Q as Hd
      by (apply Q.min_le_compat_r; exact Hle).
    split; [exact Hd|]. split; [apply Hmono; exact Hd|].
    intros _. split; [apply Q.min_glb; lra|apply Q.le_min_r].
Qed.

Lemma greater_discount_smaller_total_witness :
  (summary_total
     (updateCartSummary
        (set_discount twoLaptops (mkDiscount "fixed" 500 "")) true)
   <= summary_total
        (updateCartSummary
           (set_discount twoLaptops (mkDiscount "fixed" 100 "")) true))%Q.
Proof.
  refine (proj1 (proj2 (greater_discount_smaller_total twoLaptops "fixed"
                          100 500 "" "" true _ _ _))).
  - vm_compute. repeat constructor; discriminate.
  - reflexivity.
  - discriminate.
Defined.
